(** * agent-land: a shallow embedding of the data tools, the retry helper,
      the playground history and the agent builder's configuration files.

    The Python sources are modelled function by function:
    - [src/tools/data_tools.py]   -> [Module DataTools]
    - [src/utils/helpers.py]      -> [Module Helpers]
    - [playground.py]             -> [Module Playground]
    - [src/utils/agent_builder.py]-> [Module AgentBuilder]

    Python values are the JSON-shaped ones the tools are fed: [None], [bool],
    unbounded [int] (as [Z]), [float] (as IEEE-754 binary64, Rocq's primitive
    floats), [str], [list] and [dict] (insertion-ordered, as an association
    list).  Exceptions are explicit: a computation that can raise returns a
    [result]. *)

From Stdlib Require Import ZArith Floats Uint63 List Permutation Sorted String Ascii Lia Bool.
From stdpp Require Import base gmap strings list pretty.

Open Scope string_scope.
Open Scope list_scope.

(** ** The Python runtime the sources rely on *)
Module Py.

(** Exception classes met in the sources.  [BaseExceptionOnly] stands for
    the classes that derive from [BaseException] but not from [Exception]
    ([KeyboardInterrupt], [SystemExit], [asyncio.CancelledError]): an
    [except Exception] clause does not catch them. *)
Inductive exn_class :=
| JSONDecodeError
| ValueError
| TypeError
| OverflowError
| KeyError
| IndexError
| ZeroDivisionError
| OSError
| OtherException (name : string)
| BaseExceptionOnly (name : string).

(** An exception object: its class, its message ([str(e)]) and its truth
    value ([bool(e)], which is [True] unless the class defines [__bool__] or
    [__len__]). *)
Record exn := Exn {
  exn_class_of : exn_class;
  exn_msg : string;
  exn_truthy : bool
}.

(** [isinstance(e, Exception)] *)
Definition is_Exception (e : exn) : bool :=
  match exn_class_of e with
  | BaseExceptionOnly _ => false
  | _ => true
  end.

(** [isinstance(e, ValueError)]: [json.JSONDecodeError] derives from it. *)
Definition is_ValueError (e : exn) : bool :=
  match exn_class_of e with
  | ValueError | JSONDecodeError => true
  | _ => false
  end.

Definition is_TypeError (e : exn) : bool :=
  match exn_class_of e with
  | TypeError => true
  | _ => false
  end.

Definition is_JSONDecodeError (e : exn) : bool :=
  match exn_class_of e with
  | JSONDecodeError => true
  | _ => false
  end.

(** The outcome of a call: a value, or a raised exception. *)
Inductive result (A : Type) :=
| Ok (a : A)
| Raise (e : exn).
Arguments Ok {A} a.
Arguments Raise {A} e.

Definition bind {A B : Type} (m : result A) (k : A -> result B) : result B :=
  match m with
  | Ok a => k a
  | Raise e => Raise e
  end.

#[export] Instance result_bind : MBind result := fun A B k m => bind m k.
#[export] Instance result_ret : MRet result := @Ok.

(** A list comprehension whose element expression may raise. *)
Fixpoint mapM {A B : Type} (f : A -> result B) (l : list A) : result (list B) :=
  match l with
  | [] => Ok []
  | x :: l' => y ← f x; ys ← mapM f l'; Ok (y :: ys)
  end.

(** JSON-shaped Python values.  A [dict] keeps its insertion order. *)
#[warnings="-register-all"]
Inductive Value :=
| VNone
| VBool (b : bool)
| VInt (z : Z)
| VFloat (f : float)
| VStr (s : string)
| VList (l : list Value)
| VDict (d : list (string * Value)).

(** A record of tabular data: [Dict[str, Any]]. *)
Definition Record := list (string * Value).

(** *** dict operations (keys are strings) *)

(** [d.get(k)], [None] when the key is absent *)
Fixpoint dict_get {V : Type} (k : string) (d : list (string * V)) : option V :=
  match d with
  | [] => None
  | (k', v) :: d' => if String.eqb k k' then Some v else dict_get k d'
  end.

(** [k in d] *)
Definition dict_mem {V : Type} (k : string) (d : list (string * V)) : bool :=
  match dict_get k d with
  | Some _ => true
  | None => false
  end.

(** [d[k] = v]: overwrite in place, or add at the end *)
Fixpoint dict_set {V : Type} (k : string) (v : V) (d : list (string * V))
  : list (string * V) :=
  match d with
  | [] => [(k, v)]
  | (k', v') :: d' =>
      if String.eqb k k' then (k, v) :: d' else (k', v') :: dict_set k v d'
  end.

(** [d.keys()] *)
Definition dict_keys {V : Type} (d : list (string * V)) : list string :=
  map fst d.

(** *** numbers *)

(** [float(z)] for an int: the nearest double, ties to even;
    [OverflowError] when it is out of range. *)
Definition float_of_int (z : Z) : result float :=
  let f := SF2Prim (binary_normalize prec emax z 0 false) in
  if PrimFloat.is_infinity f
  then Raise (Exn OverflowError "int too large to convert to float" true)
  else Ok f.

(** [float(n)] for a length: [len] of a list is below [2^63], where the
    conversion cannot overflow. *)
Definition float_of_len (n : nat) : float :=
  PrimFloat.of_uint63 (Uint63.of_Z (Z.of_nat n)).

(** [isinstance(v, (int, float))]; [bool] is a subclass of [int]. *)
Definition is_int_or_float (v : Value) : bool :=
  match v with
  | VBool _ | VInt _ | VFloat _ => true
  | _ => false
  end.

(** [float(v)] for a value that passed [isinstance(v, (int, float))];
    other values are not converted by the sources. *)
Definition py_float (v : Value) : result float :=
  match v with
  | VBool true => Ok 1%float
  | VBool false => Ok 0%float
  | VInt z => float_of_int z
  | VFloat f => Ok f
  | _ => Raise (Exn TypeError "float() argument must be a string or a real number" true)
  end.

(** The exact comparison [z == f] of an int with a float. *)
Definition int_eq_float (z : Z) (f : float) : bool :=
  match Prim2SF f with
  | S754_zero _ => Z.eqb z 0
  | S754_finite s m e =>
      let mag := Z.pos m in
      let sgn := if s then (-1)%Z else 1%Z in
      if (0 <=? e)%Z
      then Z.eqb z (sgn * mag * 2 ^ e)
      else Z.eqb (z * 2 ^ (- e)) (sgn * mag)
  | S754_infinity _ | S754_nan => false
  end.

(** [a == b] on JSON-shaped values.  Numbers compare across [bool], [int]
    and [float]; a NaN differs from everything; containers compare
    element-wise (two containers are distinct objects here, so the
    identity shortcut of container comparison plays no part). *)
Fixpoint py_eq (a b : Value) {struct a} : bool :=
  match a, b with
  | VNone, VNone => true
  | VStr s, VStr t => String.eqb s t
  | VBool x, VBool y => Bool.eqb x y
  | VBool x, VInt z => Z.eqb (if x then 1 else 0) z
  | VInt z, VBool x => Z.eqb z (if x then 1 else 0)
  | VInt x, VInt y => Z.eqb x y
  | VBool x, VFloat f => int_eq_float (if x then 1 else 0) f
  | VFloat f, VBool x => int_eq_float (if x then 1 else 0) f
  | VInt z, VFloat f => int_eq_float z f
  | VFloat f, VInt z => int_eq_float z f
  | VFloat f, VFloat g => PrimFloat.eqb f g
  | VList l, VList m =>
      (fix go (l m : list Value) : bool :=
         match l, m with
         | [], [] => true
         | x :: l', y :: m' => py_eq x y && go l' m'
         | _, _ => false
         end) l m
  | VDict d, VDict e =>
      Nat.eqb (length d) (length e) &&
      (fix go (d : list (string * Value)) : bool :=
         match d with
         | [] => true
         | (k, v) :: d' =>
             match dict_get k e with
             | Some w => py_eq v w
             | None => false
             end && go d'
         end) d
  | _, _ => false
  end.

(** [a != b] *)
Definition py_ne (a b : Value) : bool := negb (py_eq a b).

(** [list.sort()] / [sorted] on values that [<] orders: the sort is
    stable and compares by [<] only, so its result is the one list that
    holds the elements in ascending order with equal elements (as [0.0]
    and [-0.0]) in the order they came in.  It is built from the end:
    an element is put before the first element of the sorted rest that
    is not smaller, so before the elements equal to it, which came
    after it. *)
Fixpoint sort_insert {A : Type} (lt : A -> A -> bool) (x : A) (l : list A) : list A :=
  match l with
  | [] => [x]
  | y :: l' => if lt y x then y :: sort_insert lt x l' else x :: y :: l'
  end.

Fixpoint sort_by {A : Type} (lt : A -> A -> bool) (l : list A) : list A :=
  match l with
  | [] => []
  | x :: l' => sort_insert lt x (sort_by lt l')
  end.

(** [l[i]] with Python's negative indices; [IndexError] out of range. *)
Definition getitem {A : Type} (l : list A) (i : Z) : result A :=
  let n := Z.of_nat (length l) in
  let j := if (i <? 0)%Z then (n + i)%Z else i in
  if (j <? 0)%Z then Raise (Exn IndexError "list index out of range" true)
  else match nth_error l (Z.to_nat j) with
       | Some x => Ok x
       | None => Raise (Exn IndexError "list index out of range" true)
       end.

(** [l[:k]] *)
Definition slice_to {A : Type} (l : list A) (k : Z) : list A :=
  if (k <? 0)%Z then firstn (Z.to_nat (Z.of_nat (length l) + k)) l
  else firstn (Z.to_nat k) l.

(** [l[-k:]] for a positive literal [k] *)
Definition last_n {A : Type} (k : nat) (l : list A) : list A :=
  skipn (length l - k) l.

(** What the interpreter and the C library decide and the sources only
    call: float power ([x ** y], which raises [OverflowError] when a
    finite operand overflows); the builtin [sum] over floats; the [repr]
    of floats and containers, which raises [ValueError] when an int
    inside has too many digits; the number of digits up to which an int
    is converted to a string ([sys.get_int_max_str_digits()]: 4300
    unless set otherwise, 0 for no limit); and what [list.sort()] leaves
    of a list of floats that [<] does not order, one with a NaN, where
    the result depends on the comparisons the merge sort happens to
    make. *)
Class Runtime := {
  float_pow : float -> float -> result float;
  sum_floats : list float -> float;
  repr : Value -> result string;
  int_max_str_digits : Z;
  sort_unordered : list float -> list float
}.

(** [str(z)] for an int: [ValueError] when it has more digits than the
    limit. *)
Definition str_of_int `{Runtime} (z : Z) : result string :=
  if (0 <? int_max_str_digits)%Z && (10 ^ int_max_str_digits <=? Z.abs z)%Z
  then Raise (Exn ValueError "Exceeds the limit for integer string conversion" true)
  else Ok (pretty z).

(** [str(v)] *)
Definition py_str `{Runtime} (v : Value) : result string :=
  match v with
  | VNone => Ok "None"
  | VBool true => Ok "True"
  | VBool false => Ok "False"
  | VInt z => str_of_int z
  | VStr s => Ok s
  | VFloat _ | VList _ | VDict _ => repr v
  end.

(** No element is a NaN: [<] orders the list. *)
Definition no_nan (l : list float) : bool :=
  forallb (fun x => negb (PrimFloat.is_nan x)) l.

(** [l.sort()] on floats *)
Definition sort_floats `{Runtime} (l : list float) : list float :=
  if no_nan l then sort_by PrimFloat.ltb l else sort_unordered l.

(** A runtime to evaluate the model on examples: the power by a
    multiplication or a square root for the two exponents the sources use,
    the sum from left to right starting at [0], a [repr] that prints a
    float's bits, the limit of 4300 digits, and a list with a NaN sorted
    as if [<] ordered it. *)
Definition example_pow (x y : float) : result float :=
  if PrimFloat.eqb y 2%float then
    let r := (x * x)%float in
    if PrimFloat.is_infinity r && negb (PrimFloat.is_infinity x)
    then Raise (Exn OverflowError "(34, 'Numerical result out of range')" true)
    else Ok r
  else if PrimFloat.eqb y 0.5%float then Ok (PrimFloat.sqrt x)
  else Raise (Exn ValueError "exponent outside the example runtime" true).

Definition example_sum (l : list float) : float :=
  fold_left PrimFloat.add l 0%float.

Definition example_repr (v : Value) : string :=
  match v with
  | VFloat f =>
      match Prim2SF f with
      | S754_zero s => if s then "-0.0" else "0.0"
      | S754_infinity s => if s then "-inf" else "inf"
      | S754_nan => "nan"
      | S754_finite s m e =>
          (if s then "-" else "") +:+ pretty (Z.pos m) +:+ "*2**" +:+ pretty e
      end
  | VList l => "[" +:+ pretty (length l) +:+ " items]"
  | VDict d => "{" +:+ pretty (length d) +:+ " items}"
  | _ => ""
  end.

#[export] Instance example_runtime : Runtime := {|
  float_pow := example_pow;
  sum_floats := example_sum;
  repr := fun v => Ok (example_repr v);
  int_max_str_digits := 4300;
  sort_unordered := sort_by PrimFloat.ltb
|}.

End Py.
Export Py.

(** ** [src/tools/data_tools.py]

    The methods of [DataTools] are pure but for their calls to [logger],
    which write to the log and return nothing.  The log is modelled for
    [load_json_data], whose handlers do nothing else; the other methods
    are modelled by what they return or raise. *)
Module DataTools.

(** *** Ordering of values, as [min] and [max] use it *)

(** [z < f] and [f < z] for an int and a float, exactly. *)
Definition int_lt_float (z : Z) (f : float) : bool :=
  match Prim2SF f with
  | S754_zero _ => (z <? 0)%Z
  | S754_finite s m e =>
      let sm := if s then (- Z.pos m)%Z else Z.pos m in
      if (0 <=? e)%Z then (z <? sm * 2 ^ e)%Z else (z * 2 ^ (- e) <? sm)%Z
  | S754_infinity s => negb s
  | S754_nan => false
  end.

Definition float_lt_int (f : float) (z : Z) : bool :=
  match Prim2SF f with
  | S754_zero _ => (0 <? z)%Z
  | S754_finite s m e =>
      let sm := if s then (- Z.pos m)%Z else Z.pos m in
      if (0 <=? e)%Z then (sm * 2 ^ e <? z)%Z else (sm <? z * 2 ^ (- e))%Z
  | S754_infinity s => s
  | S754_nan => false
  end.

Definition not_ordered : exn :=
  Exn TypeError "'<' not supported between these instances" true.

Definition int_of_bool (b : bool) : Z := if b then 1%Z else 0%Z.

(** [a < b]; [TypeError] between values Python does not order. *)
Fixpoint py_lt (a b : Value) {struct a} : result bool :=
  match a, b with
  | VStr s, VStr t => Ok (String.ltb s t)
  | VBool x, VBool y => Ok (int_of_bool x <? int_of_bool y)%Z
  | VBool x, VInt z => Ok (int_of_bool x <? z)%Z
  | VInt z, VBool x => Ok (z <? int_of_bool x)%Z
  | VInt x, VInt y => Ok (x <? y)%Z
  | VBool x, VFloat f => Ok (int_lt_float (int_of_bool x) f)
  | VFloat f, VBool x => Ok (float_lt_int f (int_of_bool x))
  | VInt z, VFloat f => Ok (int_lt_float z f)
  | VFloat f, VInt z => Ok (float_lt_int f z)
  | VFloat f, VFloat g => Ok (PrimFloat.ltb f g)
  | VList l, VList m =>
      (fix go (l m : list Value) : result bool :=
         match l, m with
         | [], [] => Ok false
         | [], _ :: _ => Ok true
         | _ :: _, [] => Ok false
         | x :: l', y :: m' => if py_eq x y then go l' m' else py_lt x y
         end) l m
  | _, _ => Raise not_ordered
  end.

(** [min(x, *rest)] and [max]: the first extremal element. *)
Fixpoint min_from {A : Type} (lt : A -> A -> result bool) (cur : A) (rest : list A)
  : result A :=
  match rest with
  | [] => Ok cur
  | item :: rest' =>
      b ← lt item cur; min_from lt (if b : bool then item else cur) rest'
  end.

Fixpoint max_from {A : Type} (lt : A -> A -> result bool) (cur : A) (rest : list A)
  : result A :=
  match rest with
  | [] => Ok cur
  | item :: rest' =>
      b ← lt cur item; max_from lt (if b : bool then item else cur) rest'
  end.

(** On floats the comparison never raises. *)
Fixpoint min_float (cur : float) (rest : list float) : float :=
  match rest with
  | [] => cur
  | item :: rest' => min_float (if PrimFloat.ltb item cur then item else cur) rest'
  end.

Fixpoint max_float (cur : float) (rest : list float) : float :=
  match rest with
  | [] => cur
  | item :: rest' => max_float (if PrimFloat.ltb cur item then item else cur) rest'
  end.

(** *** The models *)

Record DataSummary := {
  total_records : nat;
  columns : list string;
  data_types : list (string * string);
  missing_values : list (string * nat);
  sample_data : list Record
}.

Record DataStats := {
  column : string;
  count : nat;
  unique_count : nat;
  mean : option float;
  median : option float;
  std : option float;
  min : option Value;
  max : option Value;
  quartiles : option (list float)
}.

(** *** [load_json_data] *)

Inductive log_level := INFO | ERROR.
Definition log_record : Type := log_level * string.

(** [type(v)], as an f-string prints it *)
Definition type_repr (v : Value) : string :=
  match v with
  | VNone => "<class 'NoneType'>"
  | VBool _ => "<class 'bool'>"
  | VInt _ => "<class 'int'>"
  | VFloat _ => "<class 'float'>"
  | VStr _ => "<class 'str'>"
  | VList _ => "<class 'list'>"
  | VDict _ => "<class 'dict'>"
  end.

Section LoadJson.

(** [json.loads], from the standard library: a value, or the exception
    the parser raised. *)
Variable json_loads : string -> result Value.

(** The body of the [try] block: the result, or the exception that left
    it, with the records logged on the way. *)
Definition load_json_try (data : Value) : result (list Value) * list log_record :=
  match (match data with
         | VStr s => json_loads s
         | _ => Ok data
         end) with
  | Raise e => (Raise e, [])
  | Ok parsed_data =>
      match parsed_data with
      | VDict _ =>
          let normalized_data := [parsed_data] in
          (Ok normalized_data,
           [(INFO, "Loaded " +:+ pretty (length normalized_data) +:+ " records")])
      | VList l =>
          let normalized_data := l in
          (Ok normalized_data,
           [(INFO, "Loaded " +:+ pretty (length normalized_data) +:+ " records")])
      | _ =>
          (Ok [], [(ERROR, "Unsupported data type: " +:+ type_repr parsed_data)])
      end
  end.

Definition load_json_data (data : Value) : result (list Value) * list log_record :=
  match load_json_try data with
  | (Ok v, log) => (Ok v, log)
  | (Raise e, log) =>
      if is_JSONDecodeError e
      then (Ok [], log ++ [(ERROR, "Error parsing JSON data: " +:+ exn_msg e)])
      else if is_Exception e
      then (Ok [], log ++ [(ERROR, "Error loading data: " +:+ exn_msg e)])
      else (Raise e, log)
  end.

End LoadJson.

(** *** [summarize_data] *)

(** [all_columns.update(keys)] on a set of strings *)
Definition set_update (s : list string) (keys : list string) : list string :=
  fold_left (fun acc k => if existsb (String.eqb k) acc then acc else acc ++ [k]) keys s.

(** The values of [column] that are present and not [None], and how many
    records miss one. *)
Fixpoint column_scan (column : string) (data : list Record) : list Value * nat :=
  match data with
  | [] => ([], 0)
  | record :: data' =>
      let '(column_values, missing_count) := column_scan column data' in
      match dict_get column record with
      | Some VNone | None => (column_values, S missing_count)
      | Some v => (v :: column_values, missing_count)
      end
  end.

Definition type_label (column_values : list Value) : string :=
  match column_values with
  | [] => "unknown"
  | first_value :: _ =>
      match first_value with
      | VBool _ => "boolean"
      | VInt _ => "integer"
      | VFloat _ => "float"
      | VStr _ => "string"
      | _ => "object"
      end
  end.

Definition summarize_data (data : list Record) (sample_size : Z) : DataSummary :=
  match data with
  | [] =>
      {| total_records := 0; columns := []; data_types := [];
         missing_values := []; sample_data := [] |}
  | _ :: _ =>
      let all_columns :=
        fold_left (fun s record => set_update s (dict_keys record)) data [] in
      let columns := sort_by String.ltb all_columns in
      {| total_records := length data;
         columns := columns;
         data_types :=
           map (fun c => (c, type_label (fst (column_scan c data)))) columns;
         missing_values :=
           map (fun c => (c, snd (column_scan c data))) columns;
         sample_data := slice_to data sample_size |}
  end.

(** *** [filter_data] *)

(** The inner loop over [conditions.items()]: [match] after it. *)
Fixpoint record_matches (record : Record) (items : list (string * Value)) : bool :=
  match items with
  | [] => true
  | (column, condition_value) :: items' =>
      match dict_get column record with
      | None => false
      | Some record_value =>
          if py_ne record_value condition_value then false
          else record_matches record items'
      end
  end.

(** The outer loop, appending to [filtered_data]. *)
Fixpoint filter_loop (data : list Record) (conditions : list (string * Value))
  (filtered_data : list Record) : list Record :=
  match data with
  | [] => filtered_data
  | record :: data' =>
      filter_loop data' conditions
        (if record_matches record conditions
         then filtered_data ++ [record] else filtered_data)
  end.

Definition filter_data (data : list Record) (conditions : list (string * Value))
  : list Record :=
  filter_loop data conditions [].

(** *** [group_data], [aggregate_data] and [calculate_column_stats] *)
Section WithRuntime.
Context `{RT : Runtime}.

(** [str(record.get(group_by, "Unknown"))] *)
Definition group_key_of (group_by : string) (record : Record) : result string :=
  py_str (match dict_get group_by record with
          | Some v => v
          | None => VStr "Unknown"
          end).

(** One turn of the loop: create the group if needed, then append. *)
Definition add_to_group (groups : list (string * list Record)) (group_key : string)
  (record : Record) : list (string * list Record) :=
  let groups' := if dict_mem group_key groups then groups
                 else dict_set group_key [] groups in
  match dict_get group_key groups' with
  | Some members => dict_set group_key (members ++ [record]) groups'
  | None => groups'
  end.

Fixpoint group_loop (data : list Record) (group_by : string)
  (groups : list (string * list Record)) : result (list (string * list Record)) :=
  match data with
  | [] => Ok groups
  | record :: data' =>
      group_key ← group_key_of group_by record;
      group_loop data' group_by (add_to_group groups group_key record)
  end.

Definition group_data (data : list Record) (group_by : string)
  : result (list (string * list Record)) :=
  match data with
  | [] => Ok []
  | first :: _ =>
      if dict_mem group_by first then group_loop data group_by [] else Ok []
  end.

(** The numeric values of [agg_column] in a group, as floats. *)
Definition agg_values (agg_column : string) (group : list Record) : result (list float) :=
  mapM py_float
    (omap (fun record =>
             match dict_get agg_column record with
             | Some v => if is_int_or_float v then Some v else None
             | None => None
             end) group).

(** The value stored for a group with at least one number. *)
Definition aggregate (operation : string) (first : float) (rest : list float) : Value :=
  let values := first :: rest in
  if String.eqb operation "sum" then VFloat (sum_floats values)
  else if String.eqb operation "mean" || String.eqb operation "avg"
  then VFloat (sum_floats values / float_of_len (length values))
  else if String.eqb operation "count" then VInt (Z.of_nat (length values))
  else if String.eqb operation "min" then VFloat (min_float first rest)
  else if String.eqb operation "max" then VFloat (max_float first rest)
  else VFloat (sum_floats values).

Fixpoint aggregate_loop (items : list (string * list Record)) (agg_column operation : string)
  (results : list (string * Value)) : result (list (string * Value)) :=
  match items with
  | [] => Ok results
  | (group_key, group) :: items' =>
      values ← agg_values agg_column group;
      aggregate_loop items' agg_column operation
        (match values with
         | [] => results
         | first :: rest => dict_set group_key (aggregate operation first rest) results
         end)
  end.

Definition aggregate_data (data : list Record) (group_by agg_column operation : string)
  : result (list (string * Value)) :=
  groups ← group_data data group_by;
  aggregate_loop groups agg_column operation [].

(** [len(set(values))]: a list or a dict is unhashable; equal numbers of
    different types are one element; every NaN is an object of its own. *)
Definition hashable (v : Value) : bool :=
  match v with
  | VList _ | VDict _ => false
  | _ => true
  end.

Fixpoint distinct (values seen : list Value) : list Value :=
  match values with
  | [] => seen
  | v :: values' =>
      distinct values' (if existsb (py_eq v) seen then seen else seen ++ [v])
  end.

Definition set_len (values : list Value) : result nat :=
  if forallb hashable values then Ok (length (distinct values []))
  else Raise (Exn TypeError "unhashable type" true).

Definition new_stats (column : string) (count unique_count : nat) : DataStats :=
  {| column := column; count := count; unique_count := unique_count;
     mean := None; median := None; std := None;
     min := None; max := None; quartiles := None |}.

Definition set_mean (s : DataStats) (x : float) : DataStats :=
  {| column := column s; count := count s; unique_count := unique_count s;
     mean := Some x; median := median s; std := std s;
     min := min s; max := max s; quartiles := quartiles s |}.

Definition set_median (s : DataStats) (x : float) : DataStats :=
  {| column := column s; count := count s; unique_count := unique_count s;
     mean := mean s; median := Some x; std := std s;
     min := min s; max := max s; quartiles := quartiles s |}.

Definition set_std (s : DataStats) (x : float) : DataStats :=
  {| column := column s; count := count s; unique_count := unique_count s;
     mean := mean s; median := median s; std := Some x;
     min := min s; max := max s; quartiles := quartiles s |}.

Definition set_min (s : DataStats) (v : Value) : DataStats :=
  {| column := column s; count := count s; unique_count := unique_count s;
     mean := mean s; median := median s; std := std s;
     min := Some v; max := max s; quartiles := quartiles s |}.

Definition set_max (s : DataStats) (v : Value) : DataStats :=
  {| column := column s; count := count s; unique_count := unique_count s;
     mean := mean s; median := median s; std := std s;
     min := min s; max := Some v; quartiles := quartiles s |}.

Definition set_quartiles (s : DataStats) (q : list float) : DataStats :=
  {| column := column s; count := count s; unique_count := unique_count s;
     mean := mean s; median := median s; std := std s;
     min := min s; max := max s; quartiles := Some q |}.

Definition empty_sequence : exn :=
  Exn ValueError "min() arg is an empty sequence" true.

(** [numeric_values[n // 2] if n % 2 == 1 else
     (numeric_values[n // 2 - 1] + numeric_values[n // 2]) / 2] *)
Definition median_of (numeric_values : list float) : result float :=
  let n := Z.of_nat (length numeric_values) in
  if (n mod 2 =? 1)%Z then getitem numeric_values (n / 2)%Z
  else
    a ← getitem numeric_values (n / 2 - 1)%Z;
    b ← getitem numeric_values (n / 2)%Z;
    Ok ((a + b) / 2)%float.

(** The [try] block.  The fields are assigned one by one, so the block
    is a pass over [stats]: it returns the record as the block left it
    and the exception that ended it, if one did. *)
Definition numeric_block (values : list Value) (stats : DataStats)
  : DataStats * option exn :=
  match mapM py_float (List.filter is_int_or_float values) with
  | Raise e => (stats, Some e)
  | Ok [] => (stats, None)
  | Ok (x :: xs) =>
      let numeric_values := sort_floats (x :: xs) in
      let n := Z.of_nat (length numeric_values) in
      let mean_val := (sum_floats numeric_values / float_of_len (length numeric_values))%float in
      let stats := set_mean stats mean_val in
      match median_of numeric_values with
      | Raise e => (stats, Some e)
      | Ok med =>
      let stats := set_median stats med in
      match mapM (fun x => float_pow (x - mean_val)%float 2%float) numeric_values with
      | Raise e => (stats, Some e)
      | Ok squares =>
      let variance := (sum_floats squares / float_of_len (length numeric_values))%float in
      match float_pow variance 0.5%float with
      | Raise e => (stats, Some e)
      | Ok sd =>
      let stats := set_std stats sd in
      match numeric_values with
      | [] => (stats, Some empty_sequence)
      | y :: ys =>
      let stats := set_min stats (VFloat (min_float y ys)) in
      let stats := set_max stats (VFloat (max_float y ys)) in
      let q1_idx := (n / 4)%Z in
      let q3_idx := (3 * n / 4)%Z in
      match (q1 ← getitem numeric_values q1_idx;
             q3 ← (if (q3_idx <? n)%Z then getitem numeric_values q3_idx
                   else getitem numeric_values (-1)%Z);
             Ok [q1; med; q3]) with
      | Raise e => (stats, Some e)
      | Ok q => (set_quartiles stats q, None)
      end end end end end
  end.

(** The handler of [except (ValueError, TypeError)]. *)
Definition non_numeric_handler (values : list Value) (stats : DataStats)
  : result DataStats :=
  match values with
  | [] => Raise empty_sequence
  | v :: vs =>
      lo ← min_from py_lt v vs;
      lo ← py_str lo;
      let stats := set_min stats (VStr lo) in
      hi ← max_from py_lt v vs;
      hi ← py_str hi;
      Ok (set_max stats (VStr hi))
  end.

Definition calculate_column_stats (data : list Record) (column : string)
  : result (option DataStats) :=
  match data with
  | [] => Ok None
  | first :: _ =>
      if negb (dict_mem column first) then Ok None
      else
        let values := fst (column_scan column data) in
        match values with
        | [] => Ok None
        | _ :: _ =>
            unique ← set_len values;
            let stats := new_stats column (length values) unique in
            match numeric_block values stats with
            | (stats, None) => Ok (Some stats)
            | (stats, Some e) =>
                if is_ValueError e || is_TypeError e
                then stats ← non_numeric_handler values stats; Ok (Some stats)
                else Raise e
            end
        end
  end.

End WithRuntime.

(** *** Facts about dicts *)

Lemma dict_get_set_eq {V : Type} (k : string) (v : V) (d : list (string * V)) :
  dict_get k (dict_set k v d) = Some v.
Proof.
  induction d as [|[k' v'] d IH]; simpl.
  - now rewrite String.eqb_refl.
  - destruct (String.eqb k k') eqn:E; simpl; rewrite ?E, ?String.eqb_refl; auto.
Qed.

Lemma dict_get_set_ne {V : Type} (k j : string) (v : V) (d : list (string * V)) :
  k <> j -> dict_get j (dict_set k v d) = dict_get j d.
Proof.
  intros Hne. induction d as [|[k' v'] d IH]; simpl.
  - destruct (String.eqb j k) eqn:E; auto.
    apply String.eqb_eq in E. congruence.
  - destruct (String.eqb k k') eqn:E; simpl.
    + apply String.eqb_eq in E. subst k'.
      destruct (String.eqb j k) eqn:E'; auto.
      apply String.eqb_eq in E'. congruence.
    + now rewrite IH.
Qed.

Lemma dict_mem_In {V : Type} (k : string) (d : list (string * V)) :
  dict_mem k d = true <-> In k (dict_keys d).
Proof.
  unfold dict_mem. induction d as [|[k' v'] d IH]; simpl.
  - split; [discriminate | tauto].
  - destruct (String.eqb k k') eqn:E.
    + apply String.eqb_eq in E. subst. tauto.
    + apply String.eqb_neq in E. split.
      * intros H. right. now apply IH.
      * intros [H | H]; [congruence | now apply IH].
Qed.

Lemma dict_keys_set {V : Type} (k : string) (v : V) (d : list (string * V)) :
  dict_keys (dict_set k v d) =
  if dict_mem k d then dict_keys d else dict_keys d ++ [k].
Proof.
  unfold dict_mem. induction d as [|[k' v'] d IH]; simpl; auto.
  destruct (String.eqb k k') eqn:E; simpl.
  - apply String.eqb_eq in E. now subst.
  - rewrite IH. now destruct (dict_get k d).
Qed.

Lemma dict_get_In {V : Type} (k : string) (v : V) (d : list (string * V)) :
  dict_get k d = Some v -> In (k, v) d.
Proof.
  induction d as [|[k' v'] d IH]; simpl; [discriminate|].
  destruct (String.eqb k k') eqn:E.
  - apply String.eqb_eq in E. intros [= ->]. subst. now left.
  - intros H. right. auto.
Qed.

Lemma In_dict_get {V : Type} (k : string) (v : V) (d : list (string * V)) :
  NoDup (dict_keys d) -> In (k, v) d -> dict_get k d = Some v.
Proof.
  induction d as [|[k' v'] d IH]; simpl; [tauto|].
  intros Hnd [H | H].
  - injection H as -> ->. now rewrite String.eqb_refl.
  - inversion Hnd as [|? ? Hnot Hnd']; subst.
    destruct (String.eqb k k') eqn:E.
    + apply String.eqb_eq in E. subst k'. exfalso. apply Hnot.
      apply list_elem_of_In, in_map_iff. exists (k, v). auto.
    + auto.
Qed.

(** *** [filter_data] *)

(** What the claim asks of a kept record: every condition key is a key of
    the record, and the value there equals the condition's. *)
Definition meets (conditions : list (string * Value)) (r : Record) : Prop :=
  forall k v, In (k, v) conditions ->
    exists rv, dict_get k r = Some rv /\ py_eq rv v = true.

Definition meetsb (conditions : list (string * Value)) (r : Record) : bool :=
  forallb (fun kv => match dict_get (fst kv) r with
                     | Some rv => py_eq rv (snd kv)
                     | None => false
                     end) conditions.

Lemma meetsb_spec conditions r : meetsb conditions r = true <-> meets conditions r.
Proof.
  unfold meetsb, meets. rewrite forallb_forall. split.
  - intros H k v Hin. specialize (H (k, v) Hin). simpl in H.
    destruct (dict_get k r) as [rv|]; [eauto | discriminate].
  - intros H [k v] Hin. simpl. destruct (H k v Hin) as (rv & -> & Heq). exact Heq.
Qed.

Lemma record_matches_meetsb record conditions :
  record_matches record conditions = meetsb conditions record.
Proof.
  induction conditions as [|[k v] items IH]; simpl; auto.
  destruct (dict_get k record) as [rv|]; auto.
  unfold py_ne. destruct (py_eq rv v); simpl; auto.
Qed.

Lemma filter_loop_spec data conditions acc :
  filter_loop data conditions acc =
  acc ++ List.filter (fun r => record_matches r conditions) data.
Proof.
  revert acc. induction data as [|r data IH]; intros acc; simpl.
  - now rewrite app_nil_r.
  - rewrite IH. destruct (record_matches r conditions); auto.
    now rewrite <- app_assoc.
Qed.

(** C4: [filter_data] keeps, in their order, exactly the records that meet
    every condition: the key is present and the value equal ([==]). *)
Theorem filter_data_exact (data : list Record) (conditions : list (string * Value)) :
  filter_data data conditions = List.filter (meetsb conditions) data /\
  (forall r, meetsb conditions r = true <-> meets conditions r).
Proof.
  split.
  - unfold filter_data. rewrite filter_loop_spec. simpl.
    apply List.filter_ext. intros r. apply record_matches_meetsb.
  - intros r. apply meetsb_spec.
Qed.

(** C9: with no condition, [filter_data] returns the records as given. *)
Theorem filter_data_no_conditions (data : list Record) :
  filter_data data [] = data.
Proof.
  unfold filter_data. rewrite filter_loop_spec. simpl.
  induction data as [|r data IH]; simpl; congruence.
Qed.

(** *** [group_data] *)
Section GroupFacts.
Context `{RT : Runtime}.

(** The loop body, read structurally: the record joins the group of its
    key where that group stands, or opens a new group at the end. *)
Lemma add_to_group_nil key record :
  add_to_group [] key record = [(key, [record])].
Proof.
  unfold add_to_group, dict_mem. simpl. now rewrite String.eqb_refl.
Qed.

Lemma add_to_group_cons k g groups key record :
  add_to_group ((k, g) :: groups) key record =
  if String.eqb key k then (key, g ++ [record]) :: groups
  else (k, g) :: add_to_group groups key record.
Proof.
  unfold add_to_group, dict_mem. simpl.
  destruct (String.eqb key k) eqn:E; simpl; rewrite ?E; auto.
  destruct (dict_get key groups) as [m|] eqn:Hget; simpl; rewrite ?E, ?Hget; auto.
  now rewrite dict_get_set_eq.
Qed.

Lemma add_to_group_get groups key record k :
  dict_get k (add_to_group groups key record) =
  if String.eqb k key
  then Some (match dict_get key groups with Some g => g | None => [] end ++ [record])
  else dict_get k groups.
Proof.
  induction groups as [|[k' g] groups IH].
  - rewrite add_to_group_nil. simpl. now destruct (String.eqb k key).
  - rewrite add_to_group_cons. simpl.
    destruct (String.eqb key k') eqn:E.
    + apply String.eqb_eq in E. subst k'. simpl.
      now destruct (String.eqb k key).
    + simpl. destruct (String.eqb k k') eqn:E'.
      * apply String.eqb_eq in E'. subst k'.
        rewrite String.eqb_sym in E. now rewrite E.
      * apply IH.
Qed.

Lemma add_to_group_keys groups key record :
  dict_keys (add_to_group groups key record) =
  if dict_mem key groups then dict_keys groups else dict_keys groups ++ [key].
Proof.
  induction groups as [|[k' g] groups IH].
  - now rewrite add_to_group_nil.
  - rewrite add_to_group_cons. unfold dict_mem in *. simpl.
    destruct (String.eqb key k') eqn:E; simpl.
    + apply String.eqb_eq in E. now subst.
    + rewrite IH. now destruct (dict_get key groups).
Qed.

Lemma add_to_group_members groups key record :
  concat (map snd (add_to_group groups key record)) ≡ₚ
  concat (map snd groups) ++ [record].
Proof.
  induction groups as [|[k' g] groups IH].
  - now rewrite add_to_group_nil.
  - rewrite add_to_group_cons.
    destruct (String.eqb key k'); simpl.
    + rewrite <- !app_assoc. apply Permutation_app_head.
      apply Permutation_app_comm.
    + rewrite IH. now rewrite app_assoc.
Qed.

Lemma NoDup_snoc (l : list string) (k : string) :
  NoDup l -> k ∉ l -> NoDup (l ++ [k]).
Proof.
  intros Hl Hk. apply NoDup_app. split; [exact Hl|]. split.
  - intros x Hx Hx'. apply list_elem_of_singleton in Hx'. now subst.
  - apply NoDup_singleton.
Qed.

Lemma add_to_group_NoDup groups key record :
  NoDup (dict_keys groups) -> NoDup (dict_keys (add_to_group groups key record)).
Proof.
  intros Hnd. rewrite add_to_group_keys.
  destruct (dict_mem key groups) eqn:E; [exact Hnd|].
  apply NoDup_snoc; [exact Hnd|].
  intros Hin. apply list_elem_of_In, dict_mem_In in Hin. congruence.
Qed.

(** The key under which [group_data] files a record, in the claim's
    words: the string form of the value, ["Unknown"] without the column.
    The conversion of the value can raise. *)
Definition key_of (group_by : string) (r : Record) : result string :=
  match dict_get group_by r with
  | Some v => py_str v
  | None => Ok "Unknown"
  end.

Lemma group_key_of_key_of group_by r : group_key_of group_by r = key_of group_by r.
Proof. unfold group_key_of, key_of. now destruct (dict_get group_by r). Qed.

(** [str] returns for the value of every record, and [key] names what it
    returns. *)
Definition keyed (group_by : string) (key : Record -> string) (data : list Record)
  : Prop :=
  forall r, In r data -> key_of group_by r = Ok (key r).

(** The records filed under [k], in their order. *)
Definition members_of (key : Record -> string) (k : string) (data : list Record)
  : list Record :=
  List.filter (fun r => String.eqb (key r) k) data.

(** The loop with the keys at hand. *)
Fixpoint file_records (key : Record -> string) (data : list Record)
  (groups : list (string * list Record)) : list (string * list Record) :=
  match data with
  | [] => groups
  | record :: data' => file_records key data' (add_to_group groups (key record) record)
  end.

Lemma group_loop_keyed data group_by key groups :
  keyed group_by key data ->
  group_loop data group_by groups = Ok (file_records key data groups).
Proof.
  revert groups. induction data as [|r data IH]; intros groups Hkey; simpl; [reflexivity|].
  rewrite group_key_of_key_of, (Hkey r (or_introl eq_refl)).
  apply IH. intros r' Hin. apply Hkey. now right.
Qed.

(** The keys that a run of the loop which returned has used. *)
Definition key_or_empty (group_by : string) (r : Record) : string :=
  match key_of group_by r with
  | Ok k => k
  | Raise _ => ""
  end.

Lemma group_loop_returns data group_by groups out :
  group_loop data group_by groups = Ok out ->
  keyed group_by (key_or_empty group_by) data.
Proof.
  revert groups. induction data as [|r data IH]; intros groups; simpl.
  - intros _ r [].
  - rewrite group_key_of_key_of.
    destruct (key_of group_by r) as [k|e] eqn:Hk; [|discriminate].
    intros Hloop r' [<- | Hin].
    + unfold key_or_empty. now rewrite Hk.
    + exact (IH _ Hloop r' Hin).
Qed.

Lemma file_records_get key data groups k :
  dict_get k (file_records key data groups) =
  match dict_get k groups, members_of key k data with
  | Some g, ms => Some (g ++ ms)
  | None, [] => None
  | None, ms => Some ms
  end.
Proof.
  revert groups. induction data as [|r data IH]; intros groups; simpl.
  - destruct (dict_get k groups); auto. now rewrite app_nil_r.
  - rewrite IH, add_to_group_get.
    rewrite (String.eqb_sym k).
    destruct (String.eqb (key r) k) eqn:E.
    + apply String.eqb_eq in E. rewrite E.
      destruct (dict_get k groups) as [g|]; simpl; now rewrite <- ?app_assoc.
    + reflexivity.
Qed.

Lemma file_records_NoDup key data groups :
  NoDup (dict_keys groups) -> NoDup (dict_keys (file_records key data groups)).
Proof.
  revert groups. induction data as [|r data IH]; intros groups Hnd; simpl; auto.
  apply IH. now apply add_to_group_NoDup.
Qed.

Lemma file_records_members key data groups :
  concat (map snd (file_records key data groups)) ≡ₚ
  concat (map snd groups) ++ data.
Proof.
  revert groups. induction data as [|r data IH]; intros groups; simpl.
  - now rewrite app_nil_r.
  - rewrite IH, add_to_group_members. now rewrite <- app_assoc.
Qed.

(** What [group_data] returned, when it returned: the records filed by
    their keys, or the empty dict. *)
Lemma group_data_returns data group_by groups :
  group_data data group_by = Ok groups ->
  groups = [] \/
  keyed group_by (key_or_empty group_by) data /\
  groups = file_records (key_or_empty group_by) data [].
Proof.
  unfold group_data. destruct data as [|first rest]; [intros [= <-]; now left|].
  destruct (dict_mem group_by first); [|intros [= <-]; now left].
  intros Hloop. right.
  pose proof (group_loop_returns _ _ _ _ Hloop) as Hkey.
  split; [exact Hkey|].
  rewrite (group_loop_keyed _ _ _ _ Hkey) in Hloop. now injection Hloop as <-.
Qed.

Lemma group_data_NoDup data group_by groups :
  group_data data group_by = Ok groups -> NoDup (dict_keys groups).
Proof.
  intros Hg. destruct (group_data_returns _ _ _ Hg) as [-> | [_ ->]]; [constructor|].
  apply file_records_NoDup. constructor.
Qed.

Lemma group_data_keyed data group_by first rest key :
  data = first :: rest -> dict_mem group_by first = true ->
  keyed group_by key data ->
  group_data data group_by = Ok (file_records key data []).
Proof.
  intros -> Hmem Hkey. unfold group_data. rewrite Hmem.
  now apply group_loop_keyed.
Qed.

(** C5: when the first record has the column and [str] returns for the
    value of every record, [group_data] returns, and every record is
    filed once, under the string form of its value (["Unknown"] without
    the column); a group holds its records in their original order, and
    the groups together are the input. *)
Theorem group_data_partitions (data : list Record) (group_by : string)
  (first : Record) (rest : list Record) (key : Record -> string) :
  data = first :: rest ->
  dict_mem group_by first = true ->
  keyed group_by key data ->
  exists groups,
    group_data data group_by = Ok groups /\
    NoDup (dict_keys groups) /\
    (forall k, dict_get k groups =
               match members_of key k data with
               | [] => None
               | ms => Some ms
               end) /\
    (forall r, In r data ->
       exists g, dict_get (key r) groups = Some g /\ In r g) /\
    concat (map snd groups) ≡ₚ data.
Proof.
  intros Hdata Hmem Hkey. exists (file_records key data []).
  split; [eapply group_data_keyed; eauto|].
  split; [apply file_records_NoDup; constructor|].
  assert (Hget : forall k, dict_get k (file_records key data []) =
                           match members_of key k data with
                           | [] => None
                           | ms => Some ms
                           end)
    by (intros k; now rewrite file_records_get).
  split; [exact Hget|]. split.
  - intros r Hin.
    assert (Hr : In r (members_of key (key r) data)).
    { apply filter_In. split; [exact Hin | apply String.eqb_refl]. }
    rewrite Hget.
    destruct (members_of key (key r) data) as [|m ms]; [destruct Hr|].
    eauto.
  - now rewrite file_records_members.
Qed.

End GroupFacts.

(** *** [summarize_data] and the first-record rule *)

Lemma sort_insert_perm {A : Type} (lt : A -> A -> bool) (x : A) (l : list A) :
  sort_insert lt x l ≡ₚ x :: l.
Proof.
  induction l as [|y l IH]; simpl; auto.
  destruct (lt y x); auto.
  rewrite IH. apply perm_swap.
Qed.

Lemma sort_by_perm {A : Type} (lt : A -> A -> bool) (l : list A) :
  sort_by lt l ≡ₚ l.
Proof.
  induction l as [|x l IH]; simpl; auto.
  rewrite sort_insert_perm. now constructor.
Qed.

Lemma sort_by_length {A : Type} (lt : A -> A -> bool) (l : list A) :
  length (sort_by lt l) = length l.
Proof. apply Permutation_length, sort_by_perm. Qed.

(** Where [<] is asymmetric the sort leaves no element greater than its
    successor. *)
Lemma sort_insert_sorted {A : Type} (lt : A -> A -> bool) (x : A) (l : list A) :
  (forall a b, lt a b = true -> lt b a = false) ->
  Sorted (fun a b => lt b a = false) l ->
  Sorted (fun a b => lt b a = false) (sort_insert lt x l).
Proof.
  intros Hasym Hl. induction l as [|y l IH]; simpl.
  - repeat constructor.
  - destruct (lt y x) eqn:E.
    + inversion Hl as [|? ? Hl' Hhd]; subst.
      constructor; [now apply IH|].
      destruct l as [|z l]; simpl.
      * constructor. now apply Hasym.
      * destruct (lt z x); constructor; [now inversion Hhd|].
        now apply Hasym.
    + constructor; [exact Hl|]. constructor. exact E.
Qed.

Lemma sort_by_sorted {A : Type} (lt : A -> A -> bool) (l : list A) :
  (forall a b, lt a b = true -> lt b a = false) ->
  Sorted (fun a b => lt b a = false) (sort_by lt l).
Proof.
  intros Hasym. induction l as [|x l IH]; simpl.
  - constructor.
  - now apply sort_insert_sorted.
Qed.

Lemma string_ltb_asym (a b : string) : String.ltb a b = true -> String.ltb b a = false.
Proof.
  unfold String.ltb. rewrite (String.compare_antisym a b).
  destruct (String.compare b a); simpl; congruence.
Qed.

Lemma set_update_In (s keys : list string) (c : string) :
  In c (set_update s keys) <-> In c s \/ In c keys.
Proof.
  unfold set_update. revert s. induction keys as [|k keys IH]; intros s; simpl.
  - tauto.
  - rewrite IH. destruct (existsb (String.eqb k) s) eqn:E.
    + apply existsb_exists in E. destruct E as (k' & Hin & Heq).
      apply String.eqb_eq in Heq. subst k'.
      split; [tauto|]. intros [H | [H | H]]; subst; tauto.
    + rewrite in_app_iff. simpl. tauto.
Qed.

Lemma all_columns_In (data : list Record) (s : list string) (c : string) :
  In c (fold_left (fun s record => set_update s (dict_keys record)) data s) <->
  In c s \/ exists r, In r data /\ dict_mem c r = true.
Proof.
  revert s. induction data as [|r data IH]; intros s; simpl.
  - split; [tauto|]. intros [H | (r & [] & _)]. exact H.
  - rewrite IH, set_update_In. split.
    + intros [[H | H] | (r' & Hin & Hm)]; eauto.
      right. exists r. split; [now left | now apply dict_mem_In].
    + intros [H | (r' & [-> | Hin] & Hm)]; eauto.
      left. right. now apply dict_mem_In.
Qed.

Lemma all_columns_fresh (data : list Record) (c : string) :
  In c (fold_left (fun s record => set_update s (dict_keys record)) data []) <->
  exists r, In r data /\ dict_mem c r = true.
Proof. rewrite all_columns_In. simpl. tauto. Qed.

Lemma summarize_columns (first : Record) (rest : list Record) (n : Z) (c : string) :
  In c (columns (summarize_data (first :: rest) n)) <->
  exists r, In r (first :: rest) /\ dict_mem c r = true.
Proof.
  unfold summarize_data, columns.
  rewrite <- all_columns_fresh. split; apply Permutation_in.
  - apply sort_by_perm.
  - symmetry. apply sort_by_perm.
Qed.

Lemma set_update_NoDup (s keys : list string) :
  NoDup s -> NoDup (set_update s keys).
Proof.
  unfold set_update. revert s. induction keys as [|k keys IH]; intros s Hs; simpl; auto.
  apply IH. destruct (existsb (String.eqb k) s) eqn:E; auto.
  apply NoDup_snoc; auto. intros Hin. apply list_elem_of_In in Hin.
  assert (existsb (String.eqb k) s = true); [|congruence].
  apply existsb_exists. exists k. split; [exact Hin | apply String.eqb_refl].
Qed.

Lemma all_columns_NoDup (data : list Record) (s : list string) :
  NoDup s -> NoDup (fold_left (fun s record => set_update s (dict_keys record)) data s).
Proof.
  revert s. induction data as [|r data IH]; intros s Hs; simpl; auto.
  apply IH. now apply set_update_NoDup.
Qed.

(** Two records with different keys. *)
Definition two_schemas : list Record := [[("a", VInt 1)]; [("b", VInt 2)]].

Section FirstRecord.
Context `{RT : Runtime}.

(** C2, as the code has it: [summarize_data] reports every key of every
    record, once each; [calculate_column_stats] and [group_data] look at
    the first record only, and return [None] and the empty dict when the
    column is not one of its keys, whatever the later records hold. *)
Theorem first_record_rule (first : Record) (rest : list Record) (column : string) :
  (forall n, NoDup (columns (summarize_data (first :: rest) n)) /\
     Sorted (fun a b => String.ltb b a = false)
       (columns (summarize_data (first :: rest) n)) /\
     forall c, In c (columns (summarize_data (first :: rest) n)) <->
               exists r, In r (first :: rest) /\ dict_mem c r = true) /\
  (dict_mem column first = false ->
     calculate_column_stats (first :: rest) column = Ok None /\
     group_data (first :: rest) column = Ok []).
Proof.
  split.
  - intros n. split; [|split; [|apply summarize_columns]].
    + unfold summarize_data, columns. rewrite sort_by_perm.
      apply all_columns_NoDup. constructor.
    + unfold summarize_data, columns. apply sort_by_sorted, string_ltb_asym.
  - intros Hmiss. unfold calculate_column_stats, group_data.
    now rewrite Hmiss.
Qed.

End FirstRecord.

(** C2 at [two_schemas]: the column of the second record is missing from
    the first. *)
Lemma first_record_rule_witness :
  calculate_column_stats two_schemas "b" = Ok None /\
  group_data two_schemas "b" = Ok [].
Proof.
  apply (proj2 (first_record_rule [("a", VInt 1)] [[("b", VInt 2)]] "b")).
  reflexivity.
Defined.

(** C2, as stated, fails: the columns reported for [two_schemas] are not
    the keys of its first record. *)
Lemma summarize_data_reports_later_keys :
  columns (summarize_data two_schemas 5) = ["a"; "b"] /\
  hd_error two_schemas = Some [("a", VInt 1)] /\
  dict_keys [("a", VInt 1)] = ["a"].
Proof. repeat split. Qed.

(** *** [aggregate_data] *)
Section AggregateFacts.
Context `{RT : Runtime}.

(** A group counts when one of its records has an int or a float in the
    aggregated column. *)
Definition has_number (agg_column : string) (group : list Record) : Prop :=
  exists r v, In r group /\ dict_get agg_column r = Some v /\ is_int_or_float v = true.

Lemma mapM_length {A B : Type} (f : A -> result B) (l : list A) (ys : list B) :
  mapM f l = Ok ys -> length ys = length l.
Proof.
  revert ys. induction l as [|x l IH]; intros ys; simpl.
  - now intros [= <-].
  - destruct (f x) as [y|e]; simpl; [|discriminate].
    destruct (mapM f l) as [ys'|e]; simpl; [|discriminate].
    intros [= <-]. simpl. now rewrite (IH ys').
Qed.

Lemma mapM_total {A B : Type} (f : A -> result B) (l : list A) :
  (forall x, In x l -> exists y, f x = Ok y) -> exists ys, mapM f l = Ok ys.
Proof.
  induction l as [|x l IH]; intros Hall; simpl; eauto.
  destruct (Hall x (or_introl eq_refl)) as [y ->].
  destruct IH as [ys ->]; [intros; apply Hall; now right|].
  simpl. eauto.
Qed.

(** The numbers of a group, before conversion. *)
Definition numbers_of (agg_column : string) (group : list Record) : list Value :=
  omap (fun record =>
          match dict_get agg_column record with
          | Some v => if is_int_or_float v then Some v else None
          | None => None
          end) group.

Lemma numbers_of_In agg_column group v :
  In v (numbers_of agg_column group) <->
  exists r, In r group /\ dict_get agg_column r = Some v /\ is_int_or_float v = true.
Proof.
  unfold numbers_of. rewrite <- list_elem_of_In, list_elem_of_omap.
  split.
  - intros (r & Hin & Hr). exists r. apply list_elem_of_In in Hin.
    destruct (dict_get agg_column r) as [w|]; [|discriminate].
    destruct (is_int_or_float w) eqn:E; [|discriminate].
    injection Hr as ->. auto.
  - intros (r & Hin & Hget & Hnum). exists r. apply list_elem_of_In in Hin.
    now rewrite Hget, Hnum.
Qed.

Lemma numbers_of_nil agg_column group :
  numbers_of agg_column group = [] <-> ~ has_number agg_column group.
Proof.
  split.
  - intros Hnil (r & v & Hin & Hget & Hnum).
    assert (Hv : In v (numbers_of agg_column group)) by (apply numbers_of_In; eauto).
    rewrite Hnil in Hv. destruct Hv.
  - intros Hno. destruct (numbers_of agg_column group) as [|v vs] eqn:E; auto.
    exfalso. apply Hno.
    assert (Hv : In v (numbers_of agg_column group)) by (rewrite E; now left).
    apply numbers_of_In in Hv. destruct Hv as (r & ? & ? & ?). exists r, v. auto.
Qed.

Lemma classic_has agg_column group :
  has_number agg_column group \/ ~ has_number agg_column group.
Proof.
  destruct (numbers_of agg_column group) as [|v vs] eqn:E.
  - right. now apply numbers_of_nil.
  - left. assert (Hv : In v (numbers_of agg_column group)) by (rewrite E; now left).
    apply numbers_of_In in Hv. destruct Hv as (r & ? & ? & ?). exists r, v. auto.
Qed.

Lemma agg_values_nil agg_column group values :
  agg_values agg_column group = Ok values ->
  (values = [] <-> ~ has_number agg_column group).
Proof.
  intros Hv. apply mapM_length in Hv. fold (numbers_of agg_column group) in Hv.
  rewrite <- numbers_of_nil. split.
  - intros ->. destruct (numbers_of agg_column group); [auto | discriminate].
  - intros E. rewrite E in Hv. destruct values; [auto | discriminate].
Qed.

Lemma dict_mem_set {V : Type} (k j : string) (v : V) (d : list (string * V)) :
  dict_mem j (dict_set k v d) = String.eqb j k || dict_mem j d.
Proof.
  unfold dict_mem. destruct (String.eqb j k) eqn:E.
  - apply String.eqb_eq in E. subst. now rewrite dict_get_set_eq.
  - apply String.eqb_neq in E. rewrite dict_get_set_ne; auto.
Qed.

Lemma aggregate_loop_keys items agg_column operation results out k :
  aggregate_loop items agg_column operation results = Ok out ->
  (dict_mem k out = true <->
   dict_mem k results = true \/
   exists g, In (k, g) items /\ has_number agg_column g).
Proof.
  revert results. induction items as [|[key group] items IH]; intros results; simpl.
  - intros [= <-]. split; [tauto|]. intros [H | (g & [] & _)]. exact H.
  - destruct (agg_values agg_column group) as [values|e] eqn:Hv; simpl; [|discriminate].
    intros Hloop. rewrite (IH _ Hloop). clear IH Hloop.
    pose proof (agg_values_nil _ _ _ Hv) as Hnil.
    destruct values as [|first rest].
    + assert (Hno : ~ has_number agg_column group) by (now apply Hnil).
      split.
      * intros [H | (g & Hin & Hg)]; eauto.
      * intros [H | (g & [Heq | Hin] & Hg)]; eauto.
        injection Heq as -> ->. contradiction.
    + assert (Hyes : has_number agg_column group).
      { destruct (classic_has agg_column group) as [H | H]; auto.
        apply Hnil in H. discriminate. }
      rewrite dict_mem_set. split.
      * intros [H | (g & Hin & Hg)]; eauto.
        apply orb_true_iff in H. destruct H as [H | H]; auto.
        apply String.eqb_eq in H. subst. eauto.
      * intros [H | (g & [Heq | Hin] & Hg)]; eauto.
        -- left. rewrite H. apply orb_true_r.
        -- injection Heq as -> ->. left. now rewrite String.eqb_refl.
Qed.

Lemma group_data_members data group_by groups k g r :
  group_data data group_by = Ok groups ->
  In (k, g) groups -> In r g -> In r data.
Proof.
  intros Hg Hkg Hr.
  assert (Hc : In r (concat (map snd groups))).
  { apply in_concat. exists g. split; [|exact Hr].
    change g with (snd (k, g)). now apply in_map. }
  destruct (group_data_returns _ _ _ Hg) as [-> | [_ ->]]; [destruct Hc|].
  eapply Permutation_in in Hc; [|apply file_records_members]. exact Hc.
Qed.

Lemma aggregate_loop_total items agg_column operation results :
  (forall k g, In (k, g) items -> exists values, agg_values agg_column g = Ok values) ->
  exists out, aggregate_loop items agg_column operation results = Ok out.
Proof.
  revert results. induction items as [|[key group] items IH]; intros results Hall; simpl.
  - eauto.
  - destruct (Hall key group (or_introl eq_refl)) as [values ->]. simpl.
    apply IH. intros k g Hin. apply (Hall k g). now right.
Qed.

(** C10: where [group_data] returns, [aggregate_data] returns whenever
    every number of the column converts to a float, and what it returns
    has a key for a group of [group_data] exactly when that group holds a
    record with an int or a float in [agg_column]; a group without one is
    left out. *)
Theorem aggregate_data_drops_empty_groups (data : list Record)
  (group_by agg_column operation : string) (groups : list (string * list Record)) :
  group_data data group_by = Ok groups ->
  ((forall r v, In r data -> dict_get agg_column r = Some v ->
                is_int_or_float v = true -> exists x, py_float v = Ok x) ->
   exists results, aggregate_data data group_by agg_column operation = Ok results) /\
  (forall results,
     aggregate_data data group_by agg_column operation = Ok results ->
     forall k, dict_mem k results = true <->
               exists g, dict_get k groups = Some g /\ has_number agg_column g).
Proof.
  intros Hgroups. unfold aggregate_data. rewrite Hgroups.
  change (Ok groups ≫= ?f) with (f groups). cbv beta. split.
  - intros Hconv. apply aggregate_loop_total. intros k g Hin.
    apply mapM_total. intros v Hv. fold (numbers_of agg_column g) in Hv.
    apply numbers_of_In in Hv. destruct Hv as (r & Hr & Hget & Hnum).
    apply (Hconv r v); auto. eapply group_data_members; eauto.
  - intros results Hres k.
    rewrite (aggregate_loop_keys _ _ _ _ _ k Hres). split.
    + intros [H | (g & Hin & Hg)]; [discriminate|].
      exists g. split; [|exact Hg].
      apply In_dict_get; [eapply group_data_NoDup; eauto | exact Hin].
    + intros (g & Hget & Hg). right. exists g. split; [|exact Hg].
      now apply dict_get_In.
Qed.

End AggregateFacts.

(** *** [calculate_column_stats] *)
Section StatsFacts.
Context `{RT : Runtime}.

(** The statistics in the claim's words, over a list of floats. *)

(** sum of the values divided by their count *)
Definition arithmetic_mean (xs : list float) : float :=
  (sum_floats xs / float_of_len (length xs))%float.

(** the middle element when the count is odd, the average of the two
    middle elements when it is even *)
Definition middle_value (sorted : list float) : float :=
  let n := length sorted in
  if Nat.odd n then nth (n / 2) sorted 0%float
  else ((nth (n / 2 - 1) sorted 0 + nth (n / 2) sorted 0) / 2)%float.

(** square root of the sum of squared deviations from the mean divided
    by the count; the power is the interpreter's, which can raise *)
Definition population_std (xs : list float) : result float :=
  squares ← mapM (fun x => float_pow (x - arithmetic_mean xs)%float 2%float) xs;
  float_pow (sum_floats squares / float_of_len (length xs))%float 0.5%float.

(** The values of the column that are present and not [None]. *)
Definition column_values (column : string) (data : list Record) : list Value :=
  fst (column_scan column data).

Lemma column_values_In column data v :
  In v (column_values column data) <->
  exists r, In r data /\ dict_get column r = Some v /\ v <> VNone.
Proof.
  unfold column_values. induction data as [|r data IH]; simpl.
  - split; [tauto | intros (r & [] & _)].
  - destruct (column_scan column data) as [vals miss]. simpl in IH.
    destruct (dict_get column r) as [w|] eqn:Hget.
    + destruct w; simpl; rewrite ?IH.
      all: split;
        [ intros H; repeat (destruct H as [H | H]);
          try (destruct H as (r' & Hin & Hg & Hne); exists r'; tauto);
          try (subst; exists r; repeat split; auto; discriminate)
        | intros (r' & [-> | Hin] & Hg & Hne);
          [ rewrite Hget in Hg; injection Hg as <-; try tauto; try (now left)
          | try right; exists r'; tauto ] ].
    + simpl. rewrite IH. split.
      * intros (r' & Hin & Hg & Hne). exists r'. tauto.
      * intros (r' & [-> | Hin] & Hg & Hne); [congruence|]. exists r'. tauto.
Qed.

Lemma getitem_nth {A : Type} (l : list A) (i : Z) (d : A) :
  (0 <= i < Z.of_nat (length l))%Z ->
  getitem l i = Ok (nth (Z.to_nat i) l d).
Proof.
  intros Hi. unfold getitem.
  assert (Hge : (i <? 0)%Z = false) by (apply Z.ltb_ge; lia).
  rewrite !Hge.
  rewrite (nth_error_nth' l d); [reflexivity | lia].
Qed.

(** Arithmetic on indices: [//] and [%] by a constant. *)
Lemma Zdiv_nat (n k : nat) : (Z.of_nat n / Z.of_nat k)%Z = Z.of_nat (n / k).
Proof. symmetry. apply Nat2Z.inj_div. Qed.

Ltac divmod :=
  first [ Z.div_mod_to_equations; lia
        | change 2%Z with (Z.of_nat 2); rewrite ?Zdiv_nat; lia ].

Lemma odd_mod2 (n : nat) : (Z.of_nat n mod 2 =? 1)%Z = Nat.odd n.
Proof.
  destruct (Nat.odd n) eqn:Ho.
  - apply Nat.odd_spec in Ho. destruct Ho as [m ->].
    apply Z.eqb_eq. divmod.
  - rewrite <- Nat.negb_even in Ho. apply negb_false_iff, Nat.even_spec in Ho.
    destruct Ho as [m ->]. apply Z.eqb_neq. divmod.
Qed.

Lemma half_index (n : nat) : Z.to_nat (Z.of_nat n / 2) = n / 2.
Proof. divmod. Qed.

Lemma before_half_index (n : nat) :
  2 <= n -> Z.to_nat (Z.of_nat n / 2 - 1) = n / 2 - 1.
Proof. intros. divmod. Qed.

Lemma median_of_spec (sorted : list float) :
  sorted <> [] -> median_of sorted = Ok (middle_value sorted).
Proof.
  intros Hne. unfold median_of, middle_value.
  assert (Hpos : 0 < length sorted) by (destruct sorted; simpl; [congruence | lia]).
  rewrite odd_mod2. destruct (Nat.odd (length sorted)) eqn:Ho.
  - rewrite (getitem_nth _ _ 0%float) by divmod.
    now rewrite half_index.
  - assert (2 <= length sorted).
    { destruct (length sorted) as [|[|n]]; [lia | discriminate | lia]. }
    rewrite (getitem_nth _ _ 0%float) by divmod. simpl.
    rewrite (getitem_nth _ _ 0%float) by divmod. simpl.
    now rewrite half_index, before_half_index.
Qed.

(** Equal elements keep their places: [0.0] and [-0.0] are equal, and
    each pair stays in the order it came in. *)
Example sort_by_keeps_equal_floats :
  sort_by PrimFloat.ltb [1; 0; - 0; -1; - 0; 0]%float = [-1; 0; - 0; - 0; 0; 1]%float.
Proof. vm_compute. reflexivity. Qed.

(** [<] on floats is asymmetric, NaN included. *)
Lemma SFltb_asym (a b : spec_float) : SFltb a b = true -> SFltb b a = false.
Proof.
  unfold SFltb, SFcompare.
  destruct a as [sa|sa| |sa ma ea], b as [sb|sb| |sb mb eb];
    try destruct sa; try destruct sb; try congruence.
  - rewrite (Z.compare_antisym ea eb).
    destruct (ea ?= eb)%Z; simpl; try congruence.
    change (Pos.compare_cont Eq mb ma) with (Pos.compare mb ma).
    change (Pos.compare_cont Eq ma mb) with (Pos.compare ma mb).
    rewrite (Pos.compare_antisym ma mb).
    destruct (Pos.compare ma mb); simpl; congruence.
  - rewrite (Z.compare_antisym ea eb).
    destruct (ea ?= eb)%Z; simpl; try congruence.
    change (Pos.compare_cont Eq mb ma) with (Pos.compare mb ma).
    change (Pos.compare_cont Eq ma mb) with (Pos.compare ma mb).
    rewrite (Pos.compare_antisym ma mb).
    destruct (Pos.compare ma mb); simpl; congruence.
Qed.

Lemma float_ltb_asym (x y : float) :
  PrimFloat.ltb x y = true -> PrimFloat.ltb y x = false.
Proof. rewrite !FloatAxioms.ltb_spec. apply SFltb_asym. Qed.

(** The sorted numbers are the numbers, rearranged so that none is
    greater than the next. *)
Lemma sorted_numbers (xs : list float) :
  sort_by PrimFloat.ltb xs ≡ₚ xs /\
  Sorted (fun a b => PrimFloat.ltb b a = false) (sort_by PrimFloat.ltb xs).
Proof.
  split; [apply sort_by_perm | apply sort_by_sorted, float_ltb_asym].
Qed.

Lemma has_number_column_values column data :
  has_number column data ->
  exists v, In v (List.filter is_int_or_float (column_values column data)).
Proof.
  intros (r & v & Hin & Hget & Hnum). exists v.
  apply filter_In. split; [|exact Hnum].
  apply column_values_In. exists r. repeat split; auto.
  intros ->. discriminate.
Qed.

Lemma quartile_indices (l : list float) :
  l <> [] ->
  let n := Z.of_nat (length l) in
  exists q1 q3,
    getitem l (n / 4)%Z = Ok q1 /\
    (if (3 * n / 4 <? n)%Z then getitem l (3 * n / 4)%Z else getitem l (-1)%Z) = Ok q3.
Proof.
  intros Hne n.
  assert (Hpos : (0 < n)%Z) by (subst n; destruct l; simpl; [congruence | lia]).
  exists (nth (Z.to_nat (n / 4)) l 0%float), (nth (Z.to_nat (3 * n / 4)) l 0%float).
  split.
  - apply getitem_nth. fold n. divmod.
  - assert (Hlt : (3 * n / 4 <? n)%Z = true) by (apply Z.ltb_lt; divmod).
    rewrite Hlt. apply getitem_nth. fold n. divmod.
Qed.

(** C1, as the code has it: on a table whose first record has the column
    and that holds a number in it, when the values of the column are
    hashable, every number converts to a float, none of them is a NaN
    and no power overflows, [calculate_column_stats] returns statistics
    whose mean, median and standard deviation are the arithmetic mean,
    the middle value and the population standard deviation of the sorted
    numbers: the numbers of the column as floats, rearranged so that
    none is greater than the next. *)
Theorem calculate_column_stats_formulas (data : list Record) (column : string)
  (first : Record) (rest : list Record) (xs : list float) (sd : float) :
  data = first :: rest ->
  dict_mem column first = true ->
  has_number column data ->
  forallb hashable (column_values column data) = true ->
  mapM py_float (List.filter is_int_or_float (column_values column data)) = Ok xs ->
  no_nan xs = true ->
  population_std (sort_by PrimFloat.ltb xs) = Ok sd ->
  exists stats,
    calculate_column_stats data column = Ok (Some stats) /\
    mean stats = Some (arithmetic_mean (sort_by PrimFloat.ltb xs)) /\
    median stats = Some (middle_value (sort_by PrimFloat.ltb xs)) /\
    std stats = Some sd /\
    sort_by PrimFloat.ltb xs ≡ₚ xs /\
    Sorted (fun a b => PrimFloat.ltb b a = false) (sort_by PrimFloat.ltb xs).
Proof.
  intros -> Hmem Hnum Hhash Hconv Hnan Hstd.
  pose proof (sorted_numbers xs) as Hsort.
  destruct (has_number_column_values _ _ Hnum) as [v Hv].
  unfold calculate_column_stats. rewrite Hmem. simpl negb. cbv iota.
  fold (column_values column (first :: rest)).
  destruct (column_values column (first :: rest)) as [|v0 vs] eqn:Hvals;
    [destruct Hv|].
  unfold set_len. rewrite Hhash.
  change (Ok ?a ≫= ?k) with (k a). cbv beta.
  unfold numeric_block. rewrite Hconv.
  assert (Hxs : xs <> []).
  { apply mapM_length in Hconv. intros ->.
    destruct (List.filter is_int_or_float (v0 :: vs)); [destruct Hv | discriminate]. }
  destruct xs as [|x xs']; [congruence|].
  unfold sort_floats. rewrite Hnan.
  set (sorted := sort_by PrimFloat.ltb (x :: xs')) in *.
  assert (Hsorted : sorted <> []).
  { intros E. apply (f_equal (@length float)) in E.
    unfold sorted in E. rewrite sort_by_length in E. discriminate. }
  cbv zeta. rewrite (median_of_spec _ Hsorted).
  unfold population_std, arithmetic_mean in Hstd.
  destruct (mapM (fun x0 => float_pow
              (x0 - sum_floats sorted / float_of_len (length sorted))%float 2%float)
              sorted) as [squares|e] eqn:Hsq; [|discriminate].
  change (Ok squares ≫= ?k) with (k squares) in Hstd. cbv beta in Hstd.
  rewrite Hstd.
  destruct (quartile_indices sorted Hsorted) as (q1 & q3 & Hq1 & Hq3).
  cbv zeta in Hq1, Hq3.
  destruct sorted as [|y ys] eqn:Hs; [congruence|].
  rewrite Hq1. change (Ok q1 ≫= ?k) with (k q1). cbv beta.
  rewrite Hq3. change (Ok q3 ≫= ?k) with (k q3). cbv beta.
  eexists. do 4 (split; [reflexivity|]). exact Hsort.
Qed.

End StatsFacts.

(** A table with a group that has no number to aggregate. *)
Definition sales : list Record :=
  [ [("region", VStr "north"); ("amount", VInt 10)];
    [("region", VStr "south"); ("amount", VStr "n/a")];
    [("region", VStr "north"); ("amount", VFloat 2.5)] ].

(** The groups of [sales] by region. *)
Definition sales_by_region : list (string * list Record) :=
  [ ("north", [ [("region", VStr "north"); ("amount", VInt 10)];
                [("region", VStr "north"); ("amount", VFloat 2.5)] ]);
    ("south", [ [("region", VStr "south"); ("amount", VStr "n/a")] ]) ].

(** C10 at [sales]: the sum per region has the key ["north"] only. *)
Lemma aggregate_data_drops_empty_groups_witness :
  aggregate_data sales "region" "amount" "sum" = Ok [("north", VFloat 12.5)] /\
  (dict_mem "south" [("north", VFloat 12.5)] = true <->
   exists g, dict_get "south" sales_by_region = Some g /\ has_number "amount" g).
Proof.
  split; [reflexivity|].
  apply (proj2 (aggregate_data_drops_empty_groups sales "region" "amount" "sum"
                  sales_by_region eq_refl)).
  reflexivity.
Defined.

(** C5 at [sales]. *)
Lemma group_data_partitions_witness :
  exists groups,
    group_data sales "region" = Ok groups /\
    NoDup (dict_keys groups) /\
    (forall k, dict_get k groups =
               match members_of (key_or_empty "region") k sales with
               | [] => None
               | ms => Some ms
               end) /\
    (forall r, In r sales ->
       exists g, dict_get (key_or_empty "region" r) groups = Some g /\ In r g) /\
    concat (map snd groups) ≡ₚ sales.
Proof.
  apply (group_data_partitions sales "region"
           [("region", VStr "north"); ("amount", VInt 10)]
           [ [("region", VStr "south"); ("amount", VStr "n/a")];
             [("region", VStr "north"); ("amount", VFloat 2.5)] ]
           (key_or_empty "region"));
    [reflexivity | reflexivity |].
  intros r [<- | [<- | [<- | []]]]; reflexivity.
Defined.

(** A table whose only value is an int of 5001 digits. *)
Definition huge_key_table : list Record := [[("k", VInt (10 ^ 5000))]].

(** C5, as stated, fails: [huge_key_table] is not empty and its first
    record has the column, yet [str] of the value raises [ValueError]
    where the interpreter converts ints of up to 4300 digits, and
    [group_data] returns no groups. *)
Lemma group_data_huge_key :
  hd_error huge_key_table = Some [("k", VInt (10 ^ 5000))] /\
  dict_mem "k" [("k", VInt (10 ^ 5000))] = true /\
  group_data huge_key_table "k" =
    Raise (Exn ValueError "Exceeds the limit for integer string conversion" true).
Proof.
  split; [reflexivity|]. split; [reflexivity|]. vm_compute. reflexivity.
Qed.

(** A table whose only value is an int no float can hold. *)
Definition huge_int_table : list Record := [[("x", VInt (10 ^ 400))]].

(** C1, as stated, fails: [huge_int_table] is not empty, its first record
    has the column and the column holds an int, yet [float(v)] raises
    [OverflowError], which [except (ValueError, TypeError)] lets through:
    no [DataStats] is returned. *)
Lemma calculate_column_stats_overflow :
  dict_mem "x" [("x", VInt (10 ^ 400))] = true /\
  has_number "x" huge_int_table /\
  calculate_column_stats huge_int_table "x" =
    Raise (Exn OverflowError "int too large to convert to float" true).
Proof.
  split; [reflexivity|]. split.
  - exists [("x", VInt (10 ^ 400))], (VInt (10 ^ 400)).
    repeat split. now left.
  - vm_compute. reflexivity.
Qed.

(** The statistics of the amounts of [sales]: 2.5 and 10. *)
Example sales_amount_stats :
  option_map (fun s => (mean s, median s, std s))
    (match calculate_column_stats sales "amount" with
     | Ok r => r
     | Raise _ => None
     end) = Some (Some 6.25%float, Some 6.25%float, Some 3.75%float).
Proof. vm_compute. reflexivity. Qed.

(** C1 at [sales], column ["amount"]. *)
Lemma calculate_column_stats_formulas_witness :
  exists stats,
    calculate_column_stats sales "amount" = Ok (Some stats) /\
    mean stats = Some (arithmetic_mean (sort_by PrimFloat.ltb [10%float; 2.5%float])) /\
    median stats = Some (middle_value (sort_by PrimFloat.ltb [10%float; 2.5%float])) /\
    std stats = Some 3.75%float /\
    sort_by PrimFloat.ltb [10%float; 2.5%float] ≡ₚ [10%float; 2.5%float] /\
    Sorted (fun a b => PrimFloat.ltb b a = false)
      (sort_by PrimFloat.ltb [10%float; 2.5%float]).
Proof.
  apply (calculate_column_stats_formulas sales "amount"
           [("region", VStr "north"); ("amount", VInt 10)]
           [ [("region", VStr "south"); ("amount", VStr "n/a")];
             [("region", VStr "north"); ("amount", VFloat 2.5)] ]
           [10%float; 2.5%float] 3.75%float);
    try reflexivity.
  exists [("region", VStr "north"); ("amount", VInt 10)], (VInt 10).
  repeat split. now left.
Defined.

(** *** [load_json_data] *)
Section LoadJsonFacts.
Variable json_loads : string -> result Value.


End LoadJsonFacts.

(** A parser that knows three documents, to run the model on. *)
Definition tiny_json_loads (s : string) : result Value :=
  if String.eqb s "{}" then Ok (VDict [])
  else if String.eqb s "[]" then Ok (VList [])
  else if String.eqb s "null" then Ok VNone
  else Raise (Exn JSONDecodeError "Expecting value: line 1 column 1 (char 0)" true).


(** *** More on [filter_data] *)

Lemma filter_data_filter data conditions :
  filter_data data conditions = List.filter (fun r => record_matches r conditions) data.
Proof. unfold filter_data. now rewrite filter_loop_spec. Qed.

Lemma filter_swap {A : Type} (f g : A -> bool) (l : list A) :
  List.filter f (List.filter g l) = List.filter g (List.filter f l).
Proof.
  induction l as [|x l IH]; simpl; auto.
  destruct (g x) eqn:Eg, (f x) eqn:Ef; simpl; rewrite ?Eg, ?Ef, ?IH; auto.
Qed.

Lemma filter_twice {A : Type} (f : A -> bool) (l : list A) :
  List.filter f (List.filter f l) = List.filter f l.
Proof.
  induction l as [|x l IH]; simpl; auto.
  destruct (f x) eqn:Ef; simpl; rewrite ?Ef, ?IH; auto.
Qed.

(** X1: filters can be applied in any order, filtering again by the same
    conditions changes nothing, and a filter never returns more records
    than it was given. *)
Theorem filter_data_composes (data : list Record) (c1 c2 : list (string * Value)) :
  filter_data (filter_data data c1) c2 = filter_data (filter_data data c2) c1 /\
  filter_data (filter_data data c1) c1 = filter_data data c1 /\
  length (filter_data data c1) <= length data.
Proof.
  rewrite !filter_data_filter. split; [apply filter_swap|].
  split; [apply filter_twice | apply List.filter_length_le].
Qed.

(** *** More on [summarize_data] *)

Lemma column_scan_total column data :
  length (fst (column_scan column data)) + snd (column_scan column data) = length data.
Proof.
  induction data as [|r data IH]; simpl; auto.
  destruct (column_scan column data) as [vals miss]. simpl in IH.
  destruct (dict_get column r) as [[]|]; simpl; lia.
Qed.

Lemma dict_get_tabulate {V : Type} (f : string -> V) (keys : list string) (k : string) :
  In k keys -> dict_get k (map (fun c => (c, f c)) keys) = Some (f k).
Proof.
  induction keys as [|c keys IH]; simpl; [tauto|].
  intros Hin. destruct (String.eqb k c) eqn:E.
  - apply String.eqb_eq in E. now subst.
  - apply String.eqb_neq in E. destruct Hin; [congruence | auto].
Qed.

Lemma type_label_unknown values : type_label values = "unknown" <-> values = [].
Proof.
  split; [|now intros ->].
  destruct values as [|[] ?]; simpl; [reflexivity | discriminate ..].
Qed.

(** X2: for every column it reports, [summarize_data] gives a type and a
    count of missing values; the missing values and the values present
    (not [None]) add up to the number of records, and the type is
    ["unknown"] exactly when the value is missing everywhere. *)
Theorem summarize_data_accounts (first : Record) (rest : list Record)
  (sample_size : Z) (c : string) :
  In c (columns (summarize_data (first :: rest) sample_size)) ->
  exists missing type,
    dict_get c (missing_values (summarize_data (first :: rest) sample_size)) = Some missing /\
    dict_get c (data_types (summarize_data (first :: rest) sample_size)) = Some type /\
    total_records (summarize_data (first :: rest) sample_size) = S (length rest) /\
    missing + length (column_values c (first :: rest)) = S (length rest) /\
    (type = "unknown" <-> missing = S (length rest)).
Proof.
  intros Hin. unfold summarize_data in *. cbn [columns missing_values data_types total_records] in *.
  exists (snd (column_scan c (first :: rest))),
         (type_label (fst (column_scan c (first :: rest)))).
  rewrite (dict_get_tabulate (fun c => snd (column_scan c (first :: rest))) _ _ Hin).
  rewrite (dict_get_tabulate (fun c => type_label (fst (column_scan c (first :: rest)))) _ _ Hin).
  pose proof (column_scan_total c (first :: rest)) as Htot.
  unfold column_values.
  destruct (column_scan c (first :: rest)) as [vals miss].
  cbn [fst snd] in *. change (length (first :: rest)) with (S (length rest)) in Htot.
  repeat split; try lia.
  - intros Hu. apply type_label_unknown in Hu. subst vals. simpl in Htot. lia.
  - intros Hm. apply type_label_unknown.
    destruct vals; [reflexivity | simpl in Htot; lia].
Qed.

(** *** More on [calculate_column_stats] *)

Lemma result_bind_Ok {A B : Type} (a : A) (k : A -> result B) : (Ok a ≫= k) = k a.
Proof. reflexivity. Qed.

Section MoreStats.
Context `{RT : Runtime}.

(** The fields that the numeric block and the handler leave alone. *)
Definition same_counts (s s' : DataStats) : Prop :=
  column s' = column s /\ count s' = count s /\ unique_count s' = unique_count s.

Lemma numeric_block_counts values stats :
  same_counts stats (fst (numeric_block values stats)).
Proof.
  unfold numeric_block, same_counts.
  repeat match goal with
         | |- context [match ?x with _ => _ end] => destruct x
         end; simpl; auto.
Qed.

Lemma non_numeric_handler_counts values stats stats' :
  non_numeric_handler values stats = Ok stats' -> same_counts stats stats'.
Proof.
  unfold non_numeric_handler, same_counts. destruct values as [|v vs]; [discriminate|].
  destruct (min_from py_lt v vs) as [lo|e]; [|discriminate].
  rewrite result_bind_Ok.
  destruct (py_str lo) as [lo'|e]; [|discriminate].
  rewrite result_bind_Ok.
  destruct (max_from py_lt v vs) as [hi|e]; [|discriminate].
  rewrite result_bind_Ok.
  destruct (py_str hi) as [hi'|e]; [|discriminate].
  rewrite result_bind_Ok. intros [= <-]. simpl. auto.
Qed.

Lemma distinct_length values seen :
  length seen <= length (distinct values seen) <= length seen + length values.
Proof.
  revert seen. induction values as [|v values IH]; intros seen; simpl; [lia|].
  specialize (IH (if existsb (py_eq v) seen then seen else seen ++ [v])).
  destruct (existsb (py_eq v) seen); [lia|].
  rewrite length_app in IH. simpl in IH. lia.
Qed.

(** How [calculate_column_stats] ends once the column has a value: with
    statistics, or with an exception. *)
Lemma calculate_column_stats_some first rest column v vs :
  dict_mem column first = true ->
  column_values column (first :: rest) = v :: vs ->
  forall r, calculate_column_stats (first :: rest) column = Ok r ->
  exists stats, r = Some stats /\
    same_counts (new_stats column (length (v :: vs)) (length (distinct (v :: vs) []))) stats.
Proof.
  intros Hmem Hvals r. unfold calculate_column_stats. rewrite Hmem. simpl negb. cbv iota.
  fold (column_values column (first :: rest)). rewrite Hvals.
  unfold set_len. destruct (forallb hashable (v :: vs)); [|discriminate].
  rewrite result_bind_Ok.
  pose proof (numeric_block_counts (v :: vs)
                (new_stats column (length (v :: vs)) (length (distinct (v :: vs) []))))
    as Hkeep.
  destruct (numeric_block (v :: vs) _) as [stats [e|]]; simpl in Hkeep.
  - destruct (is_ValueError e || is_TypeError e); [|discriminate].
    destruct (non_numeric_handler (v :: vs) stats) as [stats'|e'] eqn:Hh; [|discriminate].
    rewrite result_bind_Ok. intros [= <-]. exists stats'. split; [reflexivity|].
    apply non_numeric_handler_counts in Hh.
    destruct Hh as (h1 & h2 & h3), Hkeep as (k1 & k2 & k3).
    repeat split; [rewrite h1; exact k1 | rewrite h2; exact k2 | rewrite h3; exact k3].
  - intros [= <-]. eauto.
Qed.

Lemma calculate_column_stats_no_value first rest column :
  column_values column (first :: rest) = [] ->
  calculate_column_stats (first :: rest) column = Ok None.
Proof.
  intros Hvals. unfold calculate_column_stats.
  destruct (dict_mem column first); [|reflexivity].
  simpl negb. cbv iota. fold (column_values column (first :: rest)).
  now rewrite Hvals.
Qed.

(** X3: [calculate_column_stats] returns [None] in three cases only: no
    record, a first record without the column, or a column that is
    missing or [None] in every record. *)
Theorem calculate_column_stats_none (data : list Record) (column : string) :
  calculate_column_stats data column = Ok None <->
  data = [] \/
  (exists first rest, data = first :: rest /\
     (dict_mem column first = false \/ column_values column data = [])).
Proof.
  split.
  - intros Hnone. destruct data as [|first rest]; [now left|]. right.
    exists first, rest. split; [reflexivity|].
    destruct (dict_mem column first) eqn:Hmem; [|now left]. right.
    destruct (column_values column (first :: rest)) as [|v vs] eqn:Hvals; [reflexivity|].
    destruct (calculate_column_stats_some _ _ _ _ _ Hmem Hvals _ Hnone) as (? & ? & _).
    discriminate.
  - intros [-> | (first & rest & -> & [Hmem | Hvals])].
    + reflexivity.
    + unfold calculate_column_stats. now rewrite Hmem.
    + now apply calculate_column_stats_no_value.
Qed.

(** X4: when [calculate_column_stats] returns statistics, they are those of
    the column asked for; [count] is the number of values that are
    present and not [None], so that [count] and the missing values that
    [summarize_data] reports for the column add up to the number of
    records; and [unique_count] is at least one and at most [count]. *)
Theorem calculate_column_stats_counts (data : list Record) (column : string)
  (stats : DataStats) (sample_size : Z) :
  calculate_column_stats data column = Ok (Some stats) ->
  DataTools.column stats = column /\
  count stats = length (column_values column data) /\
  1 <= unique_count stats <= count stats /\
  exists missing,
    dict_get column (missing_values (summarize_data data sample_size)) = Some missing /\
    count stats + missing = total_records (summarize_data data sample_size).
Proof.
  intros Hres. destruct data as [|first rest]; [discriminate|].
  destruct (dict_mem column first) eqn:Hmem;
    [|unfold calculate_column_stats in Hres; rewrite Hmem in Hres; discriminate].
  destruct (column_values column (first :: rest)) as [|v vs] eqn:Hvals.
  { rewrite (calculate_column_stats_no_value _ _ _ Hvals) in Hres. discriminate. }
  destruct (calculate_column_stats_some _ _ _ _ _ Hmem Hvals _ Hres)
    as (stats' & [= <-] & Hcol & Hcount & Huniq).
  cbn [new_stats DataTools.column count unique_count] in Hcol, Hcount, Huniq.
  pose proof (distinct_length vs [v]) as Hd.
  assert (Hd' : distinct (v :: vs) [] = distinct vs [v]) by reflexivity.
  rewrite Hd' in Huniq. simpl in Hd, Hcount.
  split; [exact Hcol|]. split; [now rewrite Hcount|]. split; [lia|].
  exists (snd (column_scan column (first :: rest))).
  assert (Hin : In column (columns (summarize_data (first :: rest) sample_size))).
  { apply summarize_columns. exists first. split; [now left | exact Hmem]. }
  unfold summarize_data in *. cbn [columns missing_values total_records] in *.
  rewrite (dict_get_tabulate (fun c => snd (column_scan c (first :: rest))) _ _ Hin).
  split; [reflexivity|].
  pose proof (column_scan_total column (first :: rest)) as Htot.
  unfold column_values in Hvals. rewrite Hvals in Htot. simpl length in Htot.
  rewrite Hcount. simpl length. lia.
Qed.

(** X5: a column without any int or float: when its values are hashable,
    only [count] and [unique_count] are filled in.  The handler of
    [except (ValueError, TypeError)], which would set [min] and [max] to
    strings, is not reached. *)
Theorem calculate_column_stats_text (first : Record) (rest : list Record)
  (column : string) :
  dict_mem column first = true ->
  column_values column (first :: rest) <> [] ->
  forallb hashable (column_values column (first :: rest)) = true ->
  List.filter is_int_or_float (column_values column (first :: rest)) = [] ->
  calculate_column_stats (first :: rest) column =
    Ok (Some (new_stats column
                (length (column_values column (first :: rest)))
                (length (distinct (column_values column (first :: rest)) [])))).
Proof.
  intros Hmem Hne Hhash Hnum.
  unfold calculate_column_stats. rewrite Hmem. simpl negb. cbv iota.
  fold (column_values column (first :: rest)).
  destruct (column_values column (first :: rest)) as [|v vs] eqn:Hvals; [congruence|].
  unfold set_len. rewrite Hhash, result_bind_Ok.
  unfold numeric_block. rewrite Hnum. reflexivity.
Qed.

Lemma min_float_In cur rest : In (min_float cur rest) (cur :: rest).
Proof.
  revert cur. induction rest as [|item rest IH]; intros cur; simpl; [now left|].
  destruct (IH (if PrimFloat.ltb item cur then item else cur)) as [H | H].
  - rewrite <- H. destruct (PrimFloat.ltb item cur); auto.
  - auto.
Qed.

Lemma max_float_In cur rest : In (max_float cur rest) (cur :: rest).
Proof.
  revert cur. induction rest as [|item rest IH]; intros cur; simpl; [now left|].
  destruct (IH (if PrimFloat.ltb cur item then item else cur)) as [H | H].
  - rewrite <- H. destruct (PrimFloat.ltb cur item); auto.
  - auto.
Qed.

(** X6: on a column with numbers, none of them a NaN (the preconditions
    under which the statistics are returned), the quartiles are three
    values: the sorted number at index [n // 4], the median, and the
    sorted number at index [3 * n // 4], which is always below [n], so
    that the fallback to the last element is never taken; [min] and
    [max] are numbers of the column. *)
Theorem calculate_column_stats_quartiles (data : list Record) (column : string)
  (first : Record) (rest : list Record) (xs : list float) (sd : float) :
  data = first :: rest ->
  dict_mem column first = true ->
  has_number column data ->
  forallb hashable (column_values column data) = true ->
  mapM py_float (List.filter is_int_or_float (column_values column data)) = Ok xs ->
  no_nan xs = true ->
  population_std (sort_by PrimFloat.ltb xs) = Ok sd ->
  exists stats lo hi,
    calculate_column_stats data column = Ok (Some stats) /\
    quartiles stats =
      Some [ nth (length xs / 4) (sort_by PrimFloat.ltb xs) 0%float;
             middle_value (sort_by PrimFloat.ltb xs);
             nth (3 * length xs / 4) (sort_by PrimFloat.ltb xs) 0%float ] /\
    3 * length xs / 4 < length xs /\
    min stats = Some (VFloat lo) /\ In lo xs /\
    max stats = Some (VFloat hi) /\ In hi xs.
Proof.
  intros -> Hmem Hnum Hhash Hconv Hnan Hstd.
  destruct (has_number_column_values _ _ Hnum) as [v Hv].
  unfold calculate_column_stats. rewrite Hmem. simpl negb. cbv iota.
  fold (column_values column (first :: rest)).
  destruct (column_values column (first :: rest)) as [|v0 vs] eqn:Hvals;
    [destruct Hv|].
  unfold set_len. rewrite Hhash, result_bind_Ok.
  unfold numeric_block. rewrite Hconv.
  assert (Hxs : xs <> []).
  { apply mapM_length in Hconv. intros ->.
    destruct (List.filter is_int_or_float (v0 :: vs)); [destruct Hv | discriminate]. }
  destruct xs as [|x xs']; [congruence|].
  unfold sort_floats. rewrite Hnan.
  pose proof (sort_by_perm PrimFloat.ltb (x :: xs')) as Hperm.
  pose proof (sort_by_length PrimFloat.ltb (x :: xs')) as Hlen.
  set (sorted := sort_by PrimFloat.ltb (x :: xs')) in *.
  assert (Hsorted : sorted <> []).
  { intros E. rewrite E in Hlen. discriminate. }
  cbv zeta. rewrite (median_of_spec _ Hsorted).
  unfold population_std, arithmetic_mean in Hstd.
  destruct (mapM (fun x0 => float_pow
              (x0 - sum_floats sorted / float_of_len (length sorted))%float 2%float)
              sorted) as [squares|e] eqn:Hsq; [|discriminate].
  rewrite result_bind_Ok in Hstd. rewrite Hstd.
  assert (Hpos : 0 < length sorted) by (destruct sorted; simpl; [congruence | lia]).
  assert (Hq1 : getitem sorted (Z.of_nat (length sorted) / 4)%Z =
                Ok (nth (length sorted / 4) sorted 0%float)).
  { rewrite (getitem_nth _ _ 0%float) by (Z.div_mod_to_equations; lia).
    do 2 f_equal. change 4%Z with (Z.of_nat 4). rewrite Zdiv_nat. lia. }
  assert (Hlt : (3 * Z.of_nat (length sorted) / 4 <? Z.of_nat (length sorted))%Z = true)
    by (apply Z.ltb_lt; Z.div_mod_to_equations; lia).
  assert (Hq3 : getitem sorted (3 * Z.of_nat (length sorted) / 4)%Z =
                Ok (nth (3 * length sorted / 4) sorted 0%float)).
  { rewrite (getitem_nth _ _ 0%float) by (Z.div_mod_to_equations; lia).
    do 2 f_equal. change 4%Z with (Z.of_nat 4).
    change 3%Z with (Z.of_nat 3). rewrite <- Nat2Z.inj_mul, Zdiv_nat. lia. }
  assert (Hidx : 3 * length sorted / 4 < length sorted).
  { apply Z.ltb_lt in Hlt. apply Nat2Z.inj_lt.
    rewrite <- Zdiv_nat, Nat2Z.inj_mul. exact Hlt. }
  rewrite <- Hlen.
  destruct sorted as [|y ys] eqn:Hs; [congruence|].
  rewrite Hq1, result_bind_Ok, Hlt, Hq3, result_bind_Ok.
  eexists _, (min_float y ys), (max_float y ys).
  split; [reflexivity|]. split; [reflexivity|]. split; [exact Hidx|].
  split; [reflexivity|]. split; [|split; [reflexivity|]].
  - eapply Permutation_in; [exact Hperm | apply min_float_In].
  - eapply Permutation_in; [exact Hperm | apply max_float_In].
Qed.

End MoreStats.

(** *** More on [aggregate_data] *)
Section MoreAggregate.
Context `{RT : Runtime}.

Lemma dict_get_mem_false {V : Type} (k : string) (d : list (string * V)) :
  dict_mem k d = false -> dict_get k d = None.
Proof. unfold dict_mem. now destruct (dict_get k d). Qed.

(** What the loop leaves under a key: the aggregate of the group of that
    key when the group has numbers, else what was there. *)
Lemma aggregate_loop_get items agg_column operation results out k :
  NoDup (dict_keys items) ->
  aggregate_loop items agg_column operation results = Ok out ->
  dict_get k out =
  match dict_get k items with
  | Some group =>
      match agg_values agg_column group with
      | Ok (first :: rest) => Some (aggregate operation first rest)
      | _ => dict_get k results
      end
  | None => dict_get k results
  end.
Proof.
  revert results. induction items as [|[key group] items IH]; intros results Hnd; simpl.
  - now intros [= <-].
  - inversion Hnd as [|? ? Hnot Hnd']; subst.
    destruct (agg_values agg_column group) as [values|e] eqn:Hv; [|discriminate].
    rewrite result_bind_Ok. intros Hloop. rewrite (IH _ Hnd' Hloop). clear IH Hloop.
    destruct (String.eqb k key) eqn:E.
    + apply String.eqb_eq in E. subst key.
      assert (Hnone : dict_get k items = None).
      { apply dict_get_mem_false. destruct (dict_mem k items) eqn:Hm; auto.
        exfalso. apply Hnot. now apply list_elem_of_In, dict_mem_In. }
      rewrite Hnone, ?Hv. destruct values; [reflexivity | apply dict_get_set_eq].
    + apply String.eqb_neq in E.
      assert (Hr : dict_get k
                     match values with
                     | [] => results
                     | first :: rest =>
                         dict_set key (aggregate operation first rest) results
                     end = dict_get k results).
      { destruct values; [reflexivity|]. apply dict_get_set_ne. congruence. }
      now rewrite Hr.
Qed.

(** X7: with the operation ["count"], the value that [aggregate_data] gives
    for a group is the number of its records that hold an int or a float
    in the aggregated column, as an int. *)
Theorem aggregate_data_count (data : list Record) (group_by agg_column : string)
  (results : list (string * Value)) (k : string) (v : Value) :
  aggregate_data data group_by agg_column "count" = Ok results ->
  dict_get k results = Some v ->
  exists groups group,
    group_data data group_by = Ok groups /\
    dict_get k groups = Some group /\
    v = VInt (Z.of_nat (length (numbers_of agg_column group))) /\
    0 < length (numbers_of agg_column group).
Proof.
  intros Hres Hk. unfold aggregate_data in Hres.
  destruct (group_data data group_by) as [groups|e] eqn:Hgroups; [|discriminate].
  rewrite result_bind_Ok in Hres.
  rewrite (aggregate_loop_get _ _ _ _ _ k (group_data_NoDup _ _ _ Hgroups) Hres) in Hk.
  destruct (dict_get k groups) as [group|] eqn:Hgroup; [|discriminate].
  exists groups, group. split; [reflexivity|]. split; [exact Hgroup|].
  destruct (agg_values agg_column group) as [[|first rest]|e] eqn:Hv; try discriminate.
  apply mapM_length in Hv. fold (numbers_of agg_column group) in Hv.
  injection Hk as <-. unfold aggregate. cbn [String.eqb Ascii.eqb Bool.eqb orb].
  rewrite <- Hv. simpl. split; [reflexivity | lia].
Qed.

(** The names of the operations that [aggregate_data] tells apart. *)
Definition named_operation (operation : string) : bool :=
  existsb (String.eqb operation) ["sum"; "mean"; "avg"; "count"; "min"; "max"].

Lemma aggregate_loop_ext items agg_column op1 op2 results :
  (forall first rest, aggregate op1 first rest = aggregate op2 first rest) ->
  aggregate_loop items agg_column op1 results =
  aggregate_loop items agg_column op2 results.
Proof.
  intros Hext. revert results.
  induction items as [|[key group] items IH]; intros results; simpl; auto.
  destruct (agg_values agg_column group) as [values|e]; [|reflexivity].
  rewrite !result_bind_Ok. destruct values; [apply IH|]. rewrite Hext. apply IH.
Qed.

(** X8: an operation that is none of sum, mean, avg, count, min and max is
    not refused: [aggregate_data] sums, as for ["sum"]; and ["avg"] is
    another name of ["mean"]. *)
Theorem aggregate_data_default_operation (data : list Record)
  (group_by agg_column operation : string) :
  (named_operation operation = false ->
   aggregate_data data group_by agg_column operation =
   aggregate_data data group_by agg_column "sum") /\
  aggregate_data data group_by agg_column "avg" =
  aggregate_data data group_by agg_column "mean".
Proof.
  split.
  - intros Hop. unfold aggregate_data.
    destruct (group_data data group_by) as [groups|e]; [|reflexivity].
    rewrite !result_bind_Ok. apply aggregate_loop_ext. intros first rest.
    unfold named_operation in Hop. simpl in Hop.
    repeat (apply orb_false_iff in Hop; destruct Hop as [? Hop]).
    unfold aggregate.
    repeat match goal with H : String.eqb operation _ = false |- _ => rewrite H; clear H end.
    reflexivity.
  - unfold aggregate_data.
    destruct (group_data data group_by) as [groups|e]; [|reflexivity].
    rewrite !result_bind_Ok. apply aggregate_loop_ext. intros first rest. reflexivity.
Qed.

End MoreAggregate.

(** *** More on [load_json_data] *)
Section MoreLoadJson.
Variable json_loads : string -> result Value.

(** What [load_json_data] makes of a value that is not a string. *)
Definition normalized (data : Value) : list Value :=
  match data with
  | VDict _ => [data]
  | VList l => l
  | _ => []
  end.

(** X9: input that is not a string never reaches the parser and never
    raises: a dict is wrapped, a list is returned as it is, anything else
    gives the empty list.  A string that parses to such a value gives
    the same result as the value: the empty list for a number, a boolean
    or null.  Loading what [load_json_data] returned returns it again. *)
Theorem load_json_data_on_values (data : Value) :
  (forall s, data <> VStr s) ->
  fst (load_json_data json_loads data) = Ok (normalized data) /\
  fst (load_json_data json_loads (VList (normalized data))) = Ok (normalized data) /\
  (forall s, json_loads s = Ok data ->
     fst (load_json_data json_loads (VStr s)) = Ok (normalized data)).
Proof.
  intros Hns. unfold load_json_data, load_json_try. split; [|split].
  - destruct data; try reflexivity. now destruct (Hns s).
  - reflexivity.
  - intros s ->. destruct data; reflexivity.
Qed.

End MoreLoadJson.

(** *** The further properties at [sales] *)

Definition sales_first : Record := [("region", VStr "north"); ("amount", VInt 10)].

Definition sales_rest : list Record :=
  [ [("region", VStr "south"); ("amount", VStr "n/a")];
    [("region", VStr "north"); ("amount", VFloat 2.5)] ].

Lemma summarize_data_accounts_witness :
  exists missing type,
    dict_get "amount" (missing_values (summarize_data (sales_first :: sales_rest) 5))
      = Some missing /\
    dict_get "amount" (data_types (summarize_data (sales_first :: sales_rest) 5))
      = Some type /\
    total_records (summarize_data (sales_first :: sales_rest) 5) = 3 /\
    missing + length (column_values "amount" (sales_first :: sales_rest)) = 3 /\
    (type = "unknown" <-> missing = 3).
Proof.
  apply (summarize_data_accounts sales_first sales_rest 5 "amount").
  simpl. auto.
Defined.

Lemma calculate_column_stats_counts_witness :
  exists stats,
    calculate_column_stats sales "amount" = Ok (Some stats) /\
    column stats = "amount" /\
    count stats = length (column_values "amount" sales) /\
    1 <= unique_count stats <= count stats /\
    exists missing,
      dict_get "amount" (missing_values (summarize_data sales 5)) = Some missing /\
      count stats + missing = total_records (summarize_data sales 5).
Proof.
  eexists. split; [vm_compute; reflexivity|].
  apply (calculate_column_stats_counts sales "amount" _ 5).
  vm_compute. reflexivity.
Defined.

Lemma calculate_column_stats_text_witness :
  calculate_column_stats (sales_first :: sales_rest) "region" =
    Ok (Some (new_stats "region"
                (length (column_values "region" (sales_first :: sales_rest)))
                (length (distinct (column_values "region" (sales_first :: sales_rest)) [])))).
Proof.
  apply (calculate_column_stats_text sales_first sales_rest "region");
    [reflexivity | discriminate | reflexivity | reflexivity].
Defined.

Lemma calculate_column_stats_quartiles_witness :
  exists stats lo hi,
    calculate_column_stats sales "amount" = Ok (Some stats) /\
    quartiles stats =
      Some [ nth (2 / 4) (sort_by PrimFloat.ltb [10%float; 2.5%float]) 0%float;
             middle_value (sort_by PrimFloat.ltb [10%float; 2.5%float]);
             nth (3 * 2 / 4) (sort_by PrimFloat.ltb [10%float; 2.5%float]) 0%float ] /\
    3 * 2 / 4 < 2 /\
    min stats = Some (VFloat lo) /\ In lo [10%float; 2.5%float] /\
    max stats = Some (VFloat hi) /\ In hi [10%float; 2.5%float].
Proof.
  apply (calculate_column_stats_quartiles sales "amount" sales_first sales_rest
           [10%float; 2.5%float] 3.75%float);
    try reflexivity.
  exists sales_first, (VInt 10). repeat split. now left.
Defined.

Lemma aggregate_data_count_witness :
  exists groups group,
    group_data sales "region" = Ok groups /\
    dict_get "north" groups = Some group /\
    VInt 2 = VInt (Z.of_nat (length (numbers_of "amount" group))) /\
    0 < length (numbers_of "amount" group).
Proof.
  apply (aggregate_data_count sales "region" "amount" [("north", VInt 2)] "north");
    reflexivity.
Defined.

Lemma aggregate_data_default_operation_witness :
  aggregate_data sales "region" "amount" "median" =
  aggregate_data sales "region" "amount" "sum".
Proof.
  apply (proj1 (aggregate_data_default_operation sales "region" "amount" "median")).
  reflexivity.
Defined.

Lemma load_json_data_on_values_witness :
  fst (load_json_data tiny_json_loads (VDict sales_first)) = Ok [VDict sales_first] /\
  fst (load_json_data tiny_json_loads (VList [VDict sales_first])) = Ok [VDict sales_first] /\
  (forall s, tiny_json_loads s = Ok (VDict sales_first) ->
     fst (load_json_data tiny_json_loads (VStr s)) = Ok [VDict sales_first]).
Proof.
  apply (load_json_data_on_values tiny_json_loads (VDict sales_first)).
  intros s. discriminate.
Defined.

End DataTools.

(** ** [src/utils/helpers.py]: [RetryConfig] and [retry_async] *)
Module Helpers.

Record RetryConfig := {
  max_attempts : Z;
  delay : float;
  backoff_factor : float
}.

(** [RetryConfig()] *)
Definition default_config : RetryConfig :=
  {| max_attempts := 3; delay := 1%float; backoff_factor := 2%float |}.

(** What the caller can observe of a run besides its outcome: the calls
    of the wrapped function and the sleeps, in order. *)
Inductive event :=
| Called (attempt : nat)
| Slept (seconds : float).

Section Retry.
Context {A : Type}.

(** The wrapped coroutine function with its arguments: what the call
    made at a given attempt does. *)
Variable func : nat -> result A.

(** After the loop: [if last_exception: raise last_exception], else the
    function ends and returns [None]. *)
Definition after_loop (last_exception : option exn) : result (option A) :=
  match last_exception with
  | Some e => if exn_truthy e then Raise e else Ok None
  | None => Ok None
  end.

(** The [for attempt in range(config.max_attempts)] loop, with [todo]
    turns left. *)
Fixpoint retry_loop (config : RetryConfig) (todo attempt : nat)
  (current_delay : float) (last_exception : option exn)
  : result (option A) * list event :=
  match todo with
  | 0 => (after_loop last_exception, [])
  | S todo' =>
      match func attempt with
      | Ok v => (Ok (Some v), [Called attempt])
      | Raise e =>
          if is_Exception e then
            if (Z.of_nat attempt <? max_attempts config - 1)%Z then
              let '(r, trace) :=
                retry_loop config todo' (S attempt)
                  (current_delay * backoff_factor config)%float (Some e) in
              (r, Called attempt :: Slept current_delay :: trace)
            else (after_loop (Some e), [Called attempt])
          else (Raise e, [Called attempt])
      end
  end.

Definition retry_async (config : option RetryConfig) : result (option A) * list event :=
  let config := match config with
                | Some c => c
                | None => default_config
                end in
  retry_loop config (Z.to_nat (max_attempts config)) 0 (delay config) None.

End Retry.




(** An exception object that is false in a boolean context, as one of a
    class that defines [__bool__] to return [False]. *)
Definition quiet_failure : exn :=
  Exn (OtherException "QuietFailure") "nothing to report" false.

Definition always_quiet (attempt : nat) : result Z := Raise quiet_failure.

Definition flaky (attempt : nat) : result Z :=
  if Nat.ltb attempt 2
  then Raise (Exn (OtherException "ConnectionError") "refused" true)
  else Ok 42%Z.

Section RetryFacts.
Context {A : Type}.
Variable func : nat -> result A.
Variable config : RetryConfig.







End RetryFacts.

(** C7 fails on an exception that is false in a boolean context: every
    one of the three attempts raises it, the sleeps are 1 and 2 seconds,
    and the run ends by returning [None] where the claim has the last
    exception raised. *)
Theorem retry_async_swallows_falsy_exception :
  retry_async always_quiet None =
    (Ok None, [Called 0; Slept 1%float; Called 1; Slept 2%float; Called 2]).
Proof. reflexivity. Qed.

(** A run that succeeds at the third attempt. *)
Example retry_async_flaky :
  retry_async flaky None =
    (Ok (Some 42%Z), [Called 0; Slept 1%float; Called 1; Slept 2%float; Called 2]).
Proof. reflexivity. Qed.


(** *** [chunk_list] *)

(** [len(range(start, stop, step))] for a step that is not zero *)
Definition range_length (start stop step : Z) : Z :=
  if (0 <? step)%Z
  then (if (start <? stop)%Z then (stop - start - 1) / step + 1 else 0)%Z
  else (if (stop <? start)%Z then (start - stop - 1) / (- step) + 1 else 0)%Z.

(** [range(start, stop, step)] *)
Definition range (start stop step : Z) : result (list Z) :=
  if (step =? 0)%Z
  then Raise (Exn ValueError "range() arg 3 must not be zero" true)
  else Ok (map (fun j => (start + Z.of_nat j * step)%Z)
             (seq 0 (Z.to_nat (range_length start stop step)))).

(** [l[i:j]]: a negative bound counts from the end, and both bounds are
    brought into the list. *)
Definition slice {A : Type} (l : list A) (i j : Z) : list A :=
  let n := Z.of_nat (length l) in
  let clamp := fun x => if (x <? 0)%Z then Z.max 0 (n + x) else Z.min x n in
  firstn (Z.to_nat (clamp j - clamp i)) (skipn (Z.to_nat (clamp i)) l).

(** [[data[i:i + chunk_size] for i in range(0, len(data), chunk_size)]] *)
Definition chunk_list {A : Type} (data : list A) (chunk_size : Z) : result (list (list A)) :=
  starts ← range 0 (Z.of_nat (length data)) chunk_size;
  Ok (map (fun i => slice data i (i + chunk_size)) starts).

(** *** [safe_get_nested] *)

Fixpoint safe_get_nested (current : Value) (keys : list string) (default : Value)
  : Value :=
  match keys with
  | [] => current
  | key :: keys' =>
      match current with
      | VDict d =>
          match dict_get key d with
          | Some v => safe_get_nested v keys' default
          | None => default
          end
      | _ => default
      end
  end.

(** *** [flatten_dict] *)

(** [dict(items)]: a later item with the same key replaces the value,
    at the place of the first. *)
Definition dict_of_items {V : Type} (items : list (string * V)) : list (string * V) :=
  fold_left (fun d kv => dict_set (fst kv) (snd kv) d) items [].

(** [f"{parent_key}{separator}{key}" if parent_key else key] *)
Definition child_key (parent_key separator key : string) : string :=
  if String.eqb parent_key "" then key else parent_key +:+ separator +:+ key.

(** The items that one entry adds, under the key [new_key] made for it:
    those of the flattened dict when the value is a dict, else the entry
    itself. *)
Fixpoint flatten_entry (value : Value) (new_key separator : string) {struct value}
  : list (string * Value) :=
  match value with
  | VDict inner =>
      dict_of_items
        ((fix items (d : list (string * Value)) : list (string * Value) :=
            match d with
            | [] => []
            | (key, v) :: d' =>
                flatten_entry v (child_key new_key separator key) separator ++ items d'
            end) inner)
  | _ => [(new_key, value)]
  end.

(** The [items] list built by the loop of [flatten_dict]. *)
Fixpoint flatten_items (data : list (string * Value)) (parent_key separator : string)
  : list (string * Value) :=
  match data with
  | [] => []
  | (key, value) :: data' =>
      flatten_entry value (child_key parent_key separator key) separator
        ++ flatten_items data' parent_key separator
  end.

Definition flatten_dict (data : list (string * Value)) (parent_key separator : string)
  : list (string * Value) :=
  dict_of_items (flatten_items data parent_key separator).

(** *** [merge_dicts] *)

(** [isinstance(v, dict)] *)
Definition is_dict (v : Value) : bool :=
  match v with
  | VDict _ => true
  | _ => false
  end.

(** What is stored under a key that [result] already has, with [deep]
    set: [merge_dicts(result[key], value, deep=True)] when the old and the
    new value are both dicts, else the new value.  In the inner call the
    first pass, over the old dict, copies it (its keys are all new to the
    empty result); the second pass, over the items of [value], is the loop
    written here. *)
Fixpoint merged_value (old value : Value) {struct value} : Value :=
  match value with
  | VDict inner =>
      match old with
      | VDict r =>
          VDict
            ((fix pass (items result : list (string * Value)) {struct items}
                : list (string * Value) :=
                match items with
                | [] => result
                | (key, v) :: items' =>
                    pass items'
                      (match dict_get key result with
                       | Some o => dict_set key (merged_value o v) result
                       | None => dict_set key v result
                       end)
                end) inner r)
      | _ => value
      end
  | _ => value
  end.

(** One turn of [for key, value in d.items()] *)
Definition merge_item (deep : bool) (result : list (string * Value))
  (item : string * Value) : list (string * Value) :=
  let '(key, value) := item in
  match dict_get key result with
  | Some old =>
      if deep then dict_set key (merged_value old value) result
      else dict_set key value result
  | None => dict_set key value result
  end.

(** [merge_dicts] over its positional arguments [dicts]: an argument
    that is not a dict is passed over. *)
Definition merge_dicts (dicts : list Value) (deep : bool) : list (string * Value) :=
  fold_left
    (fun result d =>
       match d with
       | VDict items => fold_left (merge_item deep) items result
       | _ => result
       end)
    dicts [].

(** *** [parse_model_string] *)

(** [s.split(":", 1)] when [":" in s]: the text before the first colon
    and the text after it. *)
Fixpoint split_colon (s : string) : option (string * string) :=
  match s with
  | EmptyString => None
  | String c s' =>
      if Ascii.eqb c ":" then Some (EmptyString, s')
      else match split_colon s' with
           | Some (before, after) => Some (String c before, after)
           | None => None
           end
  end.

Definition parse_model_string (model_string : string) : Record :=
  match split_colon model_string with
  | Some (provider, model) => [("provider", VStr provider); ("model", VStr model)]
  | None => [("provider", VStr "unknown"); ("model", VStr model_string)]
  end.

(** *** [truncate_text] and [sanitize_string]

    These count and cut characters, so a [str] is here the list of its
    characters. *)
Section Text.
Context {char : Type} `{EqDecision char}.
(** [c.isspace()], which [strip] goes by *)
Variable is_space : char -> bool.

(** [l[:k]] *)
Definition upto (l : list char) (k : Z) : list char := slice_to l k.

Definition truncate_text (text : list char) (max_length : Z) (suffix : list char)
  : list char :=
  if (Z.of_nat (length text) <=? max_length)%Z then text
  else upto text (max_length - Z.of_nat (length suffix)) ++ suffix.

(** [s.lstrip()], [s.rstrip()], [s.strip()] *)
Fixpoint lstrip (s : list char) : list char :=
  match s with
  | c :: s' => if is_space c then lstrip s' else s
  | [] => []
  end.

Definition rstrip (s : list char) : list char := rev (lstrip (rev s)).

Definition strip (s : list char) : list char := rstrip (lstrip s).

(** [sanitize_string(text, max_length, allowed_chars)] for a [str] *)
Definition sanitize_string (text : list char) (max_length : option Z)
  (allowed_chars : option (list char)) : list char :=
  let sanitized := strip text in
  let sanitized :=
    match allowed_chars with
    | Some (a :: allowed) =>
        List.filter (fun c => bool_decide (c ∈ a :: allowed)) sanitized
    | _ => sanitized
    end in
  match max_length with
  | Some m =>
      if negb (m =? 0)%Z && (m <? Z.of_nat (length sanitized))%Z
      then upto sanitized m else sanitized
  | None => sanitized
  end.

End Text.

(** *** Facts: [chunk_list] *)

Section ChunkFacts.
Context {A : Type}.
Implicit Types data : list A.

(** A slice that starts inside the list is a window of it. *)
Lemma slice_window data (i k : nat) :
  i <= length data ->
  slice data (Z.of_nat i) (Z.of_nat i + Z.of_nat k) = firstn k (skipn i data).
Proof.
  intros Hi. unfold slice.
  assert (H1 : (Z.of_nat i <? 0)%Z = false) by (apply Z.ltb_ge; lia).
  assert (H2 : (Z.of_nat i + Z.of_nat k <? 0)%Z = false) by (apply Z.ltb_ge; lia).
  cbv zeta. rewrite H1, H2.
  rewrite (Z.min_l (Z.of_nat i)) by lia. rewrite Nat2Z.id.
  replace (Z.to_nat (Z.min (Z.of_nat i + Z.of_nat k) (Z.of_nat (length data)) - Z.of_nat i))
    with (Nat.min k (length (skipn i data))) by (rewrite length_skipn; lia).
  rewrite <- firstn_firstn. now rewrite firstn_all.
Qed.

(** The windows of width [k] that start at [0], [k], [2k], ... *)
Definition windows (k : nat) data (m : nat) : list (list A) :=
  map (fun j => firstn k (skipn (j * k) data)) (seq 0 m).

Lemma concat_windows (k : nat) data (m : nat) :
  concat (windows k data m) = firstn (m * k) data.
Proof.
  unfold windows. induction m as [|m IH]; [reflexivity|].
  rewrite seq_S, map_app, concat_app, IH. simpl. rewrite app_nil_r.
  rewrite take_take_drop. f_equal. lia.
Qed.

(** How many starts [range(0, n, k)] has for a positive [k], and where
    they lie. *)
Lemma range_starts (n : nat) (k : Z) :
  (0 < k)%Z ->
  let m := Z.to_nat (range_length 0 (Z.of_nat n) k) in
  let w := Z.to_nat k in
  n <= m * w /\
  (forall j, j < m -> j * w < n) /\
  (forall j, S j < m -> S j * w <= n) /\
  Z.of_nat m = ((Z.of_nat n + k - 1) / k)%Z.
Proof.
  intros Hk. unfold range_length.
  assert (Hpos : (0 <? k)%Z = true) by (apply Z.ltb_lt; lia). rewrite Hpos.
  destruct (0 <? Z.of_nat n)%Z eqn:Hn.
  - apply Z.ltb_lt in Hn.
    replace (Z.of_nat n + k - 1)%Z with ((Z.of_nat n - 0 - 1) + 1 * k)%Z by lia.
    rewrite Z.div_add by lia.
    pose proof (Z.div_mod (Z.of_nat n - 0 - 1) k ltac:(lia)) as Hdiv.
    pose proof (Z.mod_pos_bound (Z.of_nat n - 0 - 1) k Hk) as Hmod.
    pose proof (Z.div_pos (Z.of_nat n - 0 - 1) k ltac:(lia) Hk) as Hq.
    set (q := ((Z.of_nat n - 0 - 1) / k)%Z) in *.
    cbv zeta. repeat split.
    + nia.
    + intros j Hj. nia.
    + intros j Hj. nia.
    + lia.
  - apply Z.ltb_ge in Hn. assert (n = 0) as -> by lia. cbv zeta. simpl.
    repeat split; try (intros; lia).
    rewrite Z.div_small; lia.
Qed.

Lemma chunk_list_windows data (chunk_size : Z) :
  (0 < chunk_size)%Z ->
  chunk_list data chunk_size =
    Ok (windows (Z.to_nat chunk_size) data
          (Z.to_nat (range_length 0 (Z.of_nat (length data)) chunk_size))).
Proof.
  intros Hk. unfold chunk_list, range.
  assert (Hz : (chunk_size =? 0)%Z = false) by (apply Z.eqb_neq; lia).
  rewrite Hz. cbn [mbind result_bind bind]. f_equal.
  unfold windows. rewrite map_map. apply map_ext_in. intros j Hj.
  apply in_seq in Hj.
  destruct (range_starts (length data) chunk_size Hk) as (_ & Hlt & _ & _).
  cbv zeta in Hlt. specialize (Hlt j ltac:(lia)).
  rewrite <- (slice_window data (j * Z.to_nat chunk_size) (Z.to_nat chunk_size)) by lia.
  f_equal; lia.
Qed.

(** X10: for a positive [chunk_size], [chunk_list] cuts the list into
    consecutive pieces: the chunks put end to end give the list back,
    there are [ceil(len / chunk_size)] of them, none is empty or longer
    than [chunk_size], and all but the last have [chunk_size] elements. *)
Theorem chunk_list_partitions data (chunk_size : Z) :
  (0 < chunk_size)%Z ->
  exists chunks,
    chunk_list data chunk_size = Ok chunks /\
    concat chunks = data /\
    Z.of_nat (length chunks) =
      ((Z.of_nat (length data) + chunk_size - 1) / chunk_size)%Z /\
    forall j c, nth_error chunks j = Some c ->
      0 < length c /\
      (Z.of_nat (length c) <= chunk_size)%Z /\
      (S j < length chunks -> Z.of_nat (length c) = chunk_size).
Proof.
  intros Hk. eexists. split; [apply chunk_list_windows; exact Hk|].
  destruct (range_starts (length data) chunk_size Hk) as (Hall & Hlt & Hfull & Hcount).
  cbv zeta in *.
  set (m := Z.to_nat (range_length 0 (Z.of_nat (length data)) chunk_size)) in *.
  set (w := Z.to_nat chunk_size) in *.
  assert (Hlen : length (windows w data m) = m)
    by (unfold windows; now rewrite length_map, length_seq).
  split; [|split].
  - rewrite concat_windows. apply firstn_all2. exact Hall.
  - rewrite Hlen. exact Hcount.
  - intros j c Hc. rewrite Hlen.
    assert (Hj : j < m) by (rewrite <- Hlen; apply nth_error_Some; congruence).
    unfold windows in Hc. rewrite nth_error_map, nth_error_seq in Hc.
    destruct (Nat.ltb_spec j m) as [_|]; [|lia].
    simpl in Hc. injection Hc as <-.
    rewrite length_firstn, length_skipn.
    specialize (Hlt j Hj). split; [lia|]. split; [lia|].
    intros Hlast. specialize (Hfull j Hlast). lia.
Qed.

(** X11: a [chunk_size] of zero raises [ValueError] (from [range]), also
    for the empty list; a negative one returns no chunk at all, so the
    elements of the list are dropped without an error. *)
Theorem chunk_list_bad_size data :
  (exists e, chunk_list data 0 = Raise e /\ is_ValueError e = true) /\
  (forall chunk_size, (chunk_size < 0)%Z -> chunk_list data chunk_size = Ok []).
Proof.
  split.
  - eexists. split; reflexivity.
  - intros k Hk. unfold chunk_list, range, range_length.
    assert (Hz : (k =? 0)%Z = false) by (apply Z.eqb_neq; lia).
    assert (Hp : (0 <? k)%Z = false) by (apply Z.ltb_ge; lia).
    assert (Hn : (Z.of_nat (length data) <? 0)%Z = false) by (apply Z.ltb_ge; lia).
    rewrite Hz, Hp, Hn. reflexivity.
Qed.

End ChunkFacts.

(** The chunks of five elements by two. *)
Lemma chunk_list_partitions_witness :
  exists chunks,
    chunk_list [1; 2; 3; 4; 5]%Z 2 = Ok chunks /\
    concat chunks = [1; 2; 3; 4; 5]%Z /\
    Z.of_nat (length chunks) = ((Z.of_nat 5 + 2 - 1) / 2)%Z /\
    forall j c, nth_error chunks j = Some c ->
      0 < length c /\
      (Z.of_nat (length c) <= 2)%Z /\
      (S j < length chunks -> Z.of_nat (length c) = 2%Z).
Proof. apply (chunk_list_partitions [1; 2; 3; 4; 5]%Z 2). lia. Defined.

(** *** Facts: the edges of [retry_async] *)

Section MoreRetry.
Context {A : Type}.
Variable func : nat -> result A.
Variable config : RetryConfig.





End MoreRetry.



(** *** Facts: [safe_get_nested] *)

Lemma safe_get_nested_default (default : Value) (keys : list string) :
  is_dict default = false -> safe_get_nested default keys default = default.
Proof. destruct keys, default; simpl; auto; discriminate. Qed.

(** X12: with a default that is not a dict (as the default [None]), a
    path can be followed in two steps: looking up [keys1 + keys2] is
    looking up [keys2] in what [keys1] gave. *)
Theorem safe_get_nested_composes (data default : Value) (keys1 keys2 : list string) :
  is_dict default = false ->
  safe_get_nested data (keys1 ++ keys2) default =
    safe_get_nested (safe_get_nested data keys1 default) keys2 default.
Proof.
  intros Hd. revert data. induction keys1 as [|key keys1 IH]; intros data; simpl; auto.
  destruct data; try (now rewrite safe_get_nested_default).
  destruct (dict_get key d); [apply IH | now rewrite safe_get_nested_default].
Qed.

(** With a dict as default the two-step lookup can differ: a failed first
    step hands the default itself to the second step. *)
Example safe_get_nested_dict_default :
  let default := VDict [("b", VInt 1)] in
  safe_get_nested (VDict []) (["a"] ++ ["b"]) default = default /\
  safe_get_nested (safe_get_nested (VDict []) ["a"] default) ["b"] default = VInt 1.
Proof. split; reflexivity. Qed.

Lemma safe_get_nested_composes_witness :
  safe_get_nested (VDict [("a", VDict [("b", VInt 1)])]) (["a"] ++ ["b"]) VNone =
    safe_get_nested (safe_get_nested (VDict [("a", VDict [("b", VInt 1)])]) ["a"] VNone)
      ["b"] VNone.
Proof. apply (safe_get_nested_composes _ VNone ["a"] ["b"]). reflexivity. Defined.

(** What was stored under a key is what a path through that key
    reaches, and a path through a key that is not there, or through a
    value that is not a dict, gives the default. *)
Lemma safe_get_nested_lookup (d : list (string * Value)) (key : string)
  (keys : list string) (v default : Value) :
  safe_get_nested (VDict (dict_set key v d)) (key :: keys) default =
    safe_get_nested v keys default /\
  (dict_mem key d = false ->
     safe_get_nested (VDict d) (key :: keys) default = default) /\
  (is_dict v = false ->
     safe_get_nested v (key :: keys) default = default).
Proof.
  split; [|split].
  - simpl. now rewrite DataTools.dict_get_set_eq.
  - intros Hm. simpl. now rewrite (DataTools.dict_get_mem_false _ _ Hm).
  - intros Hv. destruct v; simpl; auto; discriminate.
Qed.

(** *** Facts: [dict(items)] *)

Section DictOfItems.
Context {V : Type}.
Implicit Types (d items : list (string * V)).

Definition set_item d (kv : string * V) := dict_set (fst kv) (snd kv) d.

Lemma dict_set_fresh d k v :
  ~ In k (dict_keys d) -> dict_set k v d = d ++ [(k, v)].
Proof.
  induction d as [|[k' v'] d IH]; simpl; auto.
  intros Hnot. destruct (String.eqb k k') eqn:E.
  - apply String.eqb_eq in E. subst. tauto.
  - rewrite IH; tauto.
Qed.

Lemma dict_set_In d k v k0 v0 :
  In (k0, v0) (dict_set k v d) -> (k0, v0) = (k, v) \/ In (k0, v0) d.
Proof.
  induction d as [|[k' v'] d IH]; simpl.
  - intros [H | []]. now left.
  - destruct (String.eqb k k'); simpl; intros [H | H]; auto.
    destruct (IH H); auto.
Qed.

Lemma dict_set_NoDup d k v :
  List.NoDup (dict_keys d) -> List.NoDup (dict_keys (dict_set k v d)).
Proof.
  intros Hnd. rewrite DataTools.dict_keys_set.
  destruct (dict_mem k d) eqn:Hm; auto.
  apply NoDup_ListNoDup, NoDup_app. apply NoDup_ListNoDup in Hnd.
  split; [exact Hnd|]. split; [|apply NoDup_singleton].
  intros x Hx Hk. apply list_elem_of_singleton in Hk. subst x.
  apply list_elem_of_In, DataTools.dict_mem_In in Hx. congruence.
Qed.

Lemma fold_set_NoDup items d :
  List.NoDup (dict_keys d) -> List.NoDup (dict_keys (fold_left set_item items d)).
Proof.
  revert d. induction items as [|[k v] items IH]; intros d Hnd; simpl; auto.
  apply IH, dict_set_NoDup, Hnd.
Qed.

Lemma fold_set_In items d k v :
  In (k, v) (fold_left set_item items d) -> In (k, v) d \/ In (k, v) items.
Proof.
  revert d. induction items as [|[k' v'] items IH]; intros d; simpl; auto.
  intros H. destruct (IH _ H) as [H' | H']; auto.
  destruct (dict_set_In _ _ _ _ _ H'); auto.
Qed.

Lemma fold_set_fresh items d :
  List.NoDup (dict_keys (d ++ items)) -> fold_left set_item items d = d ++ items.
Proof.
  revert d. induction items as [|[k v] items IH]; intros d Hnd; simpl.
  - now rewrite app_nil_r.
  - unfold set_item at 2. simpl.
    assert (Hfresh : ~ In k (dict_keys d)).
    { unfold dict_keys in *. rewrite map_app in Hnd. simpl in Hnd.
      apply List.NoDup_remove_2 in Hnd. intros Hin. apply Hnd.
      apply in_or_app. now left. }
    rewrite (dict_set_fresh _ _ _ Hfresh), IH, <- app_assoc; [reflexivity|].
    now rewrite <- app_assoc.
Qed.

Lemma dict_of_items_NoDup items : List.NoDup (dict_keys (dict_of_items items)).
Proof. apply (fold_set_NoDup items []). constructor. Qed.

Lemma dict_of_items_In items k v : In (k, v) (dict_of_items items) -> In (k, v) items.
Proof. intros H. destruct (fold_set_In items [] k v H) as [[] | H']. exact H'. Qed.

Lemma dict_of_items_fresh items :
  List.NoDup (dict_keys items) -> dict_of_items items = items.
Proof. intros H. apply (fold_set_fresh items []). exact H. Qed.

End DictOfItems.

(** *** Facts: [flatten_dict] *)

(** Induction on a value through the dicts nested in it. *)
Lemma Value_dict_ind (P : Value -> Prop) :
  (forall v, is_dict v = false -> P v) ->
  (forall d, Forall (fun kv => P (snd kv)) d -> P (VDict d)) ->
  forall v, P v.
Proof.
  intros Hleaf Hdict. fix IH 1.
  intros [ | | | | | |d]; try (apply Hleaf; reflexivity).
  apply Hdict. induction d as [|[k v] d IHd]; constructor; [apply IH | exact IHd].
Qed.

Lemma flatten_entry_dict (inner : list (string * Value)) (new_key separator : string) :
  flatten_entry (VDict inner) new_key separator = flatten_dict inner new_key separator.
Proof.
  unfold flatten_dict. simpl. f_equal.
  induction inner as [|[k v] inner IH]; simpl; [reflexivity|]. now rewrite IH.
Qed.

Lemma flatten_entry_leaf (v : Value) (new_key separator : string) :
  is_dict v = false -> flatten_entry v new_key separator = [(new_key, v)].
Proof. destruct v; simpl; auto; discriminate. Qed.

Lemma flatten_items_In (d : list (string * Value)) (parent_key separator : string)
  (k : string) (x : Value) :
  In (k, x) (flatten_items d parent_key separator) <->
  exists k0 v0, In (k0, v0) d /\
    In (k, x) (flatten_entry v0 (child_key parent_key separator k0) separator).
Proof.
  induction d as [|[k1 v1] d IH]; simpl.
  - split; [tauto | intros (? & ? & [] & _)].
  - rewrite in_app_iff, IH. split.
    + intros [H | (k0 & v0 & Hin & H)]; [exists k1, v1 | exists k0, v0]; auto.
    + intros (k0 & v0 & [Heq | Hin] & H).
      * injection Heq as <- <-. now left.
      * right. eauto.
Qed.

(** The leaves of a nested dict: the values that are not dicts, each with
    the keys that lead to it. *)
Inductive leaf_at : list (string * Value) -> list string -> Value -> Prop :=
| leaf_here d k v :
    In (k, v) d -> is_dict v = false -> leaf_at d [k] v
| leaf_under d k inner path v :
    In (k, VDict inner) d -> leaf_at inner path v -> leaf_at d (k :: path) v.

(** The flat key of a path: its keys joined, after the parent key if
    there is one. *)
Definition path_key (parent_key separator : string) (path : list string) : string :=
  fold_left (fun p k => child_key p separator k) path parent_key.


Lemma flatten_entry_sound (separator : string) (v : Value) :
  forall new_key k x, In (k, x) (flatten_entry v new_key separator) ->
    is_dict x = false /\
    match v with
    | VDict inner => exists path, leaf_at inner path x /\ k = path_key new_key separator path
    | _ => k = new_key /\ x = v
    end.
Proof.
  induction v as [v Hv | d IH] using Value_dict_ind; intros new_key k x Hin.
  - rewrite (flatten_entry_leaf _ _ _ Hv) in Hin. destruct Hin as [[= <- <-] | []].
    split; [exact Hv|]. destruct v; auto; discriminate.
  - rewrite flatten_entry_dict in Hin. apply dict_of_items_In in Hin.
    apply flatten_items_In in Hin. destruct Hin as (k0 & v0 & Hd & Hin).
    rewrite List.Forall_forall in IH. specialize (IH (k0, v0) Hd _ _ _ Hin).
    simpl in IH. destruct IH as [Hx IH]. split; [exact Hx|].
    destruct v0; try (destruct IH as [-> ->]; exists [k0]; split;
                      [now apply leaf_here | reflexivity]).
    destruct IH as (path & Hleaf & ->). exists (k0 :: path). split.
    + eapply leaf_under; eauto.
    + reflexivity.
Qed.



Lemma append_inj (p a b : string) : p +:+ a = p +:+ b -> a = b.
Proof. induction p as [|c p IH]; simpl; [auto|]. intros [= H]. auto. Qed.

Lemma child_key_inj (parent_key separator a b : string) :
  child_key parent_key separator a = child_key parent_key separator b -> a = b.
Proof.
  unfold child_key. destruct (String.eqb parent_key ""); [auto|].
  intros H. now apply append_inj, append_inj in H.
Qed.

(** A dict with no dict among its values comes out with each key put
    after the parent key. *)
Lemma flatten_flat (data : list (string * Value)) (parent_key separator : string) :
  List.NoDup (dict_keys data) ->
  Forall (fun kv => is_dict (snd kv) = false) data ->
  flatten_dict data parent_key separator =
    map (fun kv => (child_key parent_key separator (fst kv), snd kv)) data.
Proof.
  intros Hnd Hflat. unfold flatten_dict.
  assert (Hitems : flatten_items data parent_key separator =
            map (fun kv => (child_key parent_key separator (fst kv), snd kv)) data).
  { clear Hnd. induction Hflat as [|[k v] d Hv _ IH]; simpl; [reflexivity|].
    simpl in Hv. now rewrite (flatten_entry_leaf _ _ _ Hv), IH. }
  rewrite Hitems. apply dict_of_items_fresh.
  unfold dict_keys in *. rewrite map_map. simpl.
  rewrite <- (map_map fst (child_key parent_key separator)).
  apply Finite.Injective_map_NoDup; [|exact Hnd].
  intros a b. apply child_key_inj.
Qed.

Lemma child_key_top (separator key : string) : child_key "" separator key = key.
Proof. reflexivity. Qed.

Lemma flatten_flat_top (data : list (string * Value)) (separator : string) :
  List.NoDup (dict_keys data) ->
  Forall (fun kv => is_dict (snd kv) = false) data ->
  flatten_dict data "" separator = data.
Proof.
  intros Hnd Hflat. rewrite flatten_flat by assumption.
  rewrite <- (map_id data) at 2. apply map_ext. now intros [k v].
Qed.

Lemma flatten_dict_no_dict (data : list (string * Value)) (parent_key separator : string) :
  Forall (fun kv => is_dict (snd kv) = false) (flatten_dict data parent_key separator).
Proof.
  apply List.Forall_forall. intros [k x] Hin. simpl.
  rewrite <- flatten_entry_dict in Hin.
  exact (proj1 (flatten_entry_sound separator (VDict data) parent_key k x Hin)).
Qed.

(** X14: the result of [flatten_dict] is flat, and flattening is
    idempotent: no value of the result is a dict, its keys are distinct,
    and flattening it again (with no parent key) gives the same dict. *)
Theorem flatten_dict_idempotent (data : list (string * Value))
  (parent_key separator separator' : string) :
  let flat := flatten_dict data parent_key separator in
  Forall (fun kv => is_dict (snd kv) = false) flat /\
  List.NoDup (dict_keys flat) /\
  flatten_dict flat "" separator' = flat.
Proof.
  cbv zeta. split; [apply flatten_dict_no_dict|].
  split; [apply dict_of_items_NoDup|].
  apply flatten_flat_top; [apply dict_of_items_NoDup | apply flatten_dict_no_dict].
Qed.

(** X15: a dict that has no dict among its values is returned as it is,
    order included, when there is no parent key; with a parent key each
    key is put after the parent key and the separator, and the values and
    the order stay. *)
Theorem flatten_dict_of_flat (data : list (string * Value)) (parent_key separator : string) :
  List.NoDup (dict_keys data) ->
  Forall (fun kv => is_dict (snd kv) = false) data ->
  flatten_dict data "" separator = data /\
  (parent_key <> "" ->
   flatten_dict data parent_key separator =
     map (fun kv => (parent_key +:+ separator +:+ fst kv, snd kv)) data).
Proof.
  intros Hnd Hflat. split; [now apply flatten_flat_top|].
  intros Hp. rewrite flatten_flat by assumption.
  apply map_ext. intros [k v]. unfold child_key.
  apply String.eqb_neq in Hp. now rewrite Hp.
Qed.

(** A nested configuration, and a flat one. *)
Definition nested_settings : list (string * Value) :=
  [("model", VStr "gpt-4o");
   ("limits", VDict [("tokens", VInt 100); ("retry", VDict [("max", VInt 3)])]);
   ("extras", VDict [])].

Definition flat_settings : list (string * Value) :=
  [("model", VStr "gpt-4o"); ("tokens", VInt 100)].

Example flatten_dict_nested_settings :
  flatten_dict nested_settings "" "." =
    [("model", VStr "gpt-4o"); ("limits.tokens", VInt 100); ("limits.retry.max", VInt 3)].
Proof. reflexivity. Qed.

(** Two paths with one flat key: the later entry wins, at the place of
    the earlier one. *)
Example flatten_dict_collision :
  flatten_dict [("a.b", VInt 1); ("c", VInt 2); ("a", VDict [("b", VInt 3)])] "" "." =
    [("a.b", VInt 3); ("c", VInt 2)].
Proof. reflexivity. Qed.

Lemma flatten_dict_of_flat_witness :
  flatten_dict flat_settings "" "." = flat_settings /\
  ("cfg" <> "" ->
   flatten_dict flat_settings "cfg" "." =
     map (fun kv => ("cfg" +:+ "." +:+ fst kv, snd kv)) flat_settings).
Proof.
  apply (flatten_dict_of_flat flat_settings "cfg" ".").
  - repeat constructor; simpl; intuition discriminate.
  - repeat constructor.
Defined.

(** *** Facts: [truncate_text], [sanitize_string], [parse_model_string] *)

Section TextFacts.
Context {char : Type} `{EqDecision char}.
Variable is_space : char -> bool.
Implicit Types (text suffix : list char).

Lemma length_upto text (k : Z) :
  Z.of_nat (length (upto text k)) =
    (if (k <? 0)%Z then Z.max 0 (Z.of_nat (length text) + k)
     else Z.min k (Z.of_nat (length text)))%Z.
Proof.
  unfold upto, slice_to. destruct (k <? 0)%Z eqn:Hk; rewrite length_firstn.
  - apply Z.ltb_lt in Hk. lia.
  - apply Z.ltb_ge in Hk. lia.
Qed.

(** X18: the result of [truncate_text] is at most [max_length] long exactly
    when the text already is, or the suffix fits into [max_length].  With
    a suffix longer than [max_length] the cut is counted from the end of
    the text and the result is longer than [max_length]. *)
Theorem truncate_text_length text (max_length : Z) suffix :
  (Z.of_nat (length (truncate_text text max_length suffix)) <= max_length)%Z <->
  (Z.of_nat (length text) <= max_length)%Z \/
  (Z.of_nat (length suffix) <= max_length)%Z.
Proof.
  unfold truncate_text.
  destruct (Z.of_nat (length text) <=? max_length)%Z eqn:Hfit.
  - apply Z.leb_le in Hfit. tauto.
  - apply Z.leb_gt in Hfit.
    rewrite length_app, Nat2Z.inj_add, length_upto.
    destruct (max_length - Z.of_nat (length suffix) <? 0)%Z eqn:Hk.
    + apply Z.ltb_lt in Hk. lia.
    + apply Z.ltb_ge in Hk. lia.
Qed.

(** X19: when the text is longer than [max_length] and the suffix fits, the
    result has exactly [max_length] characters: a beginning of the text
    followed by the whole suffix. *)
Theorem truncate_text_cut text (max_length : Z) suffix :
  (max_length < Z.of_nat (length text))%Z ->
  (Z.of_nat (length suffix) <= max_length)%Z ->
  Z.of_nat (length (truncate_text text max_length suffix)) = max_length /\
  exists kept rest,
    text = kept ++ rest /\ truncate_text text max_length suffix = kept ++ suffix.
Proof.
  intros Hlong Hfit. unfold truncate_text.
  assert (Hle : (Z.of_nat (length text) <=? max_length)%Z = false)
    by (apply Z.leb_gt; lia).
  rewrite Hle. split.
  - rewrite length_app, Nat2Z.inj_add, length_upto.
    assert (Hk : (max_length - Z.of_nat (length suffix) <? 0)%Z = false)
      by (apply Z.ltb_ge; lia).
    rewrite Hk. lia.
  - unfold upto, slice_to.
    assert (Hk : (max_length - Z.of_nat (length suffix) <? 0)%Z = false)
      by (apply Z.ltb_ge; lia).
    rewrite Hk.
    exists (firstn (Z.to_nat (max_length - Z.of_nat (length suffix))) text),
           (skipn (Z.to_nat (max_length - Z.of_nat (length suffix))) text).
    split; [now rewrite firstn_skipn | reflexivity].
Qed.

Lemma lstrip_drop (s : list char) : exists j, lstrip is_space s = skipn j s.
Proof.
  induction s as [|c s [j IH]]; simpl.
  - now exists 0.
  - destruct (is_space c); [exists (S j); exact IH | now exists 0].
Qed.

Lemma rstrip_take (s : list char) : exists j, rstrip is_space s = firstn j s.
Proof.
  unfold rstrip. destruct (lstrip_drop (rev s)) as [j ->].
  rewrite skipn_rev, rev_involutive. eauto.
Qed.

Lemma strip_sublist (s : list char) : strip is_space s `sublist_of` s.
Proof.
  unfold strip. destruct (rstrip_take (lstrip is_space s)) as [j ->].
  destruct (lstrip_drop s) as [i ->].
  etransitivity; [apply sublist_take | apply sublist_drop].
Qed.

Lemma filter_sublist (f : char -> bool) (s : list char) : List.filter f s `sublist_of` s.
Proof.
  induction s as [|c s IH]; simpl; [constructor|].
  destruct (f c); [now apply sublist_skip | now apply sublist_cons].
Qed.

(** X20: [sanitize_string] only removes characters: the result is the text
    with some characters left out, in order.  With a non-empty
    [allowed_chars] every character of the result is one of them; with a
    positive [max_length] the result is at most that long; a [max_length]
    of zero is no limit at all (zero is false in the test). *)
Theorem sanitize_string_removes text (max_length : option Z)
  (allowed_chars : option (list char)) :
  let sanitized := sanitize_string is_space text max_length allowed_chars in
  sanitized `sublist_of` text /\
  (forall a allowed, allowed_chars = Some (a :: allowed) ->
     Forall (fun c => c ∈ a :: allowed) sanitized) /\
  (forall m, max_length = Some m -> (0 < m)%Z ->
     (Z.of_nat (length sanitized) <= m)%Z) /\
  (max_length = Some 0%Z ->
     sanitized = sanitize_string is_space text None allowed_chars).
Proof.
  cbv zeta. unfold sanitize_string.
  set (kept := match allowed_chars with
               | Some (a :: allowed) =>
                   List.filter (fun c => bool_decide (c ∈ a :: allowed)) (strip is_space text)
               | _ => strip is_space text
               end).
  assert (Hkept : kept `sublist_of` text).
  { subst kept. destruct allowed_chars as [[|a allowed]|]; try apply strip_sublist.
    etransitivity; [apply filter_sublist | apply strip_sublist]. }
  assert (Hallowed : forall a allowed, allowed_chars = Some (a :: allowed) ->
            Forall (fun c => c ∈ a :: allowed) kept).
  { intros a allowed ->. subst kept. apply List.Forall_forall. intros c Hc.
    apply filter_In in Hc. destruct Hc as [_ Hc]. now apply bool_decide_eq_true in Hc. }
  assert (Hcut : forall m, upto kept m `sublist_of` kept).
  { intros m. unfold upto, slice_to. destruct (m <? 0)%Z; apply sublist_take. }
  split; [|split; [|split]].
  - destruct max_length as [m|]; [|exact Hkept].
    destruct (negb (m =? 0)%Z && (m <? Z.of_nat (length kept))%Z); [|exact Hkept].
    etransitivity; [apply Hcut | exact Hkept].
  - intros a allowed Ha. specialize (Hallowed a allowed Ha).
    destruct max_length as [m|]; [|exact Hallowed].
    destruct (negb (m =? 0)%Z && (m <? Z.of_nat (length kept))%Z); [|exact Hallowed].
    rewrite List.Forall_forall in *. intros c Hc. apply Hallowed.
    apply list_elem_of_In. eapply elem_of_sublist; [apply list_elem_of_In, Hc | apply Hcut].
  - intros m -> Hm.
    assert (Hnz : (m =? 0)%Z = false) by (apply Z.eqb_neq; lia). rewrite Hnz. simpl.
    destruct (m <? Z.of_nat (length kept))%Z eqn:Hlt.
    + rewrite length_upto. assert (Hneg : (m <? 0)%Z = false) by (apply Z.ltb_ge; lia).
      rewrite Hneg. lia.
    + apply Z.ltb_ge in Hlt. exact Hlt.
  - intros ->. reflexivity.
Qed.

End TextFacts.

Lemma truncate_text_cut_witness :
  Z.of_nat (length (truncate_text [1; 2; 3; 4; 5; 6; 7; 8] 5 [0; 0; 0])) = 5%Z /\
  exists kept rest,
    [1; 2; 3; 4; 5; 6; 7; 8] = kept ++ rest /\
    truncate_text [1; 2; 3; 4; 5; 6; 7; 8] 5 [0; 0; 0] = kept ++ [0; 0; 0].
Proof. apply (truncate_text_cut [1; 2; 3; 4; 5; 6; 7; 8] 5 [0; 0; 0]); simpl; lia. Defined.

(** A suffix of three characters and a limit of two: one character is cut
    from the end and the result has ten. *)
Example truncate_text_long_suffix :
  truncate_text [1; 2; 3; 4; 5; 6; 7; 8] 2 [0; 0; 0] = [1; 2; 3; 4; 5; 6; 7; 0; 0; 0].
Proof. reflexivity. Qed.

Definition no_colon (s : string) : Prop := ~ In ":"%char (list_ascii_of_string s).

Lemma split_colon_None (s : string) : split_colon s = None <-> no_colon s.
Proof.
  unfold no_colon. induction s as [|c s IH]; simpl; [tauto|].
  destruct (Ascii.eqb c ":") eqn:E.
  - apply Ascii.eqb_eq in E. subst. split; [discriminate | tauto].
  - apply Ascii.eqb_neq in E. destruct (split_colon s) as [[before after]|].
    + split; [discriminate|]. intros Hno. exfalso.
      assert (Hs : ~ In ":"%char (list_ascii_of_string s)) by tauto.
      apply IH in Hs. discriminate.
    + split; [|reflexivity]. intros _ [Hc | Hin]; [congruence|].
      now apply (proj1 IH).
Qed.

Lemma split_colon_app (before after : string) :
  no_colon before -> split_colon (before +:+ ":" +:+ after) = Some (before, after).
Proof.
  unfold no_colon. induction before as [|c before IH]; simpl; [reflexivity|].
  intros Hno. destruct (Ascii.eqb c ":") eqn:E.
  - apply Ascii.eqb_eq in E. subst. tauto.
  - rewrite IH; tauto.
Qed.

Lemma split_colon_inv (s before after : string) :
  split_colon s = Some (before, after) ->
  s = before +:+ ":" +:+ after /\ no_colon before.
Proof.
  unfold no_colon. revert before after.
  induction s as [|c s IH]; intros before after; simpl; [discriminate|].
  destruct (Ascii.eqb c ":") eqn:E.
  - apply Ascii.eqb_eq in E. subst c. intros [= <- <-]. simpl. tauto.
  - apply Ascii.eqb_neq in E. destruct (split_colon s) as [[b a]|]; [|discriminate].
    intros [= <- <-]. destruct (IH b a eq_refl) as [-> Hno].
    simpl. split; [reflexivity|]. intros [Hc | Hin]; [congruence | tauto].
Qed.

(** X21: [parse_model_string] splits at the first colon and nowhere else: a
    provider that has no colon, a colon and any model text are given back
    as that provider and that model (further colons stay in the model);
    a string with no colon is the model of provider ["unknown"].  Every
    string is of one of the two forms. *)
Theorem parse_model_string_round_trip (model_string : string) :
  (forall provider model, no_colon provider ->
     parse_model_string (provider +:+ ":" +:+ model) =
       [("provider", VStr provider); ("model", VStr model)]) /\
  (no_colon model_string ->
     parse_model_string model_string =
       [("provider", VStr "unknown"); ("model", VStr model_string)]) /\
  ((exists provider model,
      model_string = provider +:+ ":" +:+ model /\ no_colon provider) \/
   no_colon model_string).
Proof.
  unfold parse_model_string. split; [|split].
  - intros provider model Hno.
    now rewrite (split_colon_app provider model Hno).
  - intros Hno. apply split_colon_None in Hno. now rewrite Hno.
  - destruct (split_colon model_string) as [[provider model]|] eqn:Hs.
    + left. exists provider, model. now apply split_colon_inv.
    + right. now apply split_colon_None.
Qed.

(** *** Facts: [merge_dicts] *)

Lemma merged_value_dicts (x y : list (string * Value)) :
  merged_value (VDict x) (VDict y) = VDict (fold_left (merge_item true) y x).
Proof.
  revert x. induction y as [|[k v] y IH]; intros x; [reflexivity|].
  simpl fold_left. rewrite <- IH. reflexivity.
Qed.

Lemma merged_value_leaf (old value : Value) :
  is_dict old && is_dict value = false -> merged_value old value = value.
Proof. destruct value, old; simpl; auto; discriminate. Qed.

Lemma merge_item_keys (deep : bool) (result : list (string * Value)) (k : string)
  (v : Value) :
  exists w, merge_item deep result (k, v) = dict_set k w result.
Proof.
  unfold merge_item. destruct (dict_get k result); [destruct deep|]; eauto.
Qed.

(** A pass over a dict whose keys are new to the result appends it. *)
Lemma merge_pass_fresh (deep : bool) (items result : list (string * Value)) :
  List.NoDup (dict_keys (result ++ items)) ->
  fold_left (merge_item deep) items result = result ++ items.
Proof.
  revert result. induction items as [|[k v] items IH]; intros result Hnd; simpl.
  - now rewrite app_nil_r.
  - assert (Hfresh : ~ In k (dict_keys result)).
    { unfold dict_keys in *. rewrite map_app in Hnd. simpl in Hnd.
      apply List.NoDup_remove_2 in Hnd. intros Hin. apply Hnd.
      apply in_or_app. now left. }
    assert (Hnone : dict_get k result = None).
    { apply DataTools.dict_get_mem_false.
      destruct (dict_mem k result) eqn:Hm; [|reflexivity].
      apply DataTools.dict_mem_In in Hm. tauto. }
    rewrite Hnone, (dict_set_fresh _ _ _ Hfresh), IH, <- app_assoc; [reflexivity|].
    now rewrite <- app_assoc.
Qed.

Lemma dict_get_absent {V : Type} (k : string) (d : list (string * V)) :
  ~ In k (dict_keys d) -> dict_get k d = None.
Proof.
  intros Hnot. apply DataTools.dict_get_mem_false.
  destruct (dict_mem k d) eqn:Hm; [|reflexivity].
  apply DataTools.dict_mem_In in Hm. tauto.
Qed.

(** What a pass over the items of a dict leaves under a key. *)
Lemma merge_pass_get (deep : bool) (items result : list (string * Value)) (k : string) :
  List.NoDup (dict_keys items) ->
  dict_get k (fold_left (merge_item deep) items result) =
    match dict_get k items with
    | Some v =>
        Some match dict_get k result with
             | Some old => if deep then merged_value old v else v
             | None => v
             end
    | None => dict_get k result
    end.
Proof.
  revert result. induction items as [|[k' v'] items IH]; intros result Hnd; simpl;
    [reflexivity|].
  inversion Hnd as [|? ? Hnot Hnd']; subst.
  rewrite (IH _ Hnd'). destruct (String.eqb k k') eqn:E.
  - apply String.eqb_eq in E. subst k'. rewrite (dict_get_absent _ _ Hnot).
    destruct (dict_get k result) as [old|]; [destruct deep|];
      now rewrite DataTools.dict_get_set_eq.
  - apply String.eqb_neq in E.
    assert (Hsame : dict_get k (merge_item deep result (k', v')) = dict_get k result).
    { destruct (merge_item_keys deep result k' v') as [w ->].
      apply DataTools.dict_get_set_ne. congruence. }
    simpl in Hsame. now rewrite Hsame.
Qed.

Lemma merge_pass_keys (deep : bool) (items result : list (string * Value)) :
  List.NoDup (dict_keys items) ->
  dict_keys (fold_left (merge_item deep) items result) =
    dict_keys result ++
    List.filter (fun k => negb (dict_mem k result)) (dict_keys items).
Proof.
  revert result. induction items as [|[k' v'] items IH]; intros result Hnd.
  - simpl. now rewrite app_nil_r.
  - inversion Hnd as [|? ? Hnot Hnd']; subst.
    cbn [fold_left]. rewrite (IH _ Hnd').
    destruct (merge_item_keys deep result k' v') as [w Hw]. rewrite Hw.
    assert (Hext : List.filter (fun k => negb (dict_mem k (dict_set k' w result)))
                     (dict_keys items) =
                   List.filter (fun k => negb (dict_mem k result)) (dict_keys items)).
    { apply filter_ext_in. intros k Hk. rewrite DataTools.dict_mem_set.
      destruct (String.eqb k k') eqn:E; [|reflexivity].
      apply String.eqb_eq in E. subst. tauto. }
    rewrite Hext, DataTools.dict_keys_set. simpl.
    destruct (dict_mem k' result); simpl; [reflexivity|].
    now rewrite <- app_assoc.
Qed.

Lemma merge_dicts_two (deep : bool) (a b : list (string * Value)) :
  List.NoDup (dict_keys a) ->
  merge_dicts [VDict a; VDict b] deep = fold_left (merge_item deep) b a.
Proof.
  intros Ha. unfold merge_dicts. simpl.
  now rewrite (merge_pass_fresh deep a []).
Qed.

(** The dicts among the values have distinct keys, as every dict has. *)
Definition inner_keys_distinct (d : list (string * Value)) : Prop :=
  Forall (fun kv => match snd kv with
                    | VDict inner => List.NoDup (dict_keys inner)
                    | _ => True
                    end) d.

(** X16: the merge of two dicts [a] and [b].  Its keys are those of [a], in
    their order, then those only [b] has.  A key only [a] has keeps its
    value; a key of [b] gets the value of [b], except that with [deep] set
    two dict values are merged in the same way instead of replaced. *)
Theorem merge_dicts_pair (a b : list (string * Value)) (deep : bool) (k : string) :
  List.NoDup (dict_keys a) -> List.NoDup (dict_keys b) -> inner_keys_distinct a ->
  let merged := merge_dicts [VDict a; VDict b] deep in
  dict_keys merged =
    dict_keys a ++ List.filter (fun j => negb (dict_mem j a)) (dict_keys b) /\
  dict_get k merged =
    match dict_get k a, dict_get k b with
    | Some (VDict x), Some (VDict y) =>
        Some (VDict (if deep then merge_dicts [VDict x; VDict y] true else y))
    | _, Some v => Some v
    | old, None => old
    end.
Proof.
  intros Ha Hb Hinner. cbv zeta. rewrite (merge_dicts_two deep a b Ha).
  split; [now apply merge_pass_keys|].
  rewrite (merge_pass_get deep b a k Hb).
  destruct (dict_get k b) as [v|]; [|now destruct (dict_get k a) as [[ | | | | | |x]|]].
  destruct (dict_get k a) as [old|] eqn:Hold; [|reflexivity].
  destruct deep.
  - destruct old as [ | | | | | |x]; try (now rewrite merged_value_leaf).
    destruct v as [ | | | | | |y]; try (now rewrite merged_value_leaf).
    rewrite merged_value_dicts, merge_dicts_two; [reflexivity|].
    unfold inner_keys_distinct in Hinner. rewrite List.Forall_forall in Hinner.
    exact (Hinner (k, VDict x) (DataTools.dict_get_In _ _ _ Hold)).
  - now destruct old as [ | | | | | |x]; destruct v as [ | | | | | |y].
Qed.

(** X17: an argument of [merge_dicts] that is not a dict is passed over
    rather than refused, no dict gives the empty dict, and one dict alone
    gives a copy of itself. *)
Theorem merge_dicts_skips_non_dicts (dicts : list Value) (deep : bool) :
  merge_dicts dicts deep = merge_dicts (List.filter is_dict dicts) deep /\
  (List.filter is_dict dicts = [] -> merge_dicts dicts deep = []) /\
  (forall a, List.NoDup (dict_keys a) -> List.filter is_dict dicts = [VDict a] ->
     merge_dicts dicts deep = a).
Proof.
  assert (Hskip : forall l result,
            fold_left (fun result d =>
                         match d with
                         | VDict items => fold_left (merge_item deep) items result
                         | _ => result
                         end) l result =
            fold_left (fun result d =>
                         match d with
                         | VDict items => fold_left (merge_item deep) items result
                         | _ => result
                         end) (List.filter is_dict l) result).
  { induction l as [|d l IH]; intros result; [reflexivity|].
    destruct d; simpl; apply IH. }
  assert (Heq : merge_dicts dicts deep = merge_dicts (List.filter is_dict dicts) deep)
    by apply Hskip.
  split; [exact Heq|]. split.
  - intros Hnone. now rewrite Heq, Hnone.
  - intros a Ha Hone. rewrite Heq, Hone. unfold merge_dicts. simpl.
    now rewrite (merge_pass_fresh deep a []).
Qed.

Definition base_settings : list (string * Value) :=
  [("model", VStr "gpt-4o"); ("limits", VDict [("tokens", VInt 100); ("calls", VInt 5)])].

Definition user_settings : list (string * Value) :=
  [("limits", VDict [("tokens", VInt 500)]); ("debug", VBool true)].

Example merge_dicts_settings :
  merge_dicts [VDict base_settings; VNone; VDict user_settings] true =
    [("model", VStr "gpt-4o");
     ("limits", VDict [("tokens", VInt 500); ("calls", VInt 5)]);
     ("debug", VBool true)] /\
  merge_dicts [VDict base_settings; VNone; VDict user_settings] false =
    [("model", VStr "gpt-4o");
     ("limits", VDict [("tokens", VInt 500)]);
     ("debug", VBool true)].
Proof. split; reflexivity. Qed.

Lemma merge_dicts_pair_witness :
  dict_keys (merge_dicts [VDict base_settings; VDict user_settings] true) =
    dict_keys base_settings ++
    List.filter (fun j => negb (dict_mem j base_settings)) (dict_keys user_settings) /\
  dict_get "limits" (merge_dicts [VDict base_settings; VDict user_settings] true) =
    match dict_get "limits" base_settings, dict_get "limits" user_settings with
    | Some (VDict x), Some (VDict y) =>
        Some (VDict (if true then merge_dicts [VDict x; VDict y] true else y))
    | _, Some v => Some v
    | old, None => old
    end.
Proof.
  apply (merge_dicts_pair base_settings user_settings true "limits").
  - repeat constructor; simpl; intuition discriminate.
  - repeat constructor; simpl; intuition discriminate.
  - repeat constructor; simpl; intuition discriminate.
Defined.

End Helpers.

(** ** [playground.py]: the conversation history of [AgentPlayground]

    The playground is an object mutated by its methods, which also read
    the clock, read lines from standard input, write export files and call
    the agents.  A method is a state transformer that may raise; what it
    changed before raising stays changed.  Output written with [print]
    does not flow back into the object and is left out. *)
Module Playground.

Inductive deps_class :=
| ChatDependencies
| ResearchDependencies
| DataDependencies
| OtherDependencies (name : string).

(** An entry of [self.agents]. *)
Record agent_entry := {
  agent : string;
  entry_deps_class : deps_class;
  description : string;
  kind : string
}.

(** What the builder hands over for an agent it created or loaded. *)
Record built_agent := {
  built_name : string;
  built_deps_type : deps_class;
  built_instructions : string
}.

(** The dependencies object built by [send_message]. *)
Inductive deps :=
| ChatDeps (session_id : string) (conversation_history : list Record) (conversation_id : string)
| ResearchDeps (session_id : string) (conversation_id : string)
| DataDeps (session_id : string) (conversation_id : string).

(** The playground object and the part of the process around it that its
    methods touch: a clock that ticks at every reading, the lines waiting
    on standard input, and the files written. *)
Record state := {
  session_id : string;
  conversation_id : string;
  conversation_history : list Record;
  current_agent : string;
  agents : list (string * agent_entry);
  clock : nat;
  stdin : list string;
  files : list (string * Value)
}.

Definition with_history (h : list Record) (st : state) : state :=
  {| session_id := session_id st; conversation_id := conversation_id st;
     conversation_history := h; current_agent := current_agent st;
     agents := agents st; clock := clock st; stdin := stdin st; files := files st |}.

Definition with_current_agent (a : string) (st : state) : state :=
  {| session_id := session_id st; conversation_id := conversation_id st;
     conversation_history := conversation_history st; current_agent := a;
     agents := agents st; clock := clock st; stdin := stdin st; files := files st |}.

Definition with_agents (ags : list (string * agent_entry)) (st : state) : state :=
  {| session_id := session_id st; conversation_id := conversation_id st;
     conversation_history := conversation_history st; current_agent := current_agent st;
     agents := ags; clock := clock st; stdin := stdin st; files := files st |}.

Definition with_clock (c : nat) (st : state) : state :=
  {| session_id := session_id st; conversation_id := conversation_id st;
     conversation_history := conversation_history st; current_agent := current_agent st;
     agents := agents st; clock := c; stdin := stdin st; files := files st |}.

Definition with_stdin (lines : list string) (st : state) : state :=
  {| session_id := session_id st; conversation_id := conversation_id st;
     conversation_history := conversation_history st; current_agent := current_agent st;
     agents := agents st; clock := clock st; stdin := lines; files := files st |}.

Definition with_files (fs : list (string * Value)) (st : state) : state :=
  {| session_id := session_id st; conversation_id := conversation_id st;
     conversation_history := conversation_history st; current_agent := current_agent st;
     agents := agents st; clock := clock st; stdin := stdin st; files := fs |}.

(** A method: it returns or raises, and leaves a state. *)
Definition method (A : Type) : Type := state -> result A * state.

Definition ret {A : Type} (a : A) : method A := fun st => (Ok a, st).
Definition raise {A : Type} (e : exn) : method A := fun st => (Raise e, st).
Definition get : method state := fun st => (Ok st, st).
Definition modify (f : state -> state) : method unit := fun st => (Ok tt, f st).

#[export] Instance method_bind : MBind method := fun A B k m st =>
  match m st with
  | (Ok a, st') => k a st'
  | (Raise e, st') => (Raise e, st')
  end.
#[export] Instance method_ret : MRet method := @ret.

(** [try: body except Exception as e: handler] *)
Definition try_except {A : Type} (body : method A) (handler : exn -> method A) : method A :=
  fun st =>
    match body st with
    | (Ok a, st') => (Ok a, st')
    | (Raise e, st') => if is_Exception e then handler e st' else (Raise e, st')
    end.

(** [del d[k]] *)
Definition dict_del {V : Type} (k : string) (d : list (string * V)) : list (string * V) :=
  List.filter (fun kv => negb (String.eqb (fst kv) k)) d.

(** [s.strip().lower() == 'y'] *)
Definition is_space (c : ascii) : bool :=
  let n := nat_of_ascii c in
  Nat.eqb n 32 || (Nat.leb 9 n && Nat.leb n 13) || (Nat.leb 28 n && Nat.leb n 31).

Fixpoint lstrip (s : string) : string :=
  match s with
  | String c s' => if is_space c then lstrip s' else s
  | EmptyString => EmptyString
  end.

Fixpoint is_blank (s : string) : bool :=
  match s with
  | String c s' => is_space c && is_blank s'
  | EmptyString => true
  end.

Definition answered_yes (line : string) : bool :=
  match lstrip line with
  | String c rest => (Ascii.eqb c "y" || Ascii.eqb c "Y") && is_blank rest
  | EmptyString => false
  end.

Section Methods.

(** The surroundings: the clock's readings, the agents, the builder. *)
Variable isoformat_at : nat -> string.   (* [datetime.now().isoformat()] *)
Variable strftime_at : nat -> string.    (* [datetime.now().strftime("%Y%m%d_%H%M%S")] *)
Variable time_at : nat -> float.         (* [time.time()] *)
Variable writable : string -> bool.      (* can the file be opened for writing *)
Context {response : Type}.
(** [await agent.run(message, deps)], by the agent's name and the time *)
Variable agent_run : string -> string -> option deps -> nat -> result response.
(** the chain of [hasattr] tests that formats the reply; formatting can raise *)
Variable response_text : response -> result string.
(** [type(response).__name__] *)
Variable response_type : response -> string.
(** [agent_builder.create_agent_interactive()]: reads answers from
    standard input; it catches its own exceptions and returns [None] then *)
Variable builder_create : list string -> option built_agent * list string.
(** [agent_builder.load_agent(name)] *)
Variable builder_load : string -> option built_agent.
(** [print(...)] in [send_message]: the exception that the call at the
    given place raises at the given time, if it raises one
    ([BrokenPipeError], [UnicodeEncodeError]).  The places are numbered
    in the order of the source. *)
Variable print_fails : nat -> nat -> option exn.

(** [datetime.now()] and [time.time()] *)
Definition tick : method nat :=
  fun st => (Ok (clock st), with_clock (S (clock st)) st).

Definition print (place : nat) : method unit :=
  fun st =>
    match print_fails place (clock st) with
    | Some e => (Raise e, st)
    | None => (Ok tt, st)
    end.

(** [input(prompt)]; [EOFError] at the end of the input *)
Definition input : method string :=
  fun st =>
    match stdin st with
    | line :: rest => (Ok line, with_stdin rest st)
    | [] => (Raise (Exn (OtherException "EOFError") "EOF when reading a line" true), st)
    end.

(** [agent or self.current_agent] *)
Definition agent_or_current (agent : option string) (st : state) : string :=
  match agent with
  | Some a => if String.eqb a "" then current_agent st else a
  | None => current_agent st
  end.

(** [metadata or {}] *)
Definition metadata_or_empty (metadata : option Record) : Record :=
  match metadata with
  | Some md => md
  | None => []
  end.

Definition log_interaction (role content : string) (agent : option string)
  (metadata : option Record) : method unit :=
  now ← tick;
  st ← get;
  let message : Record :=
    [ ("timestamp", VStr (isoformat_at now));
      ("role", VStr role);
      ("content", VStr content);
      ("agent", VStr (agent_or_current agent st));
      ("metadata", VDict (metadata_or_empty metadata)) ] in
  modify (with_history (conversation_history st ++ [message])).

Definition print_help : method unit := ret tt.

Definition list_agents : method unit := ret tt.

Definition switch_agent (agent_name : string) : method unit :=
  st ← get;
  if dict_mem agent_name (agents st) then
    modify (with_current_agent agent_name);;
    log_interaction "system" ("Switched to " +:+ agent_name +:+ " agent") None None
  else ret tt.

Definition show_history : method unit := ret tt.

Definition clear_history : method unit :=
  modify (with_history []).

Definition key_error (k : string) : exn := Exn KeyError k true.

Definition show_agent_info : method unit :=
  st ← get;
  match dict_get (current_agent st) (agents st) with
  | Some _ => ret tt
  | None => raise (key_error (current_agent st))
  end.

Definition export_conversation : method unit :=
  t1 ← tick;
  let filename :=
    "generated/conversations/conversation_" +:+ strftime_at t1 +:+ ".json" in
  t2 ← tick;
  st ← get;
  let export_data : Record :=
    [ ("session_id", VStr (session_id st));
      ("conversation_id", VStr (conversation_id st));
      ("timestamp", VStr (isoformat_at t2));
      ("message_count", VInt (Z.of_nat (length (conversation_history st))));
      ("messages", VList (map VDict (conversation_history st))) ] in
  if writable filename
  then modify (with_files (dict_set filename (VDict export_data) (files st)))
  else raise (Exn OSError filename true).

Definition custom_entry (a : built_agent) : agent_entry :=
  {| agent := built_name a;
     entry_deps_class := built_deps_type a;
     description :=
       "Custom agent: " +:+ String.substring 0 50 (built_instructions a) +:+ "...";
     kind := "custom" |}.

Definition create_agent_interactive : method bool :=
  try_except
    (st ← get;
     let '(created, rest) := builder_create (stdin st) in
     modify (with_stdin rest);;
     match created with
     | Some a =>
         st ← get;
         modify (with_agents (dict_set (built_name a) (custom_entry a) (agents st)));;
         switch ← input;
         (if answered_yes switch then switch_agent (built_name a) else ret tt);;
         ret true
     | None => ret false
     end)
    (fun e => ret false).

Definition load_agent_by_name (agent_name : string) : method unit :=
  st ← get;
  if dict_mem agent_name (agents st) then ret tt
  else
    match builder_load agent_name with
    | Some a =>
        modify (with_agents (dict_set agent_name (custom_entry a) (agents st)));;
        switch ← input;
        if answered_yes switch then switch_agent agent_name else ret tt
    | None => ret tt
    end.

Definition delete_agent_by_name (agent_name : string) : method unit :=
  st ← get;
  match dict_get agent_name (agents st) with
  | None => ret tt
  | Some entry =>
      if String.eqb (kind entry) "built-in" then ret tt
      else
        confirm ← input;
        if negb (answered_yes confirm) then ret tt
        else
          (if String.eqb (current_agent st) agent_name
           then modify (with_current_agent "chat") else ret tt);;
          st ← get;
          (* [agent_builder.delete_agent] then drops the builder's own entry
             and its file; the playground object is not touched by it *)
          modify (with_agents (dict_del agent_name (agents st)))
  end.

Definition show_agent_templates : method unit := ret tt.

Definition show_created_agents : method unit := ret tt.

Definition show_agent_detailed_info (agent_name : string) : method unit :=
  st ← get;
  match dict_get agent_name (agents st) with
  | Some entry =>
      if String.eqb (kind entry) "custom" then ret tt
      else modify (with_current_agent agent_name);; show_agent_info
  | None => ret tt
  end.

(** The dependencies [send_message] builds for the agent.  The slice
    [self.conversation_history[-10:]] is a new list: what an agent appends
    to the history of its dependencies does not reach the playground's. *)
Definition make_deps (st : state) (c : deps_class) : option deps :=
  match c with
  | ChatDependencies =>
      Some (ChatDeps (session_id st) (last_n 10 (conversation_history st))
              (conversation_id st))
  | ResearchDependencies => Some (ResearchDeps (session_id st) (conversation_id st))
  | DataDependencies => Some (DataDeps (session_id st) (conversation_id st))
  | OtherDependencies _ => None
  end.

Definition send_message (message : string) (observe_mode : bool) : method unit :=
  start ← tick;
  log_interaction "user" message None None;;
  st ← get;
  match dict_get (current_agent st) (agents st) with
  | None => raise (key_error (current_agent st))
  | Some agent_config =>
      let deps := make_deps st (entry_deps_class agent_config) in
      try_except
        ((if observe_mode then print 1;; print 2;; print 3 else ret tt);;
         (fun st' => (agent_run (agent agent_config) message deps (clock st'), st'))
           ≫= fun reply =>
         stop ← tick;
         let execution_time := (time_at stop - time_at start)%float in
         (fun st' => (response_text reply, st')) ≫= fun text =>
         st' ← get;
         log_interaction "assistant" text (Some (current_agent st'))
           (Some [ ("execution_time", VFloat execution_time);
                   ("response_type", VStr (response_type reply)) ]);;
         (if observe_mode then print 4;; print 5;; print 6 else ret tt);;
         print 7)
        (fun e =>
           st' ← get;
           log_interaction "system" ("Error: " +:+ exn_msg e)
             (Some (current_agent st')) (Some [("error", VBool true)]);;
           print 8)
  end.

(** The [/profile] branch of [run] reads the history and prints. *)
Definition profile : method unit := ret tt.

(** The methods of the playground, and the branches of its loop. *)
Inductive operation :=
| PrintHelp
| ListAgents
| SwitchAgent (agent_name : string)
| ShowHistory
| ClearHistory
| ShowAgentInfo
| ExportConversation
| CreateAgentInteractive
| LoadAgentByName (agent_name : string)
| DeleteAgentByName (agent_name : string)
| ShowAgentTemplates
| ShowCreatedAgents
| ShowAgentDetailedInfo (agent_name : string)
| LogInteraction (role content : string) (agent : option string) (metadata : option Record)
| SendMessage (message : string) (observe_mode : bool)
| Profile.

Definition perform (op : operation) : method unit :=
  match op with
  | PrintHelp => print_help
  | ListAgents => list_agents
  | SwitchAgent a => switch_agent a
  | ShowHistory => show_history
  | ClearHistory => clear_history
  | ShowAgentInfo => show_agent_info
  | ExportConversation => export_conversation
  | CreateAgentInteractive => create_agent_interactive ≫= fun _ => ret tt
  | LoadAgentByName a => load_agent_by_name a
  | DeleteAgentByName a => delete_agent_by_name a
  | ShowAgentTemplates => show_agent_templates
  | ShowCreatedAgents => show_created_agents
  | ShowAgentDetailedInfo a => show_agent_detailed_info a
  | LogInteraction role content agent metadata =>
      log_interaction role content agent metadata
  | SendMessage message observe_mode => send_message message observe_mode
  | Profile => profile
  end.

End Methods.

(** *** The history only grows *)

(** A record of the history, as [log_interaction] builds it. *)
Definition is_message (m : Record) : Prop :=
  dict_keys m = ["timestamp"; "role"; "content"; "agent"; "metadata"] /\
  (exists ts, dict_get "timestamp" m = Some (VStr ts)) /\
  (exists role, dict_get "role" m = Some (VStr role)) /\
  (exists content, dict_get "content" m = Some (VStr content)) /\
  (exists a, dict_get "agent" m = Some (VStr a)) /\
  (exists md, dict_get "metadata" m = Some (VDict md)).

(** The history of [st'] is the history of [st] with messages added at
    its end: nothing removed, nothing moved. *)
Definition extends (st st' : state) : Prop :=
  exists added,
    conversation_history st' = conversation_history st ++ added /\
    Forall is_message added.

Lemma extends_refl st : extends st st.
Proof. exists []. split; [now rewrite app_nil_r | constructor]. Qed.

Lemma extends_trans st1 st2 st3 : extends st1 st2 -> extends st2 st3 -> extends st1 st3.
Proof.
  intros (a & Ha & Fa) (b & Hb & Fb). exists (a ++ b). split.
  - now rewrite Hb, Ha, app_assoc.
  - apply Forall_app. auto.
Qed.

Lemma extends_same_history st st' :
  conversation_history st' = conversation_history st -> extends st st'.
Proof. intros H. exists []. split; [now rewrite app_nil_r | constructor]. Qed.

(** A method that leaves the history a prolongation of what it was,
    whether it returns or raises. *)
Definition grows {A : Type} (m : method A) : Prop :=
  forall st, extends st (snd (m st)).

Create HintDb history.

Lemma grows_ret {A : Type} (a : A) : grows (ret a).
Proof. intros st. apply extends_refl. Qed.

Lemma grows_mret {A : Type} (a : A) : grows (mret a : method A).
Proof. intros st. apply extends_refl. Qed.

Lemma grows_raise {A : Type} (e : exn) : grows (raise e : method A).
Proof. intros st. apply extends_refl. Qed.

Lemma grows_get : grows get.
Proof. intros st. apply extends_refl. Qed.

Lemma grows_pure {A : Type} (f : state -> result A) : grows (fun st => (f st, st)).
Proof. intros st. apply extends_refl. Qed.

Lemma grows_modify (f : state -> state) :
  (forall st, conversation_history (f st) = conversation_history st) ->
  grows (modify f).
Proof. intros H st. apply extends_same_history, H. Qed.

Lemma grows_bind {A B : Type} (m : method A) (k : A -> method B) :
  grows m -> (forall a, grows (k a)) -> grows (m ≫= k).
Proof.
  intros Hm Hk st. unfold mbind, method_bind.
  specialize (Hm st). destruct (m st) as [[a|e] st']; simpl in *; auto.
  eapply extends_trans; [exact Hm | apply Hk].
Qed.

Lemma grows_try_except {A : Type} (body : method A) (handler : exn -> method A) :
  grows body -> (forall e, grows (handler e)) -> grows (try_except body handler).
Proof.
  intros Hb Hh st. unfold try_except.
  specialize (Hb st). destruct (body st) as [[a|e] st']; simpl in *; auto.
  destruct (is_Exception e); simpl; auto.
  eapply extends_trans; [exact Hb | apply Hh].
Qed.

Lemma grows_tick : grows tick.
Proof. intros st. now apply extends_same_history. Qed.

Lemma grows_input : grows input.
Proof.
  intros st. unfold input. destruct (stdin st); now apply extends_same_history.
Qed.

#[local] Hint Resolve grows_ret grows_mret grows_raise grows_get grows_pure
  grows_tick grows_input : history.

Section HistoryFacts.
Variable isoformat_at : nat -> string.
Variable strftime_at : nat -> string.
Variable time_at : nat -> float.
Variable writable : string -> bool.
Context {response : Type}.
Variable agent_run : string -> string -> option deps -> nat -> result response.
Variable response_text : response -> result string.
Variable response_type : response -> string.
Variable builder_create : list string -> option built_agent * list string.
Variable builder_load : string -> option built_agent.
Variable print_fails : nat -> nat -> option exn.

(** The message [log_interaction] adds at a given time. *)
Definition logged (now : nat) (role content agent : string) (metadata : Record) : Record :=
  [ ("timestamp", VStr (isoformat_at now));
    ("role", VStr role);
    ("content", VStr content);
    ("agent", VStr agent);
    ("metadata", VDict metadata) ].

Lemma logged_is_message now role content agent metadata :
  is_message (logged now role content agent metadata).
Proof. unfold is_message, logged. simpl. repeat split; eauto. Qed.

Lemma log_interaction_run role content agent metadata st :
  log_interaction isoformat_at role content agent metadata st =
  (Ok tt,
   with_history
     (conversation_history st ++
        [logged (clock st) role content
           (agent_or_current agent st) (metadata_or_empty metadata)])
     (with_clock (S (clock st)) st)).
Proof. reflexivity. Qed.

Lemma grows_log_interaction role content agent metadata :
  grows (log_interaction isoformat_at role content agent metadata).
Proof.
  intros st. rewrite log_interaction_run. simpl.
  eexists. split; [reflexivity|].
  constructor; [apply logged_is_message | constructor].
Qed.

Hint Resolve grows_log_interaction : history.

Lemma grows_print place : grows (print print_fails place).
Proof.
  intros st. unfold print. destruct (print_fails place (clock st)); apply extends_refl.
Qed.

Hint Resolve grows_print : history.

(** Settles [grows] of a method built from the primitives above. *)
Ltac grow :=
  repeat first
    [ progress auto with history
    | apply grows_bind; [|intro]
    | apply grows_try_except; [|intro]
    | apply grows_modify; intro; reflexivity
    | match goal with
      | |- grows (if ?b then _ else _) => destruct b
      | |- grows (match ?x with _ => _ end) => destruct x
      | |- grows (let '(_, _) := ?x in _) => destruct x
      end ].

Lemma grows_switch_agent agent_name : grows (switch_agent isoformat_at agent_name).
Proof. unfold switch_agent. grow. Qed.

Hint Resolve grows_switch_agent : history.

Lemma grows_show_agent_info : grows show_agent_info.
Proof. unfold show_agent_info. grow. Qed.

Hint Resolve grows_show_agent_info : history.

Lemma grows_perform (op : operation) :
  op <> ClearHistory ->
  grows (perform isoformat_at strftime_at time_at writable agent_run response_text
           response_type builder_create builder_load print_fails op).
Proof.
  intros Hop. destruct op; try congruence; simpl;
    unfold print_help, list_agents, show_history, export_conversation,
      create_agent_interactive, load_agent_by_name, delete_agent_by_name,
      show_agent_templates, show_created_agents, show_agent_detailed_info,
      send_message, profile;
    grow.
Qed.

(** A session: the loop of [run] performs one operation after another,
    and goes on after one that raised. *)
Fixpoint perform_all (ops : list operation) (st : state) : state :=
  match ops with
  | [] => st
  | op :: ops' =>
      perform_all ops'
        (snd (perform isoformat_at strftime_at time_at writable agent_run
                response_text response_type builder_create builder_load
                print_fails op st))
  end.

(** C8: [log_interaction] adds one record at the end of the history, with
    the keys timestamp, role, content, agent and metadata; whatever the
    playground does, short of [clear_history], leaves the earlier
    messages where they were and only adds such records after them; and
    [clear_history] empties the list. *)
Theorem conversation_history_append_only :
  (forall role content agent metadata st,
     conversation_history
       (snd (log_interaction isoformat_at role content agent metadata st)) =
     conversation_history st ++
       [logged (clock st) role content (agent_or_current agent st)
          (metadata_or_empty metadata)] /\
     is_message (logged (clock st) role content (agent_or_current agent st)
                   (metadata_or_empty metadata))) /\
  (forall ops st,
     Forall (fun op => op <> ClearHistory) ops ->
     extends st (perform_all ops st)) /\
  (forall st,
     conversation_history
       (snd (perform isoformat_at strftime_at time_at writable agent_run
               response_text response_type builder_create builder_load print_fails
               ClearHistory st)) = []).
Proof.
  split; [|split].
  - intros role content agent metadata st. rewrite log_interaction_run.
    split; [reflexivity | apply logged_is_message].
  - intros ops. induction ops as [|op ops IH]; intros st Hops; simpl.
    + apply extends_refl.
    + inversion Hops as [|? ? Hop Hrest]; subst.
      eapply extends_trans; [apply grows_perform, Hop | apply IH, Hrest].
  - reflexivity.
Qed.

End HistoryFacts.

(** *** The current agent stays known *)

(** The current agent is one of the agents, and the agent ["chat"], to
    which [delete_agent_by_name] falls back, is there as a built-in. *)
Definition sound (st : state) : Prop :=
  dict_mem (current_agent st) (agents st) = true /\
  exists entry, dict_get "chat" (agents st) = Some entry /\ kind entry = "built-in".

Lemma sound_same (st st' : state) :
  current_agent st' = current_agent st -> agents st' = agents st ->
  sound st -> sound st'.
Proof. unfold sound. intros -> ->. auto. Qed.

(** A method that keeps the current agent known, whether it returns or
    raises. *)
Definition keeps {A : Type} (m : method A) : Prop :=
  forall st, sound st -> sound (snd (m st)).

Create HintDb agents.

Lemma keeps_ret {A : Type} (a : A) : keeps (ret a).
Proof. intros st H. exact H. Qed.

Lemma keeps_mret {A : Type} (a : A) : keeps (mret a : method A).
Proof. intros st H. exact H. Qed.

Lemma keeps_raise {A : Type} (e : exn) : keeps (raise e : method A).
Proof. intros st H. exact H. Qed.

Lemma keeps_get : keeps get.
Proof. intros st H. exact H. Qed.

Lemma keeps_pure {A : Type} (f : state -> result A) : keeps (fun st => (f st, st)).
Proof. intros st H. exact H. Qed.

Lemma keeps_modify (f : state -> state) :
  (forall st, current_agent (f st) = current_agent st /\ agents (f st) = agents st) ->
  keeps (modify f).
Proof. intros H st Hs. destruct (H st). now apply (sound_same st). Qed.

Lemma keeps_bind {A B : Type} (m : method A) (k : A -> method B) :
  keeps m -> (forall a, keeps (k a)) -> keeps (m ≫= k).
Proof.
  intros Hm Hk st Hs. unfold mbind, method_bind.
  specialize (Hm st Hs). destruct (m st) as [[a|e] st']; simpl in *; auto.
  now apply Hk.
Qed.

Lemma keeps_try_except {A : Type} (body : method A) (handler : exn -> method A) :
  keeps body -> (forall e, keeps (handler e)) -> keeps (try_except body handler).
Proof.
  intros Hb Hh st Hs. unfold try_except.
  specialize (Hb st Hs). destruct (body st) as [[a|e] st']; simpl in *; auto.
  destruct (is_Exception e); simpl; auto. now apply Hh.
Qed.

Lemma keeps_input : keeps input.
Proof.
  intros st Hs. unfold input. destruct (stdin st); simpl; [exact Hs|].
  now apply (sound_same st).
Qed.

(** A method that reads the state and then goes on from it. *)
Lemma keeps_get_bind {A : Type} (k : state -> method A) :
  (forall st, sound st -> sound (snd (k st st))) -> keeps (get ≫= k).
Proof. intros H st Hs. exact (H st Hs). Qed.

#[local] Hint Resolve keeps_ret keeps_mret keeps_raise keeps_get keeps_pure
  keeps_input : agents.

Lemma dict_get_del_ne {V : Type} (k j : string) (d : list (string * V)) :
  j <> k -> dict_get j (dict_del k d) = dict_get j d.
Proof.
  intros Hne. unfold dict_del. induction d as [|[k' v] d IH]; simpl; [reflexivity|].
  destruct (String.eqb k' k) eqn:E; simpl.
  - apply String.eqb_eq in E. subst k'.
    destruct (String.eqb j k) eqn:E'; [|exact IH].
    apply String.eqb_eq in E'. congruence.
  - now rewrite IH.
Qed.


Section AgentFacts.
Variable isoformat_at : nat -> string.
Variable strftime_at : nat -> string.
Variable time_at : nat -> float.
Variable writable : string -> bool.
Context {response : Type}.
Variable agent_run : string -> string -> option deps -> nat -> result response.
Variable response_text : response -> result string.
Variable response_type : response -> string.
Variable builder_create : list string -> option built_agent * list string.
Variable builder_load : string -> option built_agent.
Variable print_fails : nat -> nat -> option exn.

(** The wizard of the builder refuses no name but those of its own
    agents: that it does not hand over an agent called ["chat"] is left
    to the user. *)
Definition spares_chat : Prop :=
  forall lines a rest, builder_create lines = (Some a, rest) -> built_name a <> "chat".

Lemma keeps_tick : keeps tick.
Proof. intros st Hs. now apply (sound_same st). Qed.

Lemma keeps_log_interaction role content agent metadata :
  keeps (log_interaction isoformat_at role content agent metadata).
Proof. intros st Hs. rewrite log_interaction_run. now apply (sound_same st). Qed.

Lemma keeps_print place : keeps (print print_fails place).
Proof.
  intros st Hs. unfold print. destruct (print_fails place (clock st)); exact Hs.
Qed.

Hint Resolve keeps_tick keeps_log_interaction keeps_print : agents.

(** Settles [keeps] of a method that does not touch the agents. *)
Ltac keep :=
  repeat first
    [ progress auto with agents
    | apply keeps_bind; [|intro]
    | apply keeps_try_except; [|intro]
    | apply keeps_modify; intro; split; reflexivity
    | match goal with
      | |- keeps (if ?b then _ else _) => destruct b
      | |- keeps (match ?x with _ => _ end) => destruct x
      | |- keeps (let '(_, _) := ?x in _) => destruct x
      end ].

Lemma keeps_switch_agent agent_name : keeps (switch_agent isoformat_at agent_name).
Proof.
  unfold switch_agent. apply keeps_get_bind. intros st Hs.
  destruct (dict_mem agent_name (agents st)) eqn:Hm; [|exact Hs].
  simpl. split; [exact Hm | exact (proj2 Hs)].
Qed.

Hint Resolve keeps_switch_agent : agents.

Lemma keeps_send_message message observe_mode :
  keeps (send_message isoformat_at time_at agent_run response_text response_type
           print_fails message observe_mode).
Proof. unfold send_message. keep. Qed.

Lemma sound_add (st : state) (agent_name : string) (entry : agent_entry) :
  agent_name <> "chat" -> sound st ->
  sound (with_agents (dict_set agent_name entry (agents st)) st).
Proof.
  intros Hne [Hcur (chat & Hchat & Hkind)]. split; simpl.
  - rewrite DataTools.dict_mem_set, Hcur. apply orb_true_r.
  - exists chat. rewrite DataTools.dict_get_set_ne; auto.
Qed.

Lemma keeps_create_agent_interactive :
  spares_chat ->
  keeps (create_agent_interactive isoformat_at builder_create).
Proof.
  intros Hspare. unfold create_agent_interactive.
  apply keeps_try_except; [|intro; apply keeps_ret].
  apply keeps_get_bind. intros st Hs.
  destruct (builder_create (stdin st)) as [[a|] rest] eqn:Hb.
  - pose proof (Hspare _ _ _ Hb) as Hne.
    assert (Hadd : sound (with_agents (dict_set (built_name a) (custom_entry a) (agents st))
                            (with_stdin rest st))).
    { apply (sound_add (with_stdin rest st)); [exact Hne|]. now apply (sound_same st). }
    assert (Hrest : keeps (input ≫= fun switch =>
              (if answered_yes switch then switch_agent isoformat_at (built_name a)
               else ret tt) ≫= fun _ => ret true)) by keep.
    exact (Hrest _ Hadd).
  - simpl. now apply (sound_same st).
Qed.

Lemma keeps_load_agent_by_name agent_name :
  keeps (load_agent_by_name isoformat_at builder_load agent_name).
Proof.
  unfold load_agent_by_name. apply keeps_get_bind. intros st Hs.
  destruct (dict_mem agent_name (agents st)) eqn:Hm; [exact Hs|].
  destruct (builder_load agent_name) as [a|]; [|exact Hs].
  assert (Hne : agent_name <> "chat").
  { intros ->. destruct Hs as [_ (chat & Hchat & _)].
    unfold dict_mem in Hm. now rewrite Hchat in Hm. }
  pose proof (sound_add st agent_name (custom_entry a) Hne Hs) as Hadd.
  assert (Hrest : keeps (input ≫= fun switch =>
            if answered_yes switch then switch_agent isoformat_at agent_name
            else ret tt)) by keep.
  exact (Hrest _ Hadd).
Qed.

Lemma keeps_delete_agent_by_name agent_name : keeps (delete_agent_by_name agent_name).
Proof.
  unfold delete_agent_by_name. apply keeps_get_bind. intros st Hs.
  destruct (dict_get agent_name (agents st)) as [entry|] eqn:Hentry; [|exact Hs].
  destruct (String.eqb (kind entry) "built-in") eqn:Hkind; [exact Hs|].
  apply String.eqb_neq in Hkind.
  assert (Hne : agent_name <> "chat").
  { intros ->. destruct Hs as [_ (chat & Hchat & Hbuilt)]. congruence. }
  destruct Hs as [Hcur (chat & Hchat & Hbuilt)].
  unfold mbind, method_bind, input. destruct (stdin st) as [|confirm rest]; simpl.
  - split; [exact Hcur | eauto].
  - destruct (answered_yes confirm); simpl; [|split; [exact Hcur | eauto]].
    destruct (String.eqb (current_agent st) agent_name) eqn:Hsame; simpl.
    + split; cbn [current_agent agents with_agents with_current_agent with_stdin].
      * unfold dict_mem. rewrite dict_get_del_ne, Hchat; auto.
      * exists chat. rewrite dict_get_del_ne; auto.
    + apply String.eqb_neq in Hsame.
      split; cbn [current_agent agents with_agents with_current_agent with_stdin].
      * unfold dict_mem in *. rewrite dict_get_del_ne; auto.
      * exists chat. rewrite dict_get_del_ne; auto.
Qed.

Lemma keeps_show_agent_detailed_info agent_name :
  keeps (show_agent_detailed_info agent_name).
Proof.
  unfold show_agent_detailed_info. apply keeps_get_bind. intros st Hs.
  destruct (dict_get agent_name (agents st)) as [entry|] eqn:Hentry; [|exact Hs].
  destruct (String.eqb (kind entry) "custom"); [exact Hs|].
  assert (Hnew : sound (with_current_agent agent_name st)).
  { split; simpl; [|exact (proj2 Hs)]. unfold dict_mem. now rewrite Hentry. }
  assert (Hrest : keeps show_agent_info) by (unfold show_agent_info; keep).
  exact (Hrest _ Hnew).
Qed.

Lemma keeps_perform (op : operation) :
  spares_chat ->
  keeps (perform isoformat_at strftime_at time_at writable agent_run response_text
           response_type builder_create builder_load print_fails op).
Proof.
  intros Hspare. destruct op; simpl.
  - apply keeps_ret.
  - apply keeps_ret.
  - apply keeps_switch_agent.
  - apply keeps_ret.
  - apply keeps_modify. intro. split; reflexivity.
  - unfold show_agent_info. keep.
  - unfold export_conversation. keep.
  - apply keeps_bind; [now apply keeps_create_agent_interactive | intro; apply keeps_ret].
  - apply keeps_load_agent_by_name.
  - apply keeps_delete_agent_by_name.
  - apply keeps_ret.
  - apply keeps_ret.
  - apply keeps_show_agent_detailed_info.
  - apply keeps_log_interaction.
  - apply keeps_send_message.
  - apply keeps_ret.
Qed.

(** X25: as long as the builder's wizard is not made to create an agent
    named ["chat"], the playground keeps its current agent among its
    agents and keeps ["chat"] as a built-in, through any sequence of
    operations, raising ones included; so [show_agent_info] and
    [send_message] never fail to find the current agent. *)
Theorem current_agent_stays_known (ops : list operation) (st : state) :
  spares_chat ->
  sound st ->
  let st' := perform_all isoformat_at strftime_at time_at writable agent_run
               response_text response_type builder_create builder_load
               print_fails ops st in
  sound st' /\
  fst (show_agent_info st') = Ok tt.
Proof.
  intros Hspare Hs. cbv zeta.
  assert (Hall : sound (perform_all isoformat_at strftime_at time_at writable agent_run
                          response_text response_type builder_create builder_load
                          print_fails ops st)).
  { revert st Hs. induction ops as [|op ops IH]; intros st Hs; simpl; [exact Hs|].
    apply IH. now apply keeps_perform. }
  split; [exact Hall|].
  destruct Hall as [Hcur _]. unfold show_agent_info, mbind, method_bind, get, dict_mem in *.
  simpl. destruct (dict_get _ _); [reflexivity | discriminate].
Qed.


End AgentFacts.

(** *** A session to run the model on *)

Definition example_isoformat (now : nat) : string :=
  "2025-01-01T00:00:" +:+ pretty now.

Definition example_agent_run (name message : string) (d : option deps) (now : nat)
  : result string :=
  if String.eqb name "research_agent"
  then Raise (Exn (OtherException "ModelHTTPError") "no API key" true)
  else Ok ("You said: " +:+ message).

Definition example_builder_create (lines : list string)
  : option built_agent * list string := (None, lines).

Definition built_in (name : string) (c : deps_class) (about : string) : agent_entry :=
  {| agent := name; entry_deps_class := c; description := about; kind := "built-in" |}.

Definition start : state :=
  {| session_id := "session_1";
     conversation_id := "conv_1";
     conversation_history := [];
     current_agent := "chat";
     agents :=
       [ ("chat", built_in "simple_chat_agent" ChatDependencies
                    "Simple conversational AI with context management");
         ("research", built_in "research_agent" ResearchDependencies
                    "Information gathering and research agent");
         ("analyst", built_in "data_analyst_agent" DataDependencies
                    "Data analysis and business insights agent") ];
     clock := 0;
     stdin := [];
     files := [] |}.

Definition example_session : list operation :=
  [ SendMessage "hello" false; SwitchAgent "research"; ShowHistory;
    SendMessage "find it" false; ExportConversation ].

Definition example_perform_all : list operation -> state -> state :=
  perform_all example_isoformat example_isoformat
    (fun now => PrimFloat.of_uint63 (Uint63.of_Z (Z.of_nat now)))
    (fun _ => true) example_agent_run (fun text => Ok text)
    (fun _ => "ChatResponse") example_builder_create (fun _ => None) (fun _ _ => None).

(** The roles and contents of the history after [example_session]. *)
Example example_session_history :
  map (fun m => (dict_get "role" m, dict_get "content" m))
    (conversation_history (example_perform_all example_session start)) =
  [ (Some (VStr "user"), Some (VStr "hello"));
    (Some (VStr "assistant"), Some (VStr "You said: hello"));
    (Some (VStr "system"), Some (VStr "Switched to research agent"));
    (Some (VStr "user"), Some (VStr "find it"));
    (Some (VStr "system"), Some (VStr "Error: no API key")) ].
Proof. vm_compute. reflexivity. Qed.

(** C8 at [example_session], from [start]. *)
Lemma conversation_history_append_only_witness :
  extends start (example_perform_all example_session start).
Proof.
  apply (proj1 (proj2 (conversation_history_append_only example_isoformat
    example_isoformat (fun now => PrimFloat.of_uint63 (Uint63.of_Z (Z.of_nat now)))
    (fun _ => true) example_agent_run (fun text => Ok text)
    (fun _ => "ChatResponse") example_builder_create (fun _ => None) (fun _ _ => None)))).
  unfold example_session. repeat constructor; discriminate.
Defined.

(** The current agent stays known over [example_session]. *)
Lemma current_agent_stays_known_witness :
  sound (example_perform_all example_session start) /\
  fst (show_agent_info (example_perform_all example_session start)) = Ok tt.
Proof.
  apply (current_agent_stays_known example_isoformat example_isoformat
           (fun now => PrimFloat.of_uint63 (Uint63.of_Z (Z.of_nat now)))
           (fun _ => true) example_agent_run (fun text => Ok text)
           (fun _ => "ChatResponse") example_builder_create (fun _ => None) (fun _ _ => None)
           example_session start).
  - intros lines a rest H. discriminate H.
  - split; [reflexivity | eexists; split; reflexivity].
Defined.

(** A wizard that is made to create an agent named ["chat"]: the custom
    agent takes the place of the built-in one, it can then be deleted,
    and the playground is left with a current agent it does not have. *)
Definition chat_builder (lines : list string) : option built_agent * list string :=
  (Some {| built_name := "chat";
           built_deps_type := ChatDependencies;
           built_instructions := "Be brief." |},
   lines).

Example chat_can_be_deleted :
  let st :=
    perform_all example_isoformat example_isoformat
      (fun now => PrimFloat.of_uint63 (Uint63.of_Z (Z.of_nat now)))
      (fun _ => true) example_agent_run (fun text => Ok text)
      (fun _ => "ChatResponse") chat_builder (fun _ => None) (fun _ _ => None)
      [CreateAgentInteractive; DeleteAgentByName "chat"]
      (with_stdin ["n"; "y"] start) in
  current_agent st = "chat" /\
  dict_keys (agents st) = ["research"; "analyst"] /\
  fst (send_message example_isoformat
         (fun now => PrimFloat.of_uint63 (Uint63.of_Z (Z.of_nat now)))
         example_agent_run (fun text => Ok text) (fun _ => "ChatResponse")
         (fun _ _ => None) "hello" false st) = Raise (key_error "chat").
Proof. vm_compute. repeat split. Qed.


(** A standard output that is closed: every [print] raises.  The reply
    is logged, the [print] of the reply raises, the handler logs the
    error as a third record, and the [print] of the handler lets the
    exception out of [send_message]. *)
Definition broken_pipe : exn := Exn OSError "[Errno 32] Broken pipe" true.

Example send_message_broken_pipe :
  let run := send_message example_isoformat
               (fun now => PrimFloat.of_uint63 (Uint63.of_Z (Z.of_nat now)))
               example_agent_run (fun text => Ok text) (fun _ => "ChatResponse")
               (fun _ _ => Some broken_pipe) "hello" false start in
  fst run = Raise broken_pipe /\
  map (fun m => (dict_get "role" m, dict_get "content" m))
    (conversation_history (snd run)) =
  [ (Some (VStr "user"), Some (VStr "hello"));
    (Some (VStr "assistant"), Some (VStr "You said: hello"));
    (Some (VStr "system"), Some (VStr "Error: [Errno 32] Broken pipe")) ].
Proof. vm_compute. split; reflexivity. Qed.

End Playground.

(** ** [src/utils/agent_builder.py]: saving and loading an agent's
       configuration

    A configuration file holds the JSON text of a value.  For the
    JSON-shaped values of the model, [json.dump] followed by [json.load]
    gives the value back, so a file is modelled by the value it holds. *)
Module AgentBuilder.

Inductive deps_type :=
| BaseDependencies
| ChatDependencies
| ResearchDependencies
| DataDependencies
| OtherDependencies (name : string).

Inductive output_type :=
| AgentResult
| ChatResponse
| ResearchResult
| AnalysisResult
| OtherOutput (name : string).

(** [cls.__name__] *)
Definition deps_name (d : deps_type) : string :=
  match d with
  | BaseDependencies => "BaseDependencies"
  | ChatDependencies => "ChatDependencies"
  | ResearchDependencies => "ResearchDependencies"
  | DataDependencies => "DataDependencies"
  | OtherDependencies name => name
  end.

Definition output_name (o : output_type) : string :=
  match o with
  | AgentResult => "AgentResult"
  | ChatResponse => "ChatResponse"
  | ResearchResult => "ResearchResult"
  | AnalysisResult => "AnalysisResult"
  | OtherOutput name => name
  end.

(** [deps_type_map] and [output_type_map] of [load_agent] *)
Definition deps_type_map : list (string * deps_type) :=
  [ ("BaseDependencies", BaseDependencies);
    ("ChatDependencies", ChatDependencies);
    ("ResearchDependencies", ResearchDependencies);
    ("DataDependencies", DataDependencies) ].

Definition output_type_map : list (string * output_type) :=
  [ ("AgentResult", AgentResult);
    ("ChatResponse", ChatResponse);
    ("ResearchResult", ResearchResult);
    ("AnalysisResult", AnalysisResult) ].

(** A [DynamicAgent]: the attributes set by [BaseAgent.__init__], the
    tools and the configuration kept for saving. *)
Record DynamicAgent := {
  name : string;
  model : string;
  instructions : string;
  agent_deps_type : deps_type;
  agent_output_type : output_type;
  custom_tools : list Value;
  config : Record
}.

(** What a file holds: the JSON text of a value, or text that is no
    JSON, as a dump that was cut short leaves. *)
Inductive file_content :=
| Json (v : Value)
| Garbled.

(** The builder: the agents it holds, and the files under its eyes. *)
Record builder := {
  created_agents : list (string * DynamicAgent);
  files : list (string * file_content)
}.

(** [self.agents_dir / f"{name}.json"]: a name that starts with a slash
    is an absolute path and replaces the directory. *)
Definition config_path (agent_name : string) : string :=
  let file := agent_name +:+ ".json" in
  match file with
  | String "/" _ => file
  | _ => "generated/agents/" +:+ file
  end.

(** [d[k]] on a value: [KeyError] without the key, [TypeError] when the
    value is not a dict. *)
Definition subscript (v : Value) (k : string) : result Value :=
  match v with
  | VDict d =>
      match dict_get k d with
      | Some x => Ok x
      | None => Raise (Exn KeyError k true)
      end
  | _ => Raise (Exn TypeError "indices must be integers" true)
  end.

(** [d.get(k, default)] on a value *)
Definition get_or (v : Value) (k : string) (default : Value) : result Value :=
  match v with
  | VDict d =>
      match dict_get k d with
      | Some x => Ok x
      | None => Ok default
      end
  | _ => Raise (Exn (OtherException "AttributeError") "object has no attribute 'get'" true)
  end.

(** The constructor's parameters are annotated [str]: a value of another
    type in their place is outside the model, and refused. *)
Definition as_str (v : Value) : result string :=
  match v with
  | VStr s => Ok s
  | _ => Raise (Exn TypeError "expected str" true)
  end.

(** [bool(v)] *)
Definition truthy (v : Value) : bool :=
  match v with
  | VNone => false
  | VBool b => b
  | VInt z => negb (Z.eqb z 0)
  | VFloat f => negb (PrimFloat.eqb f 0%float)
  | VStr s => negb (String.eqb s "")
  | VList l => match l with [] => false | _ => true end
  | VDict d => match d with [] => false | _ => true end
  end.

(** The [model] argument, which the constructor passes through
    [model or ...]: a false value counts as no model. *)
Definition as_optional_str (v : Value) : result (option string) :=
  if truthy v then s ← as_str v; Ok (Some s) else Ok None.

(** The [tools] argument, which the constructor passes through
    [tools or []] and then iterates, subscripting every element by
    ["name"]: a true value that is not a list ends in a [TypeError]. *)
Definition as_tools (v : Value) : result (option (list Value)) :=
  match v with
  | VList l => Ok (Some l)
  | _ => if truthy v then Raise (Exn TypeError "tools is not a list of dicts" true)
         else Ok None
  end.

(** [m.get(key, default)] for the two maps: a list or a dict as key is
    unhashable; any other value that is not one of the names gives the
    default. *)
Definition lookup_type {T : Type} (m : list (string * T)) (key : Value) (default : T)
  : result T :=
  match key with
  | VStr s =>
      match dict_get s m with
      | Some t => Ok t
      | None => Ok default
      end
  | VList _ | VDict _ => Raise (Exn TypeError "unhashable type" true)
  | _ => Ok default
  end.

Section Builder.

(** [settings.default_model], read from the environment *)
Variable default_model : string.
(** [Agent(model, deps_type=..., output_type=..., instructions=...)] of
    the agent framework: it can refuse to build the agent *)
Variable framework_agent : string -> deps_type -> output_type -> string -> result unit.
(** [self.agent.tool(f)] for a tool named so, after those registered *)
Variable framework_tool : list string -> string -> result unit.
(** [datetime.now().isoformat()] *)
Variable now : string.
(** whether [open(path, 'w')] succeeds *)
Variable writable : string -> bool.
(** whether [json.dump(config, f, indent=2, default=str)] runs to its
    end: it raises [ValueError] on an int of more digits than the
    interpreter converts to a string, [RecursionError] on a nesting too
    deep, [OSError] when the disk is full *)
Variable dumps : Value -> bool.
(** whether [open(path, 'r')] succeeds on a file that is there *)
Variable readable : string -> bool.

(** [x or y] on strings *)
Definition str_or (x : option string) (y : string) : string :=
  match x with
  | Some s => if String.eqb s "" then y else s
  | None => y
  end.

(** [_register_tools]: [_create_dynamic_tool] for every tool. *)
Fixpoint register_tools (tools : list Value) (registered : list string) : result unit :=
  match tools with
  | [] => Ok tt
  | tool_config :: tools' =>
      tool_name ← subscript tool_config "name";
      tool_description ← subscript tool_config "description";
      tool_type ← get_or tool_config "type" (VStr "default");
      tool_name ← as_str tool_name;
      framework_tool registered tool_name;;
      register_tools tools' (registered ++ [tool_name])
  end.

(** [DynamicAgent(name, instructions, model, deps_type, output_type, tools)] *)
Definition new_agent (name instructions : string) (model : option string)
  (deps : deps_type) (output : output_type) (tools : option (list Value))
  : result DynamicAgent :=
  let custom_tools := match tools with
                      | Some l => l
                      | None => []
                      end in
  let self_model := str_or model default_model in
  framework_agent self_model deps output instructions;;
  register_tools custom_tools [];;
  Ok {| name := name;
        model := self_model;
        instructions := instructions;
        agent_deps_type := deps;
        agent_output_type := output;
        custom_tools := custom_tools;
        config :=
          [ ("name", VStr name);
            ("instructions", VStr instructions);
            ("model", VStr (str_or model "openai:gpt-4o"));
            ("deps_type", VStr (deps_name deps));
            ("output_type", VStr (output_name output));
            ("tools", VList custom_tools);
            ("created_at", VStr now) ] |}.

(** [_save_agent_config]: a failure to write is logged, not raised.
    Opening the file empties it, so a dump that raises leaves a file
    that holds the beginning of the text at most. *)
Definition _save_agent_config (agent : DynamicAgent) (b : builder) : builder :=
  let config_file := config_path (name agent) in
  if writable config_file
  then {| created_agents := created_agents b;
          files := dict_set config_file
                     (if dumps (VDict (config agent)) then Json (VDict (config agent))
                      else Garbled)
                     (files b) |}
  else b.

(** The [try] block of [load_agent]. *)
Definition load_agent_try (config : Value) : result DynamicAgent :=
  name ← subscript config "name";
  instructions ← subscript config "instructions";
  model ← get_or config "model" VNone;
  deps_key ← subscript config "deps_type";
  deps ← lookup_type deps_type_map deps_key BaseDependencies;
  output_key ← subscript config "output_type";
  output ← lookup_type output_type_map output_key AgentResult;
  tools ← get_or config "tools" (VList []);
  name ← as_str name;
  instructions ← as_str instructions;
  model ← as_optional_str model;
  tools ← as_tools tools;
  new_agent name instructions model deps output tools.

(** [load_agent]: a file that cannot be opened, or that holds no JSON
    (of which [json.load] raises [JSONDecodeError]), ends the [try] as
    any other exception does. *)
Definition load_agent (agent_name : string) (b : builder)
  : option DynamicAgent * builder :=
  let config_file := config_path agent_name in
  match dict_get config_file (files b) with
  | None => (None, b)
  | Some content =>
      if readable config_file then
        match content with
        | Garbled => (None, b)
        | Json config =>
            match load_agent_try config with
            | Ok agent =>
                (Some agent,
                 {| created_agents := dict_set agent_name agent (created_agents b);
                    files := files b |})
            | Raise e => (None, b)
            end
        end
      else (None, b)
  end.

End Builder.

(** *** Saving, then loading *)

(** The four dependency classes and the four output classes that
    [load_agent] maps back from their names. *)
Definition known_deps (d : deps_type) : bool :=
  match d with
  | OtherDependencies _ => false
  | _ => true
  end.

Definition known_output (o : output_type) : bool :=
  match o with
  | OtherOutput _ => false
  | _ => true
  end.

Lemma lookup_known_deps d :
  known_deps d = true ->
  lookup_type deps_type_map (VStr (deps_name d)) BaseDependencies = Ok d.
Proof. destruct d; simpl; intros; [reflexivity .. | discriminate]. Qed.

Lemma lookup_known_output o :
  known_output o = true ->
  lookup_type output_type_map (VStr (output_name o)) AgentResult = Ok o.
Proof. destruct o; simpl; intros; [reflexivity .. | discriminate]. Qed.

Lemma str_or_nonempty (x : option string) (y : string) :
  y <> "" -> String.eqb (str_or x y) "" = false.
Proof.
  intros Hy. unfold str_or. destruct x as [s|].
  - destruct (String.eqb s "") eqn:E; [now apply String.eqb_neq | exact E].
  - now apply String.eqb_neq.
Qed.

Lemma bind_Ok {A B : Type} (a : A) (k : A -> result B) : (Ok a ≫= k) = k a.
Proof. reflexivity. Qed.

Section BuilderFacts.
Variable default_model : string.
Variable framework_agent : string -> deps_type -> output_type -> string -> result unit.
Variable framework_tool : list string -> string -> result unit.
Variable writable : string -> bool.
Variable dumps : Value -> bool.
Variable readable : string -> bool.

(** X27: saving an agent, where the file can be opened and the dump of
    the configuration runs to its end, and loading it by its name gives
    back an agent with the same name, instructions, classes and tools,
    and with the model recorded in the file.  That is the model of the
    saved agent when the agent was given one, or when the default model
    of the settings is the ["openai:gpt-4o"] written in the
    constructor. *)
Lemma save_then_load (created loaded_at : string) (agent_name instr : string)
  (given_model : option string) (deps : deps_type) (output : output_type)
  (tools : option (list Value)) (agent : DynamicAgent) (b : builder) :
  new_agent default_model framework_agent framework_tool created
    agent_name instr given_model deps output tools = Ok agent ->
  known_deps deps = true ->
  known_output output = true ->
  writable (config_path agent_name) = true ->
  dumps (VDict (config agent)) = true ->
  readable (config_path agent_name) = true ->
  str_or given_model "openai:gpt-4o" = str_or given_model default_model ->
  exists agent',
    fst (load_agent default_model framework_agent framework_tool loaded_at readable
           (name agent) (_save_agent_config writable dumps agent b)) = Some agent' /\
    name agent' = name agent /\
    instructions agent' = instructions agent /\
    model agent' = model agent /\
    agent_deps_type agent' = agent_deps_type agent /\
    agent_output_type agent' = agent_output_type agent /\
    custom_tools agent' = custom_tools agent.
Proof.
  intros Hnew Hdeps Hout Hw Hdump Hread Hmodel.
  unfold new_agent in Hnew.
  destruct (framework_agent (str_or given_model default_model) deps output instr)
    as [[]|e] eqn:Hfa; [|discriminate].
  change (Ok tt ≫= ?k) with (k tt) in Hnew. cbv beta in Hnew.
  destruct (register_tools framework_tool
              match tools with Some l => l | None => [] end [])
    as [[]|e] eqn:Hreg; [|discriminate].
  change (Ok tt ≫= ?k) with (k tt) in Hnew. cbv beta in Hnew.
  injection Hnew as <-. cbn [name config] in *.
  unfold load_agent, _save_agent_config. cbn [name config]. rewrite Hw, Hdump.
  cbn [files]. rewrite DataTools.dict_get_set_eq, Hread.
  unfold load_agent_try. cbn [subscript get_or dict_get String.eqb Ascii.eqb Bool.eqb].
  assert (Hsame : str_or (Some (str_or given_model "openai:gpt-4o")) default_model =
                  str_or given_model default_model).
  { unfold str_or at 1. rewrite str_or_nonempty by discriminate. exact Hmodel. }
  assert (Hopt : as_optional_str (VStr (str_or given_model "openai:gpt-4o")) =
                 Ok (Some (str_or given_model "openai:gpt-4o"))).
  { unfold as_optional_str. cbn [truthy].
    rewrite str_or_nonempty by discriminate. reflexivity. }
  repeat first
    [ rewrite bind_Ok
    | rewrite (lookup_known_deps _ Hdeps)
    | rewrite (lookup_known_output _ Hout)
    | rewrite Hopt
    | progress cbn [as_str as_tools] ].
  unfold new_agent. rewrite Hsame, Hfa, bind_Ok, Hreg, bind_Ok.
  eexists. split; [reflexivity|]. cbn. repeat split.
Qed.

End BuilderFacts.

(** A run with the default model of the settings set to another model
    than the constructor's literal, and a framework that accepts every
    agent and every tool. *)
Definition other_default : string := "anthropic:claude-3-sonnet".

Definition accept_agent (m : string) (d : deps_type) (o : output_type) (i : string)
  : result unit := Ok tt.

Definition accept_tool (registered : list string) (tool_name : string) : result unit :=
  Ok tt.

Definition empty_builder : builder := {| created_agents := []; files := [] |}.

(** [DynamicAgent(name="helper", instructions="Be brief.")], saved and
    loaded again: the models of the agent, of the file and of the agent
    loaded from it. *)
Definition helper_round_trip : option (string * option Value * option string) :=
  match new_agent other_default accept_agent accept_tool "2025-01-01T00:00:00"
          "helper" "Be brief." None BaseDependencies AgentResult None with
  | Ok agent =>
      let b := _save_agent_config (fun _ => true) (fun _ => true) agent empty_builder in
      Some (model agent,
            dict_get "model" (config agent),
            option_map model
              (fst (load_agent other_default accept_agent accept_tool
                      "2025-01-02T00:00:00" (fun _ => true) (name agent) b)))
  | Raise _ => None
  end.

(** C3 fails for an agent built without a model when the settings name
    another default than ["openai:gpt-4o"]: the agent runs on the default
    of the settings, its file records ["openai:gpt-4o"], and the agent
    loaded from the file runs on that. *)
Theorem load_agent_changes_default_model :
  helper_round_trip =
    Some ("anthropic:claude-3-sonnet",
          Some (VStr "openai:gpt-4o"),
          Some "openai:gpt-4o").
Proof. reflexivity. Qed.

(** The agent of [examples/demo_agent_creation.py], built where the
    default model is the constructor's literal. *)
Definition demo_tools : list Value :=
  [VDict [ ("name", VStr "motivator");
           ("description", VStr "Provides motivational quotes and encouragement");
           ("type", VStr "echo");
           ("parameters", VList [VStr "message"]) ]].

Definition demo_helper : result DynamicAgent :=
  new_agent "openai:gpt-4o" accept_agent accept_tool "2025-01-01T00:00:00"
    "demo_helper" "You are a helpful demo assistant." (Some "openai:gpt-4o")
    ChatDependencies ChatResponse (Some demo_tools).

(** [save_then_load] at [demo_helper]. *)
Lemma save_then_load_witness :
  exists agent,
    demo_helper = Ok agent /\
    exists agent',
      fst (load_agent "openai:gpt-4o" accept_agent accept_tool "2025-01-02T00:00:00"
             (fun _ => true) (name agent)
             (_save_agent_config (fun _ => true) (fun _ => true) agent empty_builder))
        = Some agent' /\
      name agent' = name agent /\
      instructions agent' = instructions agent /\
      model agent' = model agent /\
      agent_deps_type agent' = agent_deps_type agent /\
      agent_output_type agent' = agent_output_type agent /\
      custom_tools agent' = custom_tools agent.
Proof.
  eexists. split; [reflexivity|].
  eapply (save_then_load "openai:gpt-4o" accept_agent accept_tool (fun _ => true)
            (fun _ => true) (fun _ => true) "2025-01-01T00:00:00" "2025-01-02T00:00:00"
            "demo_helper" "You are a helpful demo assistant." (Some "openai:gpt-4o")
            ChatDependencies ChatResponse (Some demo_tools));
    reflexivity.
Defined.

(** *** [delete_agent] and [_create_tool_config] *)

Section Deleting.
(** whether [config_file.unlink()] succeeds *)
Variable removable : string -> bool.

Definition delete_agent (agent_name : string) (b : builder) : result bool * builder :=
  if dict_mem agent_name (created_agents b) then
    let held := Playground.dict_del agent_name (created_agents b) in
    let config_file := config_path agent_name in
    if dict_mem config_file (files b) then
      if removable config_file
      then (Ok true,
            {| created_agents := held;
               files := Playground.dict_del config_file (files b) |})
      else (Raise (Exn OSError config_file true),
            {| created_agents := held; files := files b |})
    else (Ok true, {| created_agents := held; files := files b |})
  else (Ok false, b).

End Deleting.

(** [tool_configs] of [_create_tool_config] *)
Definition tool_configs : list (string * Value) :=
  [ ("echo",
     VDict [ ("name", VStr "echo_tool");
             ("description", VStr "Echoes back the input message");
             ("type", VStr "echo");
             ("parameters", VList [VStr "message"]) ]);
    ("format",
     VDict [ ("name", VStr "text_formatter");
             ("description",
              VStr "Formats text in different ways (upper, lower, title)");
             ("type", VStr "format");
             ("parameters", VList [VStr "text"; VStr "format_type"]) ]);
    ("counter",
     VDict [ ("name", VStr "counter");
             ("description",
              VStr "A simple counter that can increment, decrement, or reset");
             ("type", VStr "counter");
             ("parameters", VList [VStr "action"]) ]) ].

(** [tool_configs.get(tool_type, {})] *)
Definition _create_tool_config (tool_type : string) : Value :=
  match dict_get tool_type tool_configs with
  | Some tool_config => tool_config
  | None => VDict []
  end.

(** The [suggested_tools] of the four [agent_templates]. *)
Definition suggested_tools : list (string * list string) :=
  [ ("chat", ["echo"; "format"]);
    ("specialist", ["counter"; "format"]);
    ("researcher", ["echo"; "counter"]);
    ("analyst", ["format"; "counter"]) ].

Section DeletingFacts.
Variable default_model : string.
Variable framework_agent : string -> deps_type -> output_type -> string -> result unit.
Variable framework_tool : list string -> string -> result unit.
Variable now : string.
Variable removable : string -> bool.
Variable readable : string -> bool.


(** X29: for the three tool types it knows, [_create_tool_config] gives a
    configuration of that type which a [DynamicAgent] registers under its
    name, and every tool that a template suggests is of a known type.
    For any other type it gives the empty dict, and the construction of
    an agent with it fails on the missing ["name"]. *)
Theorem create_tool_config_registers (tool_type : string)
  (agent_name instr : string) (given_model : option string)
  (deps : deps_type) (output : output_type) :
  framework_agent (str_or given_model default_model) deps output instr = Ok tt ->
  Forall (fun template =>
            Forall (fun t => dict_mem t tool_configs = true) (snd template))
    suggested_tools /\
  (dict_mem tool_type tool_configs = true ->
     subscript (_create_tool_config tool_type) "type" = Ok (VStr tool_type) /\
     exists tool_name,
       subscript (_create_tool_config tool_type) "name" = Ok (VStr tool_name) /\
       (framework_tool [] tool_name = Ok tt ->
        exists agent,
          new_agent default_model framework_agent framework_tool now agent_name instr
            given_model deps output (Some [_create_tool_config tool_type]) = Ok agent /\
          custom_tools agent = [_create_tool_config tool_type])) /\
  (dict_mem tool_type tool_configs = false ->
     _create_tool_config tool_type = VDict [] /\
     exists e,
       new_agent default_model framework_agent framework_tool now agent_name instr
         given_model deps output (Some [_create_tool_config tool_type]) = Raise e /\
       exn_class_of e = KeyError).
Proof.
  intros Hagent. split; [repeat constructor|]. split.
  - intros Hknown. unfold dict_mem, _create_tool_config in *.
    unfold new_agent. rewrite Hagent.
    cbn [tool_configs dict_get] in *.
    destruct (String.eqb tool_type "echo") eqn:E1;
      [apply String.eqb_eq in E1; subst|
       destruct (String.eqb tool_type "format") eqn:E2;
       [apply String.eqb_eq in E2; subst|
        destruct (String.eqb tool_type "counter") eqn:E3;
        [apply String.eqb_eq in E3; subst | discriminate]]];
      (split; [reflexivity|]; eexists; split; [reflexivity|]);
      intros Htool; cbn; rewrite Htool; eexists; split; reflexivity.
  - intros Hunknown. unfold _create_tool_config.
    rewrite (DataTools.dict_get_mem_false _ _ Hunknown). split; [reflexivity|].
    unfold new_agent. rewrite Hagent. eexists. split; reflexivity.
Qed.

End DeletingFacts.

(** A dump that raises leaves a file that [load_agent] cannot read. *)
Example save_agent_config_cut_short :
  match demo_helper with
  | Ok agent =>
      let saved := _save_agent_config (fun _ => true) (fun _ => false) agent
                     empty_builder in
      files saved = [("generated/agents/demo_helper.json", Garbled)] /\
      load_agent "openai:gpt-4o" accept_agent accept_tool "2025-01-02T00:00:00"
        (fun _ => true) "demo_helper" saved = (None, saved)
  | Raise _ => False
  end.
Proof. vm_compute. split; reflexivity. Qed.

(** The agent of [demo_helper], saved, then deleted: it cannot be loaded
    again. *)
Example delete_agent_demo_helper :
  match demo_helper with
  | Ok agent =>
      let saved := _save_agent_config (fun _ => true) (fun _ => true) agent
                     {| created_agents := [("demo_helper", agent)]; files := [] |} in
      let '(deleted, after) := delete_agent (fun _ => true) "demo_helper" saved in
      deleted = Ok true /\
      dict_keys (files saved) = ["generated/agents/demo_helper.json"] /\
      files after = [] /\
      fst (load_agent "openai:gpt-4o" accept_agent accept_tool "2025-01-02T00:00:00"
             (fun _ => true) "demo_helper" after) = None
  | Raise _ => False
  end.
Proof. vm_compute. repeat split. Qed.

(** The echo tool, which the chat template suggests. *)
Lemma create_tool_config_registers_witness :
  Forall (fun template =>
            Forall (fun t => dict_mem t tool_configs = true) (snd template))
    suggested_tools /\
  (dict_mem "echo" tool_configs = true ->
     subscript (_create_tool_config "echo") "type" = Ok (VStr "echo") /\
     exists tool_name,
       subscript (_create_tool_config "echo") "name" = Ok (VStr tool_name) /\
       (accept_tool [] tool_name = Ok tt ->
        exists agent,
          new_agent "openai:gpt-4o" accept_agent accept_tool "2025-01-01T00:00:00"
            "helper" "Be brief." None BaseDependencies AgentResult
            (Some [_create_tool_config "echo"]) = Ok agent /\
          custom_tools agent = [_create_tool_config "echo"])) /\
  (dict_mem "echo" tool_configs = false ->
     _create_tool_config "echo" = VDict [] /\
     exists e,
       new_agent "openai:gpt-4o" accept_agent accept_tool "2025-01-01T00:00:00"
         "helper" "Be brief." None BaseDependencies AgentResult
         (Some [_create_tool_config "echo"]) = Raise e /\
       exn_class_of e = KeyError).
Proof.
  apply (create_tool_config_registers "openai:gpt-4o" accept_agent accept_tool
           "2025-01-01T00:00:00" "echo" "helper" "Be brief." None
           BaseDependencies AgentResult).
  reflexivity.
Defined.

End AgentBuilder.
